(** * ublock-chrome: a shallow embedding of [src/ublock_chrome/cli.py]

    The command line tool downloads a browser extension, unpacks it into a
    fixed directory, builds a launcher bundle and controls the browser
    process.  The embedding keeps the shape of the Python source: every
    function of [cli.py] that the properties below talk about is a
    definition of the same name, written in a small state-and-exception
    monad over an explicit world (file system tree, temporary files,
    trace of prints and subprocess calls). *)

From Stdlib Require Import List String Ascii Bool Arith ZArith NArith Lia.
Import ListNotations.
Open Scope string_scope.

Set Implicit Arguments.
Set Warnings "-register-all".

(* ================================================================== *)
(** * Python strings

    [str] values are modelled as Rocq strings, that is, as byte strings.
    Case folding is the ASCII one: the capital letters A to Z are mapped
    to their small forms and every other byte is left alone. *)
(* ================================================================== *)

Module PyStr.

Definition lower_ascii (c : ascii) : ascii :=
  let n := nat_of_ascii c in
  if andb (Nat.leb 65 n) (Nat.leb n 90) then ascii_of_nat (n + 32) else c.

(** [s.lower()] *)
Fixpoint lower (s : string) : string :=
  match s with
  | EmptyString => EmptyString
  | String c r => String (lower_ascii c) (lower r)
  end.

(** [s.startswith(p)] *)
Fixpoint startswith (p s : string) : bool :=
  match p, s with
  | EmptyString, _ => true
  | String a p', String b s' => andb (Ascii.eqb a b) (startswith p' s')
  | String _ _, EmptyString => false
  end.

(** [sub in s] *)
Fixpoint contains (sub s : string) : bool :=
  orb (startswith sub s)
      match s with
      | EmptyString => false
      | String _ r => contains sub r
      end.

(** [s.endswith(suf)] *)
Fixpoint endswith (suf s : string) : bool :=
  orb (String.eqb suf s)
      match s with
      | EmptyString => false
      | String _ r => endswith suf r
      end.

(** [c * n] for a one-character string [c] *)
Fixpoint repeat_str (c : string) (n : nat) : string :=
  match n with
  | O => ""
  | S k => c ++ repeat_str c k
  end.

(** [sep.join(l)] *)
Fixpoint join (sep : string) (l : list string) : string :=
  match l with
  | [] => ""
  | [x] => x
  | x :: r => x ++ sep ++ join sep r
  end.

End PyStr.

(* ================================================================== *)
(** * Exceptions and results *)
(* ================================================================== *)

(** The Python exceptions that the modelled code paths can raise. *)
Inductive exn : Type :=
| RuntimeError (msg : string)
| SystemExit (code : Z)
| ShutilError (msg : string)
| FileNotFoundError
| FileExistsError
| NotADirectoryError
| IsADirectoryError
| OSError (msg : string)
| URLError (reason : string)
| BadZipFile
| JSONDecodeError
| UnicodeDecodeError.

Inductive result (A : Type) : Type :=
| Ok (a : A)
| Raise (e : exn).
Arguments Ok {A} a.
Arguments Raise {A} e.

(* ================================================================== *)
(** * The file system

    A tree of directories and regular files.  A directory lists its
    entries in the order in which [iterdir] yields them.  Symbolic links,
    ownership and permission failures are outside the model. *)
(* ================================================================== *)

Module Fs.

Definition path := list string.

Inductive node : Type :=
| File (mode : N) (data : string)
| Dir (entries : list (string * node)).

(** [str(p)] for an absolute [Path]. *)
Definition path_str (p : path) : string :=
  match p with
  | [] => "/"
  | _ => String.concat "" (map (fun c => "/" ++ c) p)
  end.

Section Entries.
Variable A : Type.

Fixpoint assoc (x : string) (es : list (string * A)) : option A :=
  match es with
  | [] => None
  | (y, a) :: r => if String.eqb x y then Some a else assoc x r
  end.

Fixpoint remove_entry (x : string) (es : list (string * A)) : list (string * A) :=
  match es with
  | [] => []
  | (y, a) :: r =>
      if String.eqb x y then remove_entry x r else (y, a) :: remove_entry x r
  end.

(** Replace the entry called [x] in place, or add it after the others. *)
Fixpoint set_entry (x : string) (a : A) (es : list (string * A)) : list (string * A) :=
  match es with
  | [] => [(x, a)]
  | (y, b) :: r =>
      if String.eqb x y then (x, a) :: r else (y, b) :: set_entry x a r
  end.
End Entries.

Definition names (es : list (string * node)) : list string := map fst es.

(** Resolve a path from the node [n]. *)
Fixpoint lookup (n : node) (p : path) {struct p} : option node :=
  match p with
  | [] => Some n
  | x :: q =>
      match n with
      | File _ _ => None
      | Dir es =>
          match assoc x es with
          | Some c => lookup c q
          | None => None
          end
      end
  end.

Definition exists_ (n : node) (p : path) : bool :=
  match lookup n p with Some _ => true | None => false end.

Definition is_dir (n : node) (p : path) : bool :=
  match lookup n p with Some (Dir _) => true | _ => false end.

(** The one primitive that changes a tree: walk down to the parent of the
    last component of [p] and let [f] decide what becomes of that entry
    ([None] removes it).  The walk fails like the system calls do. *)
Fixpoint alter (f : option node -> result (option node)) (p : path) (n : node)
  {struct p} : result node :=
  match p with
  | [] => Raise (OSError "cannot replace the root")
  | x :: q =>
      match n with
      | File _ _ => Raise NotADirectoryError
      | Dir es =>
          match q with
          | [] =>
              match f (assoc x es) with
              | Ok (Some c) => Ok (Dir (set_entry x c es))
              | Ok None => Ok (Dir (remove_entry x es))
              | Raise e => Raise e
              end
          | _ :: _ =>
              match assoc x es with
              | None => Raise FileNotFoundError
              | Some c =>
                  match alter f q c with
                  | Ok c' => Ok (Dir (set_entry x c' es))
                  | Raise e => Raise e
                  end
              end
          end
      end
  end.

(** [shutil.rmtree(p)] *)
Definition rmtree : path -> node -> result node :=
  alter (fun o => match o with
                  | None => Raise FileNotFoundError
                  | Some (File _ _) => Raise NotADirectoryError
                  | Some (Dir _) => Ok None
                  end).

(** [os.unlink(p)] *)
Definition unlink : path -> node -> result node :=
  alter (fun o => match o with
                  | None => Raise FileNotFoundError
                  | Some (File _ _) => Ok None
                  | Some (Dir _) => Raise (OSError "is a directory")
                  end).

(** [Path.rmdir()] *)
Definition rmdir : path -> node -> result node :=
  alter (fun o => match o with
                  | None => Raise FileNotFoundError
                  | Some (File _ _) => Raise NotADirectoryError
                  | Some (Dir []) => Ok None
                  | Some (Dir (_ :: _)) => Raise (OSError "directory not empty")
                  end).

(** [Path.mkdir(exist_ok=...)] without [parents]. *)
Definition mkdir (exist_ok : bool) : path -> node -> result node :=
  alter (fun o => match o with
                  | None => Ok (Some (Dir []))
                  | Some (Dir es) =>
                      if exist_ok then Ok (Some (Dir es)) else Raise FileExistsError
                  | Some (File _ _) => Raise FileExistsError
                  end).

(** The chain of fresh directories [q] below a new directory. *)
Fixpoint fresh_dirs (q : path) : node :=
  match q with
  | [] => Dir []
  | x :: r => Dir [(x, fresh_dirs r)]
  end.

(** [Path.mkdir(parents=True, exist_ok=...)], also [os.makedirs]. *)
Fixpoint mkdir_parents (exist_ok : bool) (p : path) (n : node) {struct p}
  : result node :=
  match n with
  | File _ _ =>
      Raise (match p with [] => FileExistsError | _ :: _ => NotADirectoryError end)
  | Dir es =>
      match p with
      | [] => if exist_ok then Ok n else Raise FileExistsError
      | x :: q =>
          match assoc x es with
          | Some c =>
              match mkdir_parents exist_ok q c with
              | Ok c' => Ok (Dir (set_entry x c' es))
              | Raise e => Raise e
              end
          | None => Ok (Dir (set_entry x (fresh_dirs q) es))
          end
      end
  end.

(** [Path.write_text(data)]: create (with the mode the umask leaves) or
    truncate and rewrite (the mode stays). *)
Definition write_text (new_mode : N) (data : string) : path -> node -> result node :=
  alter (fun o => match o with
                  | None => Ok (Some (File new_mode data))
                  | Some (File m _) => Ok (Some (File m data))
                  | Some (Dir _) => Raise IsADirectoryError
                  end).

(** [Path.chmod(mode)] *)
Definition chmod (mode : N) : path -> node -> result node :=
  alter (fun o => match o with
                  | None => Raise FileNotFoundError
                  | Some (File _ d) => Ok (Some (File mode d))
                  | Some (Dir es) => Ok (Some (Dir es))
                  end).

(** Put the node [c] at [p], over whatever is there. *)
Definition put (c : node) : path -> node -> result node :=
  alter (fun _ => Ok (Some c)).

(** Take the entry at [p] away, whatever it is. *)
Definition detach : path -> node -> result node :=
  alter (fun o => match o with
                  | None => Raise FileNotFoundError
                  | Some _ => Ok None
                  end).

(** [shutil.copy2(src, dst)]: data and mode of a regular file. *)
Definition copy2 (src dst : path) (n : node) : result node :=
  match lookup n src with
  | None => Raise FileNotFoundError
  | Some (Dir _) => Raise IsADirectoryError
  | Some (File m d) =>
      alter (fun o => match o with
                      | Some (Dir _) => Raise IsADirectoryError
                      | _ => Ok (Some (File m d))
                      end) dst n
  end.

(** [shutil.copytree(src, dst)]: the destination must not exist; its
    missing parents are created; files keep data and mode. *)
Definition copytree (src dst : path) (n : node) : result node :=
  match lookup n src with
  | None => Raise FileNotFoundError
  | Some (File _ _) => Raise NotADirectoryError
  | Some (Dir es) =>
      match mkdir_parents false dst n with
      | Ok n1 => put (Dir es) dst n1
      | Raise e => Raise e
      end
  end.

Definition path_eqb (p q : path) : bool :=
  if list_eq_dec string_dec p q then true else false.

(** The last component of a path. *)
Definition basename (p : path) : string := last p "".

(** [shutil.move(src, dst)], as documented: an existing directory [dst]
    receives [src] inside it, under the name of [src], and that name must
    be free there (moving a directory onto itself is a plain rename);
    otherwise [src] is renamed to [dst]: a regular file at [dst] is
    replaced by a regular file and stands in the way of a directory.  The
    program only moves into a directory that exists, so the copying
    fall-back for a rename that the system refuses is not modelled. *)
Definition move (src dst : path) (n : node) : result node :=
  match lookup n src with
  | None => Raise FileNotFoundError
  | Some c =>
      match lookup n dst with
      | Some (Dir _) =>
          let real_dst := (dst ++ [basename src])%list in
          if path_eqb src dst then Ok n
          else if exists_ n real_dst
          then Raise (ShutilError ("Destination path '" ++ path_str real_dst
                                   ++ "' already exists"))
          else match detach src n with
               | Ok n1 => put c real_dst n1
               | Raise e => Raise e
               end
      | Some (File _ _) =>
          match c with
          | Dir _ => Raise FileExistsError
          | File _ _ =>
              match detach src n with
              | Ok n1 => put c dst n1
              | Raise e => Raise e
              end
          end
      | None =>
          match detach src n with
          | Ok n1 => put c dst n1
          | Raise e => Raise e
          end
      end
  end.

End Fs.

(* ================================================================== *)
(** * The world outside the interpreter *)
(* ================================================================== *)

Import Fs.

(** A decoded JSON document ([json.load]). *)
Inductive json : Type :=
| JNull
| JBool (b : bool)
| JNumber (z : Z)
| JString (s : string)
| JArray (l : list json)
| JObject (members : list (string * json)).

(** One entry of the release descriptor's ["assets"] array. *)
Record asset : Type := {
  name : string;
  browser_download_url : string
}.

(** The release descriptor sent by the release index; [data.get] supplies
    defaults for the two top-level keys.  The index is taken to answer
    with a release object whose assets are objects with these two string
    fields; an answer of another shape (on which [data.get], [asset[...]]
    or [name.lower] raise [AttributeError], [KeyError] or [TypeError]) is
    outside the model. *)
Record release : Type := {
  tag_name : option string;
  assets : option (list asset)
}.

(** What the program writes and the processes it starts, in order. *)
Inductive event : Type :=
| Print (line : string)
| PrintErr (text : string)
| Run (argv : list string)
| Popen (argv : list string)
| Sleep (milliseconds : nat).

(** The mutable state: the file system, the directory of temporary files
    (kept apart from the tree above), the trace of events, and how many
    times the process table has been queried. *)
Record world : Type := {
  fs : node;
  tmpfiles : list (string * string);
  trace : list event;
  pgreps : nat
}.

(** What the surroundings answer.  Every field is arbitrary. *)
Record environment : Type := {
  platform : string;                  (* sys.platform *)
  home : path;                        (* Path.home() *)
  umask : N;                          (* process umask *)
  tmp_name : string;                  (* name picked by tempfile *)
  api_latest : result release;        (* GET of the release index, decoded *)
  http_get : string -> result string; (* body behind a URL *)
  unzip : string -> list (string * node) * option exn;
                                      (* entries written by extractall, and
                                         the failure that stopped it *)
  json_loads : string -> option json; (* json decoding *)
  pgrep_rc : nat -> Z;                (* exit status of the k-th pgrep *)
  is_text : string -> bool            (* whether the bytes of a file decode
                                         in the encoding of open() *)
}.

(** ** State and exceptions *)

Definition M (A : Type) : Type := world -> result A * world.

Definition ret {A} (a : A) : M A := fun w => (Ok a, w).

Definition raise {A} (e : exn) : M A := fun w => (Raise e, w).

Definition bind {A B} (c : M A) (k : A -> M B) : M B :=
  fun w => match c w with
           | (Ok a, w') => k a w'
           | (Raise e, w') => (Raise e, w')
           end.

Declare Scope py_scope.
Delimit Scope py_scope with py.
Notation "x <- c ;; k" := (bind c (fun x => k))
  (at level 61, c at next level, right associativity) : py_scope.
Notation "c ;; k" := (bind c (fun _ => k))
  (at level 61, right associativity) : py_scope.
Open Scope py_scope.

(** [try: body finally: cleanup] *)
Definition try_finally {A} (body : M A) (cleanup : M unit) : M A :=
  fun w => match body w with
           | (r, w1) =>
               match cleanup w1 with
               | (Ok _, w2) => (r, w2)
               | (Raise e, w2) => (Raise e, w2)
               end
           end.

Definition when (b : bool) (c : M unit) : M unit := if b then c else ret tt.

(** [for x in l: body(x)] *)
Fixpoint for_each {A} (l : list A) (body : A -> M unit) : M unit :=
  match l with
  | [] => ret tt
  | x :: r => body x ;; for_each r body
  end.

Definition emit (e : event) : M unit :=
  fun w => (Ok tt, {| fs := fs w; tmpfiles := tmpfiles w;
                      trace := trace w ++ [e]; pgreps := pgreps w |}).

(** Run a file system operation on the tree of the world. *)
Definition on_fs (op : node -> result node) : M unit :=
  fun w => match op (fs w) with
           | Ok n => (Ok tt, {| fs := n; tmpfiles := tmpfiles w;
                                trace := trace w; pgreps := pgreps w |})
           | Raise e => (Raise e, w)
           end.

Definition read_fs {A} (q : node -> A) : M A := fun w => (Ok (q (fs w)), w).

Definition set_tmpfiles (t : list (string * string)) : M unit :=
  fun w => (Ok tt, {| fs := fs w; tmpfiles := t; trace := trace w;
                      pgreps := pgreps w |}).

Definition print (line : string) : M unit := emit (Print line).
Definition print_err (text : string) : M unit := emit (PrintErr text).
Definition sleep (ms : nat) : M unit := emit (Sleep ms).
Definition sys_exit {A} (code : Z) : M A := raise (SystemExit code).

Definition nl : string := String (ascii_of_nat 10) "".
Definition dq : string := String (ascii_of_nat 34) "".

Definition bs : string := String (ascii_of_nat 92) "".
(** U+2014 as written by [write_text] (UTF-8). *)
Definition em_dash : string :=
  String (ascii_of_nat 226) (String (ascii_of_nat 128) (String (ascii_of_nat 148) "")).

(** Lines joined with, and closed by, a newline. *)
Definition text_of_lines (l : list string) : string :=
  String.concat "" (map (fun x => x ++ nl) l).

(* ================================================================== *)
(** * cli.py *)
(* ================================================================== *)

Module Cli.

Section WithEnvironment.

Variable E : environment.

(** ** Constants *)

Definition INSTALL_DIR : path := (home E ++ [".ublock-chrome"])%list.
Definition EXTENSION_DIR : path := (INSTALL_DIR ++ ["extension"])%list.
Definition APP_NAME : string := "Chrome (uBO).app".
Definition GITHUB_API_LATEST : string :=
  "https://api.github.com/repos/gorhill/uBlock/releases/latest".
Definition CHROME_APP_PATH : string := "/Applications/Google Chrome.app".

Definition MV2_FLAGS : string :=
  "--disable-features=ExtensionManifestV2Unsupported,ExtensionManifestV2Disabled".

(** [Path(CHROME_APP_PATH)] *)
Definition chrome_app : path := ["Applications"; "Google Chrome.app"].

(** ** Library calls *)

Definition path_exists (p : path) : M bool := read_fs (fun n => exists_ n p).
Definition path_is_dir (p : path) : M bool := read_fs (fun n => is_dir n p).

(** [list(p.iterdir())]: the children of [p], as paths. *)
Definition iterdir (p : path) : M (list path) :=
  fun w => match lookup (fs w) p with
           | Some (Dir es) => (Ok (map (fun x => (p ++ [x])%list) (names es)), w)
           | Some (File _ _) => (Raise NotADirectoryError, w)
           | None => (Raise FileNotFoundError, w)
           end.

(** Mode of a file created by [open(..., "w")]: [0o666 & ~umask]. *)
Definition new_file_mode : N := N.ldiff 438 (umask E).

(** [tempfile.NamedTemporaryFile(suffix=".zip", delete=False)]: an empty
    file under a name that was free; its name is returned. *)
Definition NamedTemporaryFile : M string :=
  fun w => match assoc (tmp_name E) (tmpfiles w) with
           | Some _ => (Raise FileExistsError, w)
           | None =>
               (Ok (tmp_name E),
                {| fs := fs w;
                   tmpfiles := (tmpfiles w ++ [(tmp_name E, "")])%list;
                   trace := trace w; pgreps := pgreps w |})
           end.

(** [urllib.request.urlretrieve(url, tmp_path)] *)
Definition urlretrieve (url tmp_path : string) : M unit :=
  fun w => match http_get E url with
           | Raise e => (Raise e, w)
           | Ok body => set_tmpfiles (set_entry tmp_path body (tmpfiles w)) w
           end.

(** [os.unlink(tmp_path)] *)
Definition os_unlink (tmp_path : string) : M unit :=
  fun w => match assoc tmp_path (tmpfiles w) with
           | None => (Raise FileNotFoundError, w)
           | Some _ => set_tmpfiles (remove_entry tmp_path (tmpfiles w)) w
           end.

(** Entries written into a directory replace those of the same name. *)
Definition write_entries (es0 new : list (string * node)) : list (string * node) :=
  fold_left (fun acc e => set_entry (fst e) (snd e) acc) new es0.

(** [with zipfile.ZipFile(tmp_path, "r") as zf: zf.extractall(target)] *)
Definition extractall (tmp_path : string) (target : path) : M unit :=
  fun w => match assoc tmp_path (tmpfiles w) with
           | None => (Raise FileNotFoundError, w)
           | Some bytes =>
               let '(written, failure) := unzip E bytes in
               (on_fs (alter (fun o =>
                          match o with
                          | Some (Dir es0) => Ok (Some (Dir (write_entries es0 written)))
                          | Some (File _ _) => Raise NotADirectoryError
                          | None => match written with
                                    | [] => Ok None
                                    | _ :: _ => Ok (Some (Dir written))
                                    end
                          end) target) ;;
                match failure with
                | Some e => raise e
                | None => ret tt
                end) w
           end.

(** [open(p)] followed by reading the whole file. *)
Definition open_read (p : path) : M string :=
  fun w => match lookup (fs w) p with
           | Some (File _ d) => (Ok d, w)
           | Some (Dir _) => (Raise IsADirectoryError, w)
           | None => (Raise FileNotFoundError, w)
           end.

(** [json.load(f)] on a file opened in text mode: [json_loads E data] is
    the document read from the content [data], if there is one.  When
    there is none, reading fails first if the bytes are not text, and
    parsing fails otherwise. *)
Definition decode_failure (data : string) : exn :=
  if is_text E data then JSONDecodeError else UnicodeDecodeError.

Definition json_load (data : string) : M json :=
  match json_loads E data with
  | Some j => ret j
  | None => raise (decode_failure data)
  end.

(** [subprocess.run(argv, capture_output=True)] where the exit status is
    not looked at. *)
Definition subprocess_run (argv : list string) : M unit := emit (Run argv).

(** [subprocess.run(["pgrep", "-x", "Google Chrome"], ...).returncode] *)
Definition pgrep : M Z :=
  fun w => (Ok (pgrep_rc E (pgreps w)),
            {| fs := fs w; tmpfiles := tmpfiles w;
               trace := (trace w ++ [Run ["pgrep"; "-x"; "Google Chrome"]])%list;
               pgreps := S (pgreps w) |}).

(** ** Helpers *)

Definition _print_header (text : string) : M unit :=
  let width := 54 in
  print "" ;;
  print (PyStr.repeat_str "=" width) ;;
  print ("  " ++ text) ;;
  print (PyStr.repeat_str "=" width) ;;
  print "".

Definition _check_macos : M unit :=
  if negb (String.eqb (platform E) "darwin") then
    print_err "Error: ublock-chrome is macOS-only." ;;
    sys_exit 1
  else ret tt.

Definition _check_chrome : M unit :=
  ex <- path_exists chrome_app ;;
  if negb ex then
    print_err ("Error: Google Chrome not found at " ++ CHROME_APP_PATH ++ nl
               ++ "Install Chrome first, or set CHROME_APP_PATH if it's elsewhere.") ;;
    sys_exit 1
  else ret tt.

(** ** Core operations *)

Definition is_chromium_zip (name : string) : bool :=
  PyStr.contains "chromium" (PyStr.lower name) && PyStr.endswith ".zip" name.

Definition no_asset_message (tag : string) : string :=
  "Could not find a Chromium .zip asset in the latest uBlock Origin release." ++ nl
  ++ "Check https://github.com/gorhill/uBlock/releases/tag/" ++ tag.

(** The [for asset in ...] loop with its early [return], and the [raise]
    after it. *)
Fixpoint select_asset (tag : string) (l : list asset) : M (string * string) :=
  match l with
  | [] => raise (RuntimeError (no_asset_message tag))
  | asset :: rest =>
      if is_chromium_zip (name asset)
      then ret (browser_download_url asset, tag)
      else select_asset tag rest
  end.

(** [with urllib.request.urlopen(req) as resp: json.loads(...)] *)
Definition urlopen_json : M release :=
  match api_latest E with
  | Ok data => ret data
  | Raise e => raise e
  end.

(** [d.get(key, default)] on a key that may be missing. *)
Definition get {A} (field : option A) (default : A) : A :=
  match field with Some v => v | None => default end.

Definition fetch_latest_release_url : M (string * string) :=
  data <- urlopen_json ;;
  let tag := get (tag_name data) "unknown" in
  select_asset tag (get (assets data) []).

Definition manifest_path : path := (EXTENSION_DIR ++ ["manifest.json"])%list.

Definition missing_manifest_message : string :=
  "manifest.json not found after extraction in " ++ path_str EXTENSION_DIR.

(** Lines 113-116: clean previous install. *)
Definition clean_previous_install : M unit :=
  ex <- path_exists EXTENSION_DIR ;;
  when ex (on_fs (rmtree EXTENSION_DIR)) ;;
  on_fs (mkdir_parents true EXTENSION_DIR).

(** Lines 118-126: download into a temporary file and unpack it. *)
Definition download_and_unpack (url : string) : M unit :=
  tmp_path <- NamedTemporaryFile ;;
  try_finally
    (urlretrieve url tmp_path ;;
     extractall tmp_path EXTENSION_DIR)
    (os_unlink tmp_path).

(** Lines 128-139: a single wrapping directory is moved up one level. *)
Definition flatten_single_subdir : M unit :=
  children <- iterdir EXTENSION_DIR ;;
  match children with
  | [child] =>
      d <- path_is_dir child ;;
      m <- (if d then path_exists (child ++ ["manifest.json"])%list else ret false) ;;
      when m
        (let subdir := child in
         items <- iterdir subdir ;;
         for_each items
           (fun item => on_fs (move item (EXTENSION_DIR ++ [basename item])%list)) ;;
         on_fs (rmdir subdir))
  | _ => ret tt
  end.

(** Lines 141-146: the manifest must be there; it is decoded. *)
Definition load_manifest : M json :=
  ex <- path_exists manifest_path ;;
  if negb ex then raise (RuntimeError missing_manifest_message)
  else
    data <- open_read manifest_path ;;
    json_load data.

Definition download_and_extract (url : string) : M json :=
  clean_previous_install ;;
  download_and_unpack url ;;
  flatten_single_subdir ;;
  load_manifest.

Definition launcher_script (ext_path : string) : string :=
  text_of_lines
    [
     "#!/bin/bash";
     "# ---------------------------------------------------------------";
     "# Chrome (uBO) " ++ em_dash ++ " auto-generated by ublock-chrome";
     "# Launches Google Chrome with Manifest-V2 flags + uBlock Origin";
     "# ---------------------------------------------------------------";
     "";
     "CHROME_APP=" ++ dq ++ CHROME_APP_PATH ++ dq;
     "";
     "# If Chrome is already running, the flags will be ignored.";
     "# Offer to quit & relaunch.";
     "if pgrep -x " ++ dq ++ "Google Chrome" ++ dq ++ " > /dev/null 2>&1; then";
     "    CHOICE=$(osascript -e '";
     "        display dialog " ++ dq ++ "Chrome is already running." ++ bs ++ "n" ++ bs ++ "nFlags are only applied on a fresh launch. Quit Chrome and relaunch with uBlock Origin?" ++ dq ++ " " ++ bs;
     "            buttons {" ++ dq ++ "Cancel" ++ dq ++ ", " ++ dq ++ "Quit Chrome & Relaunch" ++ dq ++ "} " ++ bs;
     "            default button " ++ dq ++ "Quit Chrome & Relaunch" ++ dq ++ " " ++ bs;
     "            with title " ++ dq ++ "Chrome (uBO)" ++ dq ++ " " ++ bs;
     "            with icon caution' -e 'button returned of result' 2>/dev/null)";
     "";
     "    if [ " ++ dq ++ "$CHOICE" ++ dq ++ " != " ++ dq ++ "Quit Chrome & Relaunch" ++ dq ++ " ]; then";
     "        exit 0";
     "    fi";
     "";
     "    osascript -e 'tell application " ++ dq ++ "Google Chrome" ++ dq ++ " to quit' 2>/dev/null";
     "";
     "    # Wait up to 15 s for Chrome to exit gracefully";
     "    for i in $(seq 1 30); do";
     "        pgrep -x " ++ dq ++ "Google Chrome" ++ dq ++ " > /dev/null 2>&1 || break";
     "        sleep 0.5";
     "    done";
     "";
     "    # Force-kill stragglers";
     "    if pgrep -x " ++ dq ++ "Google Chrome" ++ dq ++ " > /dev/null 2>&1; then";
     "        pkill -9 -x " ++ dq ++ "Google Chrome" ++ dq;
     "        sleep 1";
     "    fi";
     "fi";
     "";
     "open -a " ++ dq ++ "$CHROME_APP" ++ dq ++ " --args " ++ bs;
     "    " ++ MV2_FLAGS ++ " " ++ bs;
     "    --load-extension=" ++ dq ++ ext_path ++ dq
    ].

Definition info_plist : string :=
  text_of_lines
    [
     "<?xml version=" ++ dq ++ "1.0" ++ dq ++ " encoding=" ++ dq ++ "UTF-8" ++ dq ++ "?>";
     "<!DOCTYPE plist PUBLIC " ++ dq ++ "-//Apple//DTD PLIST 1.0//EN" ++ dq;
     "  " ++ dq ++ "http://www.apple.com/DTDs/PropertyList-1.0.dtd" ++ dq ++ ">";
     "<plist version=" ++ dq ++ "1.0" ++ dq ++ ">";
     "<dict>";
     "    <key>CFBundleExecutable</key>      <string>launch.sh</string>";
     "    <key>CFBundleIdentifier</key>      <string>com.ublock-chrome.launcher</string>";
     "    <key>CFBundleName</key>            <string>Chrome (uBO)</string>";
     "    <key>CFBundleDisplayName</key>     <string>Chrome (uBO)</string>";
     "    <key>CFBundleVersion</key>         <string>1.0</string>";
     "    <key>CFBundlePackageType</key>     <string>APPL</string>";
     "    <key>CFBundleIconFile</key>        <string>AppIcon</string>";
     "    <key>LSMinimumSystemVersion</key>  <string>10.15</string>";
     "    <key>NSHighResolutionCapable</key> <true/>";
     "</dict>";
     "</plist>"
    ].

Definition create_launcher_app : M path :=
  let app_dir := (INSTALL_DIR ++ [APP_NAME])%list in
  let contents := (app_dir ++ ["Contents"])%list in
  let macos := (contents ++ ["MacOS"])%list in
  let resources := (contents ++ ["Resources"])%list in
  ex <- path_exists app_dir ;;
  when ex (on_fs (rmtree app_dir)) ;;
  on_fs (mkdir_parents false macos) ;;
  on_fs (mkdir_parents false resources) ;;
  let ext_path := path_str EXTENSION_DIR in
  let launcher := (macos ++ ["launch.sh"])%list in
  on_fs (write_text new_file_mode (launcher_script ext_path) launcher) ;;
  on_fs (chmod 493 launcher) ;;
  on_fs (write_text new_file_mode info_plist (contents ++ ["Info.plist"])%list) ;;
  let chrome_icon := (chrome_app ++ ["Contents"; "Resources"; "app.icns"])%list in
  icon <- path_exists chrome_icon ;;
  when icon (on_fs (copy2 chrome_icon (resources ++ ["AppIcon.icns"])%list)) ;;
  ret app_dir.

Definition install_app_to_applications (app_dir : path) : M path :=
  let dest_dir := (home E ++ ["Applications"])%list in
  on_fs (mkdir true dest_dir) ;;
  let dest := (dest_dir ++ [APP_NAME])%list in
  ex <- path_exists dest ;;
  when ex (on_fs (rmtree dest)) ;;
  on_fs (copytree app_dir dest) ;;
  ret dest.

(** The [for _ in range(rounds)] loop of [quit_chrome_if_running]; the
    answer tells whether the loop ran to its end, that is, whether its
    [else] branch is to run. *)
Fixpoint wait_for_exit (rounds : nat) : M bool :=
  match rounds with
  | O => ret true
  | S k =>
      r <- pgrep ;;
      if negb (Z.eqb r 0) then ret false
      else sleep 500 ;; wait_for_exit k
  end.

Definition quit_chrome_if_running : M unit :=
  result <- pgrep ;;
  if negb (Z.eqb result 0) then ret tt
  else
    print "  Quitting Chrome..." ;;
    subprocess_run ["osascript"; "-e";
                    "tell application " ++ dq ++ "Google Chrome" ++ dq ++ " to quit"] ;;
    exhausted <- wait_for_exit 30 ;;
    when exhausted
      (subprocess_run ["pkill"; "-9"; "-x"; "Google Chrome"] ;;
       sleep 1000) ;;
    print "  Chrome stopped.".

Definition launch_chrome_with_ubo : M unit :=
  let ext_path := path_str EXTENSION_DIR in
  emit (Popen ["open"; "-a"; CHROME_APP_PATH; "--args";
               MV2_FLAGS; "--load-extension=" ++ ext_path]).

(** ** Commands *)

Definition cmd_uninstall : M unit :=
  _check_macos ;;
  _print_header "Uninstalling uBlock Origin Chrome" ;;
  let targets := [INSTALL_DIR; (home E ++ ["Applications"; APP_NAME])%list] in
  for_each targets
    (fun p =>
       ex <- path_exists p ;;
       if ex then
         on_fs (rmtree p) ;;
         print ("  Removed: " ++ path_str p)
       else print ("  (not found: " ++ path_str p ++ ")")) ;;
  print "" ;;
  print "  Done. uBlock Origin and the launcher have been removed." ;;
  print "".

Definition not_installed_message : string :=
  "Error: uBlock Origin is not installed yet." ++ nl
  ++ "Run:  ublock-chrome install".

Definition cmd_launch : M unit :=
  _check_macos ;;
  _check_chrome ;;
  ext <- path_exists EXTENSION_DIR ;;
  man <- (if negb ext then ret false else path_exists manifest_path) ;;
  if negb ext || negb man then
    print_err not_installed_message ;;
    sys_exit 1
  else
    print "  Restarting Chrome with uBlock Origin..." ;;
    quit_chrome_if_running ;;
    launch_chrome_with_ubo ;;
    print "  Chrome launched with uBlock Origin enabled." ;;
    print "".

End WithEnvironment.

End Cli.

(* ================================================================== *)
(** * Vocabulary of the properties *)
(* ================================================================== *)

Import Cli.

(** The world [w] after the events [evs] have been recorded. *)
Definition log (w : world) (evs : list event) : world :=
  {| fs := fs w; tmpfiles := tmpfiles w; trace := (trace w ++ evs)%list;
     pgreps := pgreps w |}.

(** The selection predicate of the release resolver in the words of the
    specification: the name contains the marker word when case is
    ignored, and ends with the archive suffix. *)
Definition chromium_zip_name (n : string) : Prop :=
  (exists a b, PyStr.lower n = a ++ "chromium" ++ b) /\ (exists a, n = a ++ ".zip").

(** The forced-termination signal is the [pkill -9] subprocess. *)
Definition is_forced_kill (e : event) : bool :=
  match e with
  | Run ("pkill" :: "-9" :: _) => true
  | _ => false
  end.

Definition forced_kills (t : list event) : nat :=
  List.length (filter is_forced_kill t).


(** Everything [download_and_extract] does before it looks for the
    manifest: lines 113-139. *)
Definition unpack_and_normalize (E : environment) (url : string) : M unit :=
  clean_previous_install E ;;
  download_and_unpack E url ;;
  flatten_single_subdir E.

(** Lines 113-126: the state handed to the normalization step. *)
Definition unpack (E : environment) (url : string) : M unit :=
  clean_previous_install E ;;
  download_and_unpack E url.

(** Lines 128-146: normalization and manifest check. *)
Definition normalize_and_load (E : environment) : M json :=
  flatten_single_subdir E ;;
  load_manifest E.

(** A directory listing that the normalization step has nothing to do
    with: not exactly one entry, or one regular file, or one directory
    without a manifest at its root. *)
Definition already_flat (es : list (string * node)) : Prop :=
  List.length es <> 1
  \/ (exists x m d, es = [(x, File m d)])
  \/ (exists x sub, es = [(x, Dir sub)] /\ assoc "manifest.json" sub = None).

(** Two paths that part ways below a common ancestor: neither lies inside
    the other. *)
Definition diverge (p q : path) : Prop :=
  exists h a b r s,
    p = (h ++ a :: r)%list /\ q = (h ++ b :: s)%list /\ a <> b.

(** Nothing, or a directory, is found at [p]. *)
Definition absent_or_dir (n : node) (p : path) : Prop :=
  lookup n p = None \/ exists es, lookup n p = Some (Dir es).

(** The two targets of [cmd_uninstall]. *)
Definition launcher_in_applications (E : environment) : path :=
  (home E ++ ["Applications"; APP_NAME])%list.

(** The line that [cmd_uninstall] prints for the target [p]. *)
Definition uninstall_report (existed : bool) (p : path) : string :=
  if existed then "  Removed: " ++ path_str p
  else "  (not found: " ++ path_str p ++ ")".

(** The prints of [_print_header]. *)
Definition header_lines (text : string) : list event :=
  [Print ""; Print (PyStr.repeat_str "=" 54); Print ("  " ++ text);
   Print (PyStr.repeat_str "=" 54); Print ""].

(** The launcher bundle in the private installation directory. *)
Definition private_bundle (E : environment) : path :=
  (INSTALL_DIR E ++ [APP_NAME])%list.

(** The process started by [launch_chrome_with_ubo]. *)
Definition browser_launch (E : environment) : event :=
  Popen ["open"; "-a"; CHROME_APP_PATH; "--args";
         MV2_FLAGS; "--load-extension=" ++ path_str (EXTENSION_DIR E)].

(** A computation that ends with the temporary files it started with. *)
Definition keeps_tmpfiles {A} (c : M A) : Prop :=
  forall w, tmpfiles (snd (c w)) = tmpfiles w.

(** Replace the subtree at [h], which exists. *)
Fixpoint graft (h : path) (c : node) (n : node) {struct h} : node :=
  match h with
  | [] => c
  | x :: q =>
      match n with
      | File _ _ => n
      | Dir es =>
          match assoc x es with
          | Some c0 => Dir (set_entry x (graft q c c0) es)
          | None => n
          end
      end
  end.

(* ================================================================== *)
(** * Sample machines

    Concrete environments and file systems on which the program is run
    below. *)
(* ================================================================== *)

Module Sample.

(** A machine with the browser installed and nothing of the tool. *)
Definition fresh_disk : node :=
  Dir [("Users", Dir [("ann", Dir [])]);
       ("Applications",
        Dir [("Google Chrome.app",
              Dir [("Contents",
                    Dir [("Resources", Dir [("app.icns", File 420 "icns")])])])])].

(** The same machine after an earlier installation. *)
Definition installed_disk : node :=
  Dir [("Users",
        Dir [("ann",
              Dir [(".ublock-chrome",
                    Dir [("extension", Dir [("manifest.json", File 420 "{}")]);
                         ("Chrome (uBO).app", Dir [("Contents", Dir [])])]);
                   ("Applications",
                    Dir [("Chrome (uBO).app", Dir [("Contents", Dir [])])])])]);
       ("Applications", Dir [("Google Chrome.app", Dir [])])].

(** A regular file stands where the private installation directory
    would be. *)
Definition blocked_disk : node :=
  Dir [("Users", Dir [("ann", Dir [(".ublock-chrome", File 420 "notes")])]);
       ("Applications", Dir [("Google Chrome.app", Dir [])])].

(** No browser. *)
Definition bare_disk : node := Dir [("Users", Dir [("ann", Dir [])])].

Definition boot (disk : node) : world :=
  {| fs := disk; tmpfiles := []; trace := []; pgreps := 0 |}.

Definition latest : release :=
  {| tag_name := Some "1.60.0";
     assets := Some [ {| name := "uBlock0_1.60.0.firefox.signed.xpi";
                         browser_download_url := "https://example.org/firefox.xpi" |};
                      {| name := "uBlock0_1.60.0.Chromium.zip";
                         browser_download_url := "https://example.org/chromium.zip" |};
                      {| name := "uBlock0_1.60.0.chromium.zip";
                         browser_download_url := "https://example.org/second.zip" |} ] |}.

(** An environment that serves the archive whose unpacking writes
    [archive], on the platform [plat], with a browser process that
    answers the presence checks with [rc]. *)
Definition machine (plat : string) (archive : list (string * node)) (rc : nat -> Z)
  : environment :=
  {| platform := plat;
     home := ["Users"; "ann"];
     umask := 18;
     tmp_name := "tmpk3v9.zip";
     api_latest := Ok latest;
     http_get := fun _ => Ok "PK";
     unzip := fun _ => (archive, None);
     json_loads := fun s => if String.eqb s "{}" then Some (JObject []) else None;
     pgrep_rc := rc;
     is_text := fun _ => true |}.

Definition never_running (k : nat) : Z := 1.

(** The payload at the top of the archive. *)
Definition flat_archive : list (string * node) :=
  [("manifest.json", File 420 "{}"); ("js", Dir [("start.js", File 420 "")])].

(** The payload inside one directory. *)
Definition wrapped_archive : list (string * node) :=
  [("uBlock0.chromium", Dir flat_archive)].

(** The payload inside two directories. *)
Definition deep_archive : list (string * node) :=
  [("release", Dir wrapped_archive)].

(** A wrapper that holds, before the manifest, a child called like the
    wrapper itself. *)
Definition clash_archive : list (string * node) :=
  [("w", Dir [("w", File 420 "x"); ("manifest.json", File 420 "{}")])].

(** A single directory that is called like the manifest and holds the
    payload one level further down. *)
Definition manifest_named_archive : list (string * node) :=
  [("manifest.json", Dir wrapped_archive)].

Definition mac (archive : list (string * node)) : environment :=
  machine "darwin" archive never_running.

Definition url : string := "https://example.org/chromium.zip".

End Sample.

(* ================================================================== *)
(** * cli.py: the commands that install, and the entry point

    [cmd_install] and [cmd_update] call [manifest.get], which raises
    [AttributeError] when the decoded manifest is not an object.  That
    exception is not one of the operations above, so the commands run in
    a monad of their own, over the same world, into which the operations
    are lifted. *)
(* ================================================================== *)

From Stdlib Require Import DecimalString.

Module Commands.

Inductive command_exn : Type :=
| Operation (e : exn)
| AttributeError (message : string).

Inductive outcome (A : Type) : Type :=
| Returns (a : A)
| Raises (e : command_exn).
Arguments Returns {A} a.
Arguments Raises {A} e.

Definition C (A : Type) : Type := world -> outcome A * world.

Definition creturn {A} (a : A) : C A := fun w => (Returns a, w).

Definition craise {A} (e : command_exn) : C A := fun w => (Raises e, w).

Definition cbind {A B} (c : C A) (k : A -> C B) : C B :=
  fun w => match c w with
           | (Returns a, w') => k a w'
           | (Raises e, w') => (Raises e, w')
           end.

(** An operation run inside a command. *)
Definition lift {A} (c : M A) : C A :=
  fun w => match c w with
           | (Ok a, w') => (Returns a, w')
           | (Raise e, w') => (Raises (Operation e), w')
           end.

Declare Scope cmd_scope.
Delimit Scope cmd_scope with cmd.
Notation "x <- c ;; k" := (cbind c (fun x => k))
  (at level 61, c at next level, right associativity) : cmd_scope.
Notation "c ;; k" := (cbind c (fun _ => k))
  (at level 61, right associativity) : cmd_scope.

(** U+2192 and U+2022 as [print] writes them (UTF-8). *)
Definition arrow : string :=
  String (ascii_of_nat 226) (String (ascii_of_nat 134) (String (ascii_of_nat 146) "")).
Definition bullet : string :=
  String (ascii_of_nat 226) (String (ascii_of_nat 128) (String (ascii_of_nat 162) "")).

(** [str(z)] of an [int]. *)
Definition int_str (z : Z) : string := NilZero.string_of_int (Z.to_int z).

(** [type(v).__name__] of a decoded value. *)
Definition type_name (v : json) : string :=
  match v with
  | JNull => "NoneType"
  | JBool _ => "bool"
  | JNumber _ => "int"
  | JString _ => "str"
  | JArray _ => "list"
  | JObject _ => "dict"
  end.

(** What [parser.parse_args()] does with a command line: it hands back
    the namespace, of which [main] reads [args.command], or it prints
    (the usage and an error, or the help text) and exits. *)
Inductive parsed : Type :=
| Namespace (command : option string)
| ParserExit (code : Z) (output : list event).

Section WithEnvironment.

Variable E : environment.

(** [str(v)] of a decoded list or dict: the text of Python's [repr],
    which is not modelled. *)
Variable container_str : json -> string.

(** [argparse] for the parser that [main] builds, from [sys.argv[1:]];
    the library is not modelled. *)
Variable argparse : list string -> parsed.

(** [str(v)] of a decoded value, as an f-string formats it. *)
Definition py_str (v : json) : string :=
  match v with
  | JNull => "None"
  | JBool true => "True"
  | JBool false => "False"
  | JNumber z => int_str z
  | JString s => s
  | JArray _ | JObject _ => container_str v
  end.

(** [manifest.get(key, default)] *)
Definition manifest_get (manifest : json) (key : string) (default : json) : C json :=
  match manifest with
  | JObject members =>
      creturn (match assoc key members with Some v => v | None => default end)
  | _ =>
      craise (AttributeError
                ("'" ++ type_name manifest ++ "' object has no attribute 'get'"))
  end.

Definition _print_step (n : Z) (text : string) : M unit :=
  print ("  [" ++ int_str n ++ "] " ++ text).

Open Scope cmd_scope.

Definition cmd_install : C unit :=
  lift (_check_macos E) ;;
  lift _check_chrome ;;
  lift (_print_header ("uBlock Origin " ++ arrow ++ " Chrome Installer (macOS)")) ;;
  lift (_print_step 1 "Fetching latest uBlock Origin release from GitHub...") ;;
  release <- lift (fetch_latest_release_url E) ;;
  let '(url, tag) := release in
  lift (print ("      Release: " ++ tag)) ;;
  lift (_print_step 2 "Downloading & extracting extension...") ;;
  manifest <- lift (download_and_extract E url) ;;
  name <- manifest_get manifest "name" (JString "uBlock Origin") ;;
  version <- manifest_get manifest "version" (JString "?") ;;
  lift (print ("      " ++ py_str name ++ " v" ++ py_str version)) ;;
  lift (print ("      Installed to: " ++ path_str (EXTENSION_DIR E))) ;;
  lift (_print_step 3 "Creating 'Chrome (uBO)' launcher app...") ;;
  app_dir <- lift (create_launcher_app E) ;;
  dest <- lift (install_app_to_applications E app_dir) ;;
  lift (print ("      App saved to: " ++ path_str dest)) ;;
  lift (print "") ;;
  lift (print ("  " ++ PyStr.repeat_str "-" 50)) ;;
  lift (print "  Done! Here's what to do next:") ;;
  lift (print ("  " ++ PyStr.repeat_str "-" 50)) ;;
  lift (print "") ;;
  lift (print "  1. Quit Chrome completely         (Cmd + Q)") ;;
  lift (print "  2. Open 'Chrome (uBO)' from:      ~/Applications/") ;;
  lift (print "     Or run:  ublock-chrome launch") ;;
  lift (print "") ;;
  lift (print ("  Tip: Right-click the Dock icon " ++ arrow ++ " Options "
               ++ arrow ++ " Keep in Dock")) ;;
  lift (print "") ;;
  lift (print "  The launcher automatically:") ;;
  lift (print ("    " ++ bullet ++ " Enables Manifest V2 extensions")) ;;
  lift (print ("    " ++ bullet ++ " Loads uBlock Origin into Chrome")) ;;
  lift (print "") ;;
  lift (print "  Other commands:") ;;
  lift (print "    ublock-chrome update      Re-download latest uBlock Origin") ;;
  lift (print "    ublock-chrome uninstall   Remove everything") ;;
  lift (print "    ublock-chrome launch      Quit Chrome & relaunch with uBO") ;;
  lift (print "").

Definition cmd_update : C unit :=
  lift (_check_macos E) ;;
  lift _check_chrome ;;
  lift (_print_header "Updating uBlock Origin") ;;
  lift (_print_step 1 "Fetching latest release...") ;;
  release <- lift (fetch_latest_release_url E) ;;
  let '(url, tag) := release in
  lift (print ("      Release: " ++ tag)) ;;
  lift (_print_step 2 "Downloading & extracting...") ;;
  manifest <- lift (download_and_extract E url) ;;
  name <- manifest_get manifest "name" (JString "uBlock Origin") ;;
  version <- manifest_get manifest "version" (JString "?") ;;
  lift (print ("      " ++ py_str name ++ " v" ++ py_str version)) ;;
  lift (_print_step 3 "Rebuilding launcher app...") ;;
  app_dir <- lift (create_launcher_app E) ;;
  dest <- lift (install_app_to_applications E app_dir) ;;
  lift (print ("      " ++ path_str dest)) ;;
  lift (print "") ;;
  lift (print "  Updated! Restart Chrome to pick up the new version:") ;;
  lift (print "    ublock-chrome launch") ;;
  lift (print "").

(** The table of [main]. *)
Definition commands : list (string * C unit) :=
  [("install", cmd_install);
   ("update", cmd_update);
   ("uninstall", lift (cmd_uninstall E));
   ("launch", lift (cmd_launch E))].

(** [args = parser.parse_args()], as far as [main] uses it: the value of
    [args.command], unless the parser exits. *)
Definition parse_args (argv : list string) : M (option string) :=
  fun w => match argparse argv with
           | Namespace command => (Ok command, w)
           | ParserExit code output => (Raise (SystemExit code), log w output)
           end.

(** [commands.get(command, cmd_install)] *)
Definition commands_get (command : option string) : C unit :=
  match command with
  | Some c => match assoc c commands with
              | Some handler => handler
              | None => cmd_install
              end
  | None => cmd_install
  end.

(** [main], run on the command line [argv]. *)
Definition main (argv : list string) : C unit :=
  command <- lift (parse_args argv) ;;
  commands_get command.

End WithEnvironment.

End Commands.

Import Commands.

(* ================================================================== *)
(** * Further vocabulary *)
(* ================================================================== *)

(** No regular file stands at [p] or above it: the walk down [p] from [n]
    meets directories until it ends or finds nothing. *)
Fixpoint clear_path (p : path) (n : node) {struct p} : bool :=
  match n with
  | File _ _ => false
  | Dir es =>
      match p with
      | [] => true
      | x :: q =>
          match assoc x es with
          | Some c => clear_path q c
          | None => true
          end
      end
  end.

(** The icon of the browser's own bundle. *)
Definition browser_icon : path :=
  (chrome_app ++ ["Contents"; "Resources"; "app.icns"])%list.

(** The bundle that [create_launcher_app] builds, given what is found at
    the place of the browser's icon. *)
Definition expected_bundle (E : environment) (icon : option node) : node :=
  Dir [("Contents",
        Dir [("MacOS",
              Dir [("launch.sh",
                    File 493 (launcher_script (path_str (EXTENSION_DIR E))))]);
             ("Resources",
              Dir match icon with
                  | Some (File m d) => [("AppIcon.icns", File m d)]
                  | _ => []
                  end);
             ("Info.plist", File (new_file_mode E) info_plist)])].

Definition presence_check : event := Run ["pgrep"; "-x"; "Google Chrome"].

Definition graceful_quit : event :=
  Run ["osascript"; "-e"; "tell application " ++ dq ++ "Google Chrome" ++ dq ++ " to quit"].

Definition forced_kill : event := Run ["pkill"; "-9"; "-x"; "Google Chrome"].

(** [k] rounds of the polling loop that found the browser present. *)
Fixpoint waiting_rounds (k : nat) : list event :=
  match k with
  | O => []
  | S k' => presence_check :: Sleep 500 :: waiting_rounds k'
  end.

(** Milliseconds spent in [time.sleep]. *)
Fixpoint total_sleep (t : list event) : nat :=
  match t with
  | [] => 0
  | Sleep ms :: r => ms + total_sleep r
  | _ :: r => total_sleep r
  end.

(** The world [w] with the tree [n] in the place of its file system. *)
Definition with_disk (w : world) (n : node) : world :=
  {| fs := n; tmpfiles := tmpfiles w; trace := trace w; pgreps := pgreps w |}.

(** The world [w] after the events [evs], of which [checks] were
    queries of the process table. *)
Definition observed (w : world) (evs : list event) (checks : nat) : world :=
  {| fs := fs w; tmpfiles := tmpfiles w; trace := (trace w ++ evs)%list;
     pgreps := pgreps w + checks |}.

(** The text that [_check_chrome] prints when the browser is missing. *)
Definition chrome_missing_message : string :=
  "Error: Google Chrome not found at " ++ CHROME_APP_PATH ++ nl
  ++ "Install Chrome first, or set CHROME_APP_PATH if it's elsewhere.".

(** What [cmd_install] and [cmd_update] have printed when they call
    [download_and_extract] for the release [tag]. *)
Definition install_preamble (tag : string) : list event :=
  (header_lines ("uBlock Origin " ++ arrow ++ " Chrome Installer (macOS)")
   ++ [Print "  [1] Fetching latest uBlock Origin release from GitHub...";
       Print ("      Release: " ++ tag);
       Print "  [2] Downloading & extracting extension..."])%list.

Definition update_preamble (tag : string) : list event :=
  (header_lines "Updating uBlock Origin"
   ++ [Print "  [1] Fetching latest release...";
       Print ("      Release: " ++ tag);
       Print "  [2] Downloading & extracting..."])%list.

(** Two worlds with the same files; their output may differ. *)
Definition same_disk (w1 w2 : world) : Prop :=
  fs w1 = fs w2 /\ tmpfiles w1 = tmpfiles w2.

(** An operation whose result and whose effect on the files do not
    depend on the output so far. *)
Definition oblivious {A} (c : M A) : Prop :=
  forall w1 w2,
    same_disk w1 w2 ->
    fst (c w1) = fst (c w2) /\ same_disk (snd (c w1)) (snd (c w2)).

(** An operation that only writes output. *)
Definition silent (c : M unit) : Prop :=
  forall w, fst (c w) = Ok tt /\ same_disk (snd (c w)) w.

(** Two commands that agree on outcome and files from worlds with the
    same files. *)
Definition alike {A} (c1 c2 : C A) : Prop :=
  forall w1 w2,
    same_disk w1 w2 ->
    fst (c1 w1) = fst (c2 w2) /\ same_disk (snd (c1 w1)) (snd (c2 w2)).

(** A command that only writes output and returns. *)
Definition quiet (c : C unit) : Prop :=
  forall w, fst (c w) = Returns tt /\ same_disk (snd (c w)) w.

(** [q] lies at or below [p]. *)
Definition below (p q : path) : Prop := exists t, q = (p ++ t)%list.

(* ================================================================== *)
(** * More sample machines *)
(* ================================================================== *)

Module Faults.
Import Sample.

(** Bytes that are not UTF-8. *)
Definition latin_bytes : string := String (ascii_of_nat 233) "".

(** The sample Mac with another release service, network, archive
    reader and JSON decoder. *)
Definition rigged
  (api : result release)
  (get : string -> result string)
  (reader : string -> list (string * node) * option exn)
  (loads : string -> option json) : environment :=
  {| platform := "darwin";
     home := ["Users"; "ann"];
     umask := 18;
     tmp_name := "tmpk3v9.zip";
     api_latest := api;
     http_get := get;
     unzip := reader;
     json_loads := loads;
     pgrep_rc := never_running;
     is_text := fun s => negb (String.eqb s latin_bytes) |}.

Definition braces (s : string) : option json :=
  if String.eqb s "{}" then Some (JObject []) else None.

(** The release service cannot be reached. *)
Definition unreachable : environment :=
  rigged (Raise (URLError "unreachable")) (fun _ => Ok "PK")
    (fun _ => (flat_archive, None)) braces.

(** The latest release has no asset list. *)
Definition without_assets : environment :=
  rigged (Ok {| tag_name := Some "1.60.0"; assets := None |}) (fun _ => Ok "PK")
    (fun _ => (flat_archive, None)) braces.

(** The latest release has no tag. *)
Definition untagged : environment :=
  rigged (Ok {| tag_name := None;
                assets := Some [ {| name := "uBlock0.chromium.zip";
                                    browser_download_url := url |} ] |})
    (fun _ => Ok "PK") (fun _ => (flat_archive, None)) braces.

(** The download of the archive fails. *)
Definition offline : environment :=
  rigged (Ok latest) (fun _ => Raise (URLError "timed out"))
    (fun _ => (flat_archive, None)) braces.

(** The archive breaks off after its first member. *)
Definition truncated : environment :=
  rigged (Ok latest) (fun _ => Ok "PK")
    (fun _ => ([("js", Dir [])], Some BadZipFile)) braces.

(** The manifest of the archive is a JSON list. *)
Definition list_manifest : environment :=
  rigged (Ok latest) (fun _ => Ok "PK")
    (fun _ => ([("manifest.json", File 420 "[]")], None))
    (fun s => if String.eqb s "[]" then Some (JArray []) else None).

(** A wrapper that holds no manifest file, but a directory called like
    the manifest with the payload inside. *)
Definition manifest_directory_archive : list (string * node) :=
  [("uBlock0.chromium", Dir [("manifest.json", Dir flat_archive)])].



(** A launcher in the applications folder and no private directory. *)
Definition copy_only_disk : node :=
  Dir [("Users",
        Dir [("ann",
              Dir [("Applications",
                    Dir [("Chrome (uBO).app", Dir [("Contents", Dir [])])])])]);
       ("Applications", Dir [("Google Chrome.app", Dir [])])].

(** A browser that is gone at the third look after it was asked to
    quit. *)
Definition leaves_late (k : nat) : Z := if Nat.ltb k 3 then 0 else 1.

(** A browser that never goes. *)
Definition stays (k : nat) : Z := 0.

Definition usage : string :=
  "usage: ublock-chrome [-h] {install,update,uninstall,launch} ...".

(** A parser for command lines of at most one word: none, a subcommand,
    a request for help, or a word that is no subcommand.  Longer command
    lines are turned down. *)
Definition one_word (argv : list string) : parsed :=
  match argv with
  | [] => Namespace None
  | [c] =>
      if existsb (String.eqb c) ["install"; "update"; "uninstall"; "launch"]
      then Namespace (Some c)
      else if existsb (String.eqb c) ["-h"; "--help"]
           then ParserExit 0 [Print usage]
           else ParserExit 2 [PrintErr usage]
  | _ => ParserExit 2 [PrintErr usage]
  end.

(** [str] of a container, for runs that print none. *)
Definition no_container (v : json) : string := "{}".

End Faults.

(* ================================================================== *)
(** * Strings *)
(* ================================================================== *)

Module PyStrFacts.
Import PyStr.

Lemma append_assoc (a b c : string) : (a ++ b) ++ c = a ++ (b ++ c).
Proof. induction a as [|x a IH]; simpl; [reflexivity | now rewrite IH]. Qed.

Lemma append_nil_r (a : string) : a ++ "" = a.
Proof. induction a as [|x a IH]; simpl; [reflexivity | now rewrite IH]. Qed.

Lemma startswith_spec (p s : string) :
  startswith p s = true <-> exists r, s = p ++ r.
Proof.
  revert s; induction p as [|a p IH]; intros s; simpl.
  - split; [intros _; now exists s | reflexivity].
  - destruct s as [|b s].
    + split; [discriminate | intros [r Hr]; discriminate].
    + rewrite andb_true_iff, IH. split.
      * intros [Hab [r ->]]. apply Ascii.eqb_eq in Hab. subst b. now exists r.
      * intros [r Hr]. injection Hr as -> ->. split.
        -- apply Ascii.eqb_refl.
        -- now exists r.
Qed.

(** [contains] is the substring relation. *)
Lemma contains_spec (sub s : string) :
  contains sub s = true <-> exists a b, s = a ++ sub ++ b.
Proof.
  induction s as [|c s IH]; simpl.
  - rewrite orb_false_r, startswith_spec. split.
    + intros [r Hr]. now exists "", r.
    + intros [a [b Hab]]. destruct a; simpl in Hab; [now exists b | discriminate].
  - rewrite orb_true_iff, startswith_spec, IH. split.
    + intros [[r Hr] | [a [b Hab]]].
      * now exists "", r.
      * exists (String c a), b. simpl. now rewrite Hab.
    + intros [a [b Hab]]. destruct a as [|x a]; simpl in Hab.
      * left. now exists b.
      * right. injection Hab as _ ->. now exists a, b.
Qed.

(** [endswith] is the suffix relation. *)
Lemma endswith_spec (suf s : string) :
  endswith suf s = true <-> exists a, s = a ++ suf.
Proof.
  induction s as [|c s IH]; simpl.
  - rewrite orb_false_r, String.eqb_eq. split.
    + intros ->. now exists "".
    + intros [a Ha]. destruct a; simpl in Ha; [now symmetry | discriminate].
  - rewrite orb_true_iff, String.eqb_eq, IH. split.
    + intros [-> | [a ->]].
      * now exists "".
      * now exists (String c a).
    + intros [a Ha]. destruct a as [|x a]; simpl in Ha.
      * left. now symmetry.
      * right. injection Ha as _ ->. now exists a.
Qed.


End PyStrFacts.

(* ================================================================== *)
(** * The monad *)
(* ================================================================== *)

Lemma bind_ok {A B} (c : M A) (k : A -> M B) w b w' :
  bind c k w = (Ok b, w') ->
  exists a w1, c w = (Ok a, w1) /\ k a w1 = (Ok b, w').
Proof.
  unfold bind. destruct (c w) as [[a|e] w1]; intros H.
  - now exists a, w1.
  - discriminate.
Qed.

Lemma bind_step {A B} (c : M A) (k : A -> M B) w a w1 :
  c w = (Ok a, w1) -> bind c k w = k a w1.
Proof. unfold bind. now intros ->. Qed.

Lemma bind_raise {A B} (c : M A) (k : A -> M B) w e w1 :
  c w = (Raise e, w1) -> bind c k w = (Raise e, w1).
Proof. unfold bind. now intros ->. Qed.

Lemma bind_assoc {A B C} (c : M A) (k : A -> M B) (h : B -> M C) w :
  bind (bind c k) h w = bind c (fun a => bind (k a) h) w.
Proof. unfold bind. destruct (c w) as [[a|e] w1]; reflexivity. Qed.

(** ** Computations that leave the temporary files alone *)

Lemma keeps_bind {A B} (c : M A) (k : A -> M B) :
  keeps_tmpfiles c -> (forall a, keeps_tmpfiles (k a)) -> keeps_tmpfiles (bind c k).
Proof.
  intros Hc Hk w. unfold bind. specialize (Hc w).
  destruct (c w) as [[a|e] w1]; simpl in *.
  - now rewrite Hk.
  - exact Hc.
Qed.

Lemma keeps_ret {A} (a : A) : keeps_tmpfiles (ret a).
Proof. now intros w. Qed.

Lemma keeps_raise {A} (e : exn) : keeps_tmpfiles (@raise A e).
Proof. now intros w. Qed.

Lemma keeps_on_fs op : keeps_tmpfiles (on_fs op).
Proof. intros w. unfold on_fs. now destruct (op (fs w)). Qed.

Lemma keeps_read_fs {A} (q : node -> A) : keeps_tmpfiles (read_fs q).
Proof. now intros w. Qed.

Lemma keeps_when b c : keeps_tmpfiles c -> keeps_tmpfiles (when b c).
Proof. destruct b; simpl; [easy | intros _; apply keeps_ret]. Qed.

Lemma keeps_for_each {A} (l : list A) body :
  (forall x, keeps_tmpfiles (body x)) -> keeps_tmpfiles (for_each l body).
Proof.
  intros Hb. induction l as [|x l IH]; simpl.
  - apply keeps_ret.
  - apply keeps_bind; [apply Hb | intros _; exact IH].
Qed.

Lemma keeps_iterdir p : keeps_tmpfiles (iterdir p).
Proof.
  intros w. unfold iterdir. destruct (lookup (fs w) p) as [[?|?]|]; reflexivity.
Qed.

(* ================================================================== *)
(** * Release resolution *)
(* ================================================================== *)

Lemma is_chromium_zip_spec (n : string) :
  is_chromium_zip n = true <-> chromium_zip_name n.
Proof.
  unfold is_chromium_zip, chromium_zip_name.
  now rewrite andb_true_iff, PyStrFacts.contains_spec, PyStrFacts.endswith_spec.
Qed.

Lemma is_chromium_zip_false (n : string) :
  ~ chromium_zip_name n -> is_chromium_zip n = false.
Proof.
  intros H. destruct (is_chromium_zip n) eqn:Hn; [|reflexivity].
  exfalso. apply H. now apply is_chromium_zip_spec.
Qed.

Lemma select_asset_first (tag : string) (pre : list asset) a post w :
  Forall (fun b => ~ chromium_zip_name (name b)) pre ->
  chromium_zip_name (name a) ->
  select_asset tag (pre ++ a :: post) w = (Ok (browser_download_url a, tag), w).
Proof.
  intros Hpre Ha. induction Hpre as [|b pre Hb _ IH]; simpl.
  - apply is_chromium_zip_spec in Ha. now rewrite Ha.
  - now rewrite (is_chromium_zip_false Hb).
Qed.

Lemma select_asset_none (tag : string) (l : list asset) w :
  Forall (fun b => ~ chromium_zip_name (name b)) l ->
  select_asset tag l w = (Raise (RuntimeError (no_asset_message tag)), w).
Proof.
  intros Hl. induction Hl as [|b l Hb _ IH]; simpl.
  - reflexivity.
  - now rewrite (is_chromium_zip_false Hb).
Qed.

(** A list with a matching asset splits at its first matching asset. *)
Lemma first_chromium_zip (l : list asset) :
  Exists (fun a => chromium_zip_name (name a)) l ->
  exists pre a post,
    l = (pre ++ a :: post)%list
    /\ Forall (fun b => ~ chromium_zip_name (name b)) pre
    /\ chromium_zip_name (name a).
Proof.
  induction l as [|b l IH]; intros Hex.
  - inversion Hex.
  - destruct (is_chromium_zip (name b)) eqn:Hb.
    + exists [], b, l.
      split; [reflexivity | split; [constructor | now apply is_chromium_zip_spec]].
    + assert (Hnb : ~ chromium_zip_name (name b)).
      { intros H. apply is_chromium_zip_spec in H. congruence. }
      inversion Hex as [? ? H | ? ? H]; subst; [contradiction|].
      destruct (IH H) as (pre & a & post & -> & Hpre & Ha).
      exists (b :: pre), a, post.
      split; [reflexivity | split; [now constructor | exact Ha]].
Qed.

(** C2.  When the release index answers with a descriptor, the resolver
    returns the download URL of the first asset, in list order, whose name
    contains "chromium" when case is ignored and ends with ".zip",
    together with the descriptor's tag; when no asset qualifies it raises
    an error whose message ends with the tag. *)
Theorem fetch_latest_release_url_first_match
  (E : environment) (data : release) (w : world) :
  api_latest E = Ok data ->
  let tag := get (tag_name data) "unknown" in
  let listed := get (assets data) [] in
  (Exists (fun a => chromium_zip_name (name a)) listed ->
   exists pre a post,
     listed = (pre ++ a :: post)%list
     /\ Forall (fun b => ~ chromium_zip_name (name b)) pre
     /\ chromium_zip_name (name a)
     /\ fetch_latest_release_url E w = (Ok (browser_download_url a, tag), w))
  /\
  (Forall (fun a => ~ chromium_zip_name (name a)) listed ->
   fetch_latest_release_url E w = (Raise (RuntimeError (no_asset_message tag)), w)
   /\ exists text, no_asset_message tag = text ++ tag).
Proof.
  intros Hapi tag listed.
  assert (Hrun : fetch_latest_release_url E w = select_asset tag listed w).
  { unfold fetch_latest_release_url, urlopen_json. rewrite Hapi.
    reflexivity. }
  split.
  - intros Hex. destruct (first_chromium_zip Hex) as (pre & a & post & Hl & Hpre & Ha).
    exists pre, a, post.
    split; [exact Hl | split; [exact Hpre | split; [exact Ha|]]].
    rewrite Hrun, Hl. now apply select_asset_first.
  - intros Hnone. split.
    + rewrite Hrun. now apply select_asset_none.
    + unfold no_asset_message.
      exists ("Could not find a Chromium .zip asset in the latest uBlock Origin release."
              ++ nl ++ "Check https://github.com/gorhill/uBlock/releases/tag/").
      now rewrite !PyStrFacts.append_assoc.
Qed.

(* ================================================================== *)
(** * Quitting the browser *)
(* ================================================================== *)

Lemma forced_kills_app (a b : list event) :
  forced_kills (a ++ b) = forced_kills a + forced_kills b.
Proof. unfold forced_kills. now rewrite filter_app, length_app. Qed.

(** The polling loop: it always ends, sends no forced termination itself,
    and runs to exhaustion exactly when every poll reports the process. *)
Lemma wait_for_exit_spec (E : environment) (n : nat) : forall w,
  exists b evs w',
    wait_for_exit E n w = (Ok b, w')
    /\ w' = {| fs := fs w; tmpfiles := tmpfiles w;
               trace := (trace w ++ evs)%list; pgreps := pgreps w' |}
    /\ forced_kills evs = 0
    /\ (b = true <-> forall k, k < n -> pgrep_rc E (pgreps w + k) = 0%Z).
Proof.
  induction n as [|n IH]; intros w; simpl.
  - exists true, [], w. repeat split; try lia.
    rewrite app_nil_r. now destruct w.
  - unfold bind at 1. unfold pgrep at 1.
    destruct (Z.eqb (pgrep_rc E (pgreps w)) 0) eqn:Hrc; simpl.
    + unfold bind at 1. unfold sleep, emit. simpl.
      match goal with |- context [wait_for_exit E n ?w1] =>
        destruct (IH w1) as (b & evs & w' & Hrun & Hw' & Hk & Hb) end.
      simpl in *. rewrite Hrun.
      exists b, (Run ["pgrep"; "-x"; "Google Chrome"] :: Sleep 500 :: evs), w'.
      repeat split.
      * rewrite Hw' at 1. f_equal. now rewrite <- !app_assoc.
      * exact Hk.
      * intros Hbt k Hlt. destruct k as [|k].
        -- rewrite Nat.add_0_r. now apply Z.eqb_eq.
        -- replace (pgreps w + S k) with (S (pgreps w + k)) by lia.
           apply Hb; [assumption | lia].
      * intros Hall. apply Hb. intros k Hlt.
        replace (S (pgreps w + k)) with (pgreps w + S k) by lia.
        apply Hall. lia.
    + eexists false, [Run ["pgrep"; "-x"; "Google Chrome"]], _.
      repeat split.
      * discriminate.
      * intros Hall. specialize (Hall 0 ltac:(lia)).
        rewrite Nat.add_0_r in Hall. apply Z.eqb_neq in Hrc. contradiction.
Qed.

(** C6.  [quit_chrome_if_running] always returns.  If one of its process
    checks (the first one, or one of the thirty polls) reports the
    process gone, it sends no forced termination; if all of them report
    it present, it sends exactly one. *)
Theorem quit_chrome_forced_termination (E : environment) (w : world) :
  exists evs w',
    quit_chrome_if_running E w = (Ok tt, w')
    /\ trace w' = (trace w ++ evs)%list
    /\ ((exists k, k <= 30 /\ pgrep_rc E (pgreps w + k) <> 0%Z) ->
        forced_kills evs = 0)
    /\ ((forall k, k <= 30 -> pgrep_rc E (pgreps w + k) = 0%Z) ->
        forced_kills evs = 1).
Proof.
  pose proof (wait_for_exit_spec E 30) as Hloop.
  unfold quit_chrome_if_running.
  set (loop := wait_for_exit E 30) in *. clearbody loop.
  unfold bind at 1. unfold pgrep at 1.
  destruct (Z.eqb (pgrep_rc E (pgreps w)) 0) eqn:Hrc; simpl.
  - unfold bind at 1. unfold print at 1, emit at 1. simpl.
    unfold bind at 1. unfold subprocess_run at 1, emit at 1. simpl.
    unfold bind at 1.
    match goal with |- context [loop ?w1] =>
      destruct (Hloop w1) as (b & evs & w1' & Hrun & Hw1 & Hk & Hb)
    end.
    rewrite Hrun. simpl in Hw1, Hb.
    assert (Hgone : (exists k, k <= 30 /\ pgrep_rc E (pgreps w + k) <> 0%Z) -> b = false).
    { intros (k & Hle & Hne). destruct b; [|reflexivity]. exfalso.
      destruct k as [|k].
      - rewrite Nat.add_0_r in Hne. apply Z.eqb_eq in Hrc. contradiction.
      - apply Hne. replace (pgreps w + S k) with (S (pgreps w + k)) by lia.
        apply Hb; [reflexivity | lia]. }
    assert (Hstay : (forall k, k <= 30 -> pgrep_rc E (pgreps w + k) = 0%Z) -> b = true).
    { intros Hall. apply Hb. intros k Hlt.
      replace (S (pgreps w + k)) with (pgreps w + S k) by lia. apply Hall. lia. }
    destruct b; simpl.
    + unfold bind, subprocess_run, sleep, print, emit. simpl.
      eexists _, _. split; [reflexivity|]. simpl. rewrite Hw1. simpl.
      split; [rewrite <- !app_assoc; reflexivity|].
      split.
      * intros Hex. specialize (Hgone Hex). discriminate.
      * intros _. unfold forced_kills in *. simpl.
        rewrite filter_app, length_app, Hk. reflexivity.
    + unfold bind, ret, print, emit. simpl.
      eexists _, _. split; [reflexivity|]. simpl. rewrite Hw1. simpl.
      split; [rewrite <- !app_assoc; reflexivity|].
      split.
      * intros _. unfold forced_kills in *. simpl.
        rewrite filter_app, length_app, Hk. reflexivity.
      * intros Hall. specialize (Hstay Hall). discriminate.
  - eexists [_], _. split; [reflexivity|]. simpl. split; [reflexivity|].
    split; [reflexivity|].
    intros Hall. specialize (Hall 0 ltac:(lia)). rewrite Nat.add_0_r in Hall.
    apply Z.eqb_neq in Hrc. contradiction.
Qed.

(* ================================================================== *)
(** * Directory listings *)
(* ================================================================== *)

Section EntryFacts.
Variable A : Type.
Implicit Types (l : list (string * A)) (x y : string).

Lemma assoc_set_entry_same x a l : assoc x (set_entry x a l) = Some a.
Proof.
  induction l as [|[y b] l IH]; simpl.
  - now rewrite String.eqb_refl.
  - destruct (String.eqb x y) eqn:Hxy; simpl.
    + now rewrite String.eqb_refl.
    + now rewrite Hxy.
Qed.

Lemma assoc_set_entry_other x y a l :
  x <> y -> assoc y (set_entry x a l) = assoc y l.
Proof.
  intros Hne. induction l as [|[z b] l IH]; simpl.
  - apply not_eq_sym in Hne. apply String.eqb_neq in Hne. now rewrite Hne.
  - destruct (String.eqb x z) eqn:Hxz; simpl.
    + apply String.eqb_eq in Hxz. subst z.
      apply not_eq_sym in Hne. apply String.eqb_neq in Hne. now rewrite Hne.
    + now rewrite IH.
Qed.

Lemma assoc_remove_entry_same x l : assoc x (remove_entry x l) = None.
Proof.
  induction l as [|[y b] l IH]; simpl; [reflexivity|].
  destruct (String.eqb x y) eqn:Hxy; simpl; [exact IH | now rewrite Hxy].
Qed.

Lemma assoc_remove_entry_other x y l :
  x <> y -> assoc y (remove_entry x l) = assoc y l.
Proof.
  intros Hne. induction l as [|[z b] l IH]; simpl; [reflexivity|].
  destruct (String.eqb x z) eqn:Hxz; simpl.
  - apply String.eqb_eq in Hxz. subst z.
    apply not_eq_sym in Hne. apply String.eqb_neq in Hne. now rewrite Hne.
  - now rewrite IH.
Qed.

Lemma remove_entry_absent x l : assoc x l = None -> remove_entry x l = l.
Proof.
  induction l as [|[y b] l IH]; simpl; [reflexivity|].
  destruct (String.eqb x y); [discriminate|]. intros H. now rewrite IH.
Qed.

Lemma remove_entry_app x l1 l2 :
  remove_entry x (l1 ++ l2) = (remove_entry x l1 ++ remove_entry x l2)%list.
Proof.
  induction l1 as [|[y b] l1 IH]; simpl; [reflexivity|].
  destruct (String.eqb x y); simpl; now rewrite IH.
Qed.

Lemma remove_set_entry x a l :
  remove_entry x (set_entry x a l) = remove_entry x l.
Proof.
  induction l as [|[y b] l IH]; simpl.
  - now rewrite String.eqb_refl.
  - destruct (String.eqb x y) eqn:Hxy; simpl.
    + now rewrite String.eqb_refl.
    + now rewrite Hxy, IH.
Qed.

Lemma assoc_app_absent x l1 l2 :
  assoc x l1 = None -> assoc x (l1 ++ l2) = assoc x l2.
Proof.
  induction l1 as [|[y b] l1 IH]; simpl; [reflexivity|].
  destruct (String.eqb x y); [discriminate | exact IH].
Qed.

Lemma set_entry_absent x a l :
  assoc x l = None -> set_entry x a l = (l ++ [(x, a)])%list.
Proof.
  induction l as [|[y b] l IH]; simpl; [reflexivity|].
  destruct (String.eqb x y); [discriminate|]. intros H. now rewrite IH.
Qed.

Lemma assoc_none_not_in x l : assoc x l = None <-> ~ In x (map fst l).
Proof.
  induction l as [|[y b] l IH]; simpl.
  - tauto.
  - destruct (String.eqb x y) eqn:Hxy.
    + apply String.eqb_eq in Hxy. subst. split; [discriminate | tauto].
    + apply String.eqb_neq in Hxy. rewrite IH. split.
      * intros H [Hy | Hin]; [congruence | tauto].
      * tauto.
Qed.
End EntryFacts.

(* ================================================================== *)
(** * The temporary archive *)
(* ================================================================== *)

Lemma keeps_extractall E tmp target : keeps_tmpfiles (extractall E tmp target).
Proof.
  intros w. unfold extractall.
  destruct (assoc tmp (tmpfiles w)) as [bytes|]; [|reflexivity].
  destruct (unzip E bytes) as [written failure].
  apply keeps_bind; [apply keeps_on_fs|].
  intros _. destruct failure; [apply keeps_raise | apply keeps_ret].
Qed.

Lemma urlretrieve_tmpfiles E url tmp w :
  assoc tmp (tmpfiles w) <> None ->
  let w' := snd (urlretrieve E url tmp w) in
  assoc tmp (tmpfiles w') <> None
  /\ remove_entry tmp (tmpfiles w') = remove_entry tmp (tmpfiles w).
Proof.
  intros Hin. unfold urlretrieve. destruct (http_get E url) as [body|e]; simpl.
  - rewrite assoc_set_entry_same, remove_set_entry. split; [discriminate | reflexivity].
  - split; [exact Hin | reflexivity].
Qed.

(** The [try ... finally] block: whatever the download and the unpacking
    do, the temporary file is gone afterwards. *)
Lemma try_finally_unlinks E url tmp w :
  assoc tmp (tmpfiles w) <> None ->
  tmpfiles
    (snd (try_finally (urlretrieve E url tmp ;; extractall E tmp (EXTENSION_DIR E))
                      (os_unlink tmp) w))
  = remove_entry tmp (tmpfiles w).
Proof.
  intros Hin. unfold try_finally.
  destruct ((urlretrieve E url tmp ;; extractall E tmp (EXTENSION_DIR E)) w)
    as [r w1] eqn:Hbody.
  assert (Hw1 : assoc tmp (tmpfiles w1) <> None
                /\ remove_entry tmp (tmpfiles w1) = remove_entry tmp (tmpfiles w)).
  { destruct (urlretrieve_tmpfiles E url tmp w Hin) as [H1 H2].
    unfold bind in Hbody.
    destruct (urlretrieve E url tmp w) as [[[]|e] w0]; simpl in H1, H2.
    - pose proof (keeps_extractall E tmp (EXTENSION_DIR E) w0) as Hk.
      rewrite Hbody in Hk. simpl in Hk. now rewrite Hk.
    - injection Hbody as _ <-. now split. }
  destruct Hw1 as [Hin1 Hrm]. unfold os_unlink.
  destruct (assoc tmp (tmpfiles w1)); [|contradiction].
  simpl. exact Hrm.
Qed.

Lemma try_finally_raises {A} (body : M A) (cleanup : M unit) w :
  (exists e, fst (body w) = Raise e) ->
  exists e', fst (try_finally body cleanup w) = Raise e'.
Proof.
  intros [e He]. unfold try_finally. destruct (body w) as [r w1]. simpl in He. subst r.
  destruct (cleanup w1) as [[[]|e'] w2]; eexists; reflexivity.
Qed.

(** From any state, the download step ends, whatever happens, with the
    temporary files it started with. *)
Lemma download_and_unpack_restores E url : keeps_tmpfiles (download_and_unpack E url).
Proof.
  intros w. unfold download_and_unpack. unfold bind at 1. unfold NamedTemporaryFile.
  destruct (assoc (tmp_name E) (tmpfiles w)) eqn:Hfree; [reflexivity|].
  rewrite try_finally_unlinks; simpl.
  - rewrite remove_entry_app, (remove_entry_absent _ _ Hfree). simpl.
    rewrite String.eqb_refl. apply app_nil_r.
  - rewrite assoc_app_absent by exact Hfree. simpl.
    rewrite String.eqb_refl. discriminate.
Qed.

Lemma keeps_clean_previous_install E : keeps_tmpfiles (clean_previous_install E).
Proof.
  unfold clean_previous_install.
  apply keeps_bind; [apply keeps_read_fs | intros ex].
  apply keeps_bind; [apply keeps_when, keeps_on_fs | intros _].
  apply keeps_on_fs.
Qed.

Lemma keeps_flatten_single_subdir E : keeps_tmpfiles (flatten_single_subdir E).
Proof.
  unfold flatten_single_subdir.
  apply keeps_bind; [apply keeps_iterdir | intros children].
  destruct children as [|child [|? ?]]; try apply keeps_ret.
  apply keeps_bind; [apply keeps_read_fs | intros d].
  apply keeps_bind.
  { destruct d; [apply keeps_read_fs | apply keeps_ret]. }
  intros m. apply keeps_when.
  apply keeps_bind; [apply keeps_iterdir | intros items].
  apply keeps_bind; [|intros _; apply keeps_on_fs].
  apply keeps_for_each. intros item. apply keeps_on_fs.
Qed.

Lemma keeps_load_manifest E : keeps_tmpfiles (load_manifest E).
Proof.
  unfold load_manifest.
  apply keeps_bind; [apply keeps_read_fs | intros ex].
  destruct ex; simpl; [|apply keeps_raise].
  apply keeps_bind.
  - intros w. unfold open_read. now destruct (lookup (fs w) _) as [[?|?]|].
  - intros data. unfold json_load.
    destruct (json_loads E data); [apply keeps_ret | apply keeps_raise].
Qed.

(** C4.  [download_and_extract] ends, on every exit path, with exactly the
    temporary files it started with.  In more detail: when the name
    handed out by [tempfile] is free, the file is created, and it is gone
    again when the download step returns or raises, in particular when
    the download raises and when the unpacking raises. *)
Theorem temporary_archive_always_deleted (E : environment) (url : string) (w : world) :
  tmpfiles (snd (download_and_extract E url w)) = tmpfiles w
  /\ forall w1,
       assoc (tmp_name E) (tmpfiles w1) = None ->
       (exists w2, NamedTemporaryFile E w1 = (Ok (tmp_name E), w2)
                   /\ assoc (tmp_name E) (tmpfiles w2) = Some "")
       /\ assoc (tmp_name E) (tmpfiles (snd (download_and_unpack E url w1))) = None
       /\ (forall e, http_get E url = Raise e ->
                     fst (download_and_unpack E url w1) = Raise e)
       /\ (forall body written e,
             http_get E url = Ok body ->
             unzip E body = (written, Some e) ->
             exists e', fst (download_and_unpack E url w1) = Raise e').
Proof.
  split.
  - revert w. change (keeps_tmpfiles (download_and_extract E url)).
    unfold download_and_extract.
    apply keeps_bind; [apply keeps_clean_previous_install | intros _].
    apply keeps_bind; [apply download_and_unpack_restores | intros _].
    apply keeps_bind; [apply keeps_flatten_single_subdir | intros _].
    apply keeps_load_manifest.
  - intros w1 Hfree.
    assert (Hnew : assoc (tmp_name E) (tmpfiles w1 ++ [(tmp_name E, "")]) = Some "").
    { rewrite assoc_app_absent by exact Hfree. simpl. now rewrite String.eqb_refl. }
    split; [|split; [|split]].
    + unfold NamedTemporaryFile. rewrite Hfree. eexists. split; [reflexivity|].
      exact Hnew.
    + now rewrite download_and_unpack_restores.
    + intros e He. unfold download_and_unpack. unfold bind at 1.
      unfold NamedTemporaryFile. rewrite Hfree.
      unfold try_finally, bind, urlretrieve. rewrite He.
      unfold os_unlink. simpl. rewrite Hnew. reflexivity.
    + intros body written e Hbody Hzip. unfold download_and_unpack. unfold bind at 1.
      unfold NamedTemporaryFile. rewrite Hfree.
      apply try_finally_raises.
      unfold bind at 1. unfold urlretrieve. rewrite Hbody. simpl.
      unfold extractall. simpl. rewrite assoc_set_entry_same, Hzip.
      unfold bind, on_fs. simpl.
      match goal with |- context [alter ?f ?p ?n] => destruct (alter f p n) end;
        eexists; reflexivity.
Qed.

(* ================================================================== *)
(** * Paths in the tree *)
(* ================================================================== *)

Lemma lookup_app (p q : path) : forall n,
  lookup n (p ++ q)%list = match lookup n p with
                      | Some c => lookup c q
                      | None => None
                      end.
Proof.
  induction p as [|x p IH]; intros n; simpl; [reflexivity|].
  destruct n as [m d|es]; [reflexivity|].
  destruct (assoc x es) as [c|]; [apply IH | reflexivity].
Qed.

Lemma lookup_snoc (n : node) (p : path) (x : string) :
  lookup n (p ++ [x])%list = match lookup n p with
                        | Some (Dir es) => assoc x es
                        | _ => None
                        end.
Proof.
  rewrite lookup_app. destruct (lookup n p) as [[m d|es]|]; simpl; try reflexivity.
  now destruct (assoc x es).
Qed.

Lemma exists_true_iff (n : node) (p : path) :
  exists_ n p = true <-> lookup n p <> None.
Proof.
  unfold exists_. destruct (lookup n p); split; congruence.
Qed.

Lemma exists_false_iff (n : node) (p : path) :
  exists_ n p = false <-> lookup n p = None.
Proof.
  unfold exists_. destruct (lookup n p); split; congruence.
Qed.



Lemma EXTENSION_DIR_not_root (E : environment) : EXTENSION_DIR E <> [].
Proof. unfold EXTENSION_DIR. intros H. now apply app_eq_nil in H as [_ H]. Qed.

(* ================================================================== *)
(** * The phases of [download_and_extract] *)
(* ================================================================== *)

Lemma download_and_extract_after_normalize E url w :
  download_and_extract E url w
  = bind (unpack_and_normalize E url) (fun _ => load_manifest E) w.
Proof.
  unfold download_and_extract, unpack_and_normalize, bind.
  destruct (clean_previous_install E w) as [[[]|e] w1]; [|reflexivity].
  destruct (download_and_unpack E url w1) as [[[]|e] w2]; reflexivity.
Qed.

Lemma download_and_extract_after_unpack E url w :
  download_and_extract E url w
  = bind (unpack E url) (fun _ => normalize_and_load E) w.
Proof.
  unfold download_and_extract, unpack, normalize_and_load, bind.
  destruct (clean_previous_install E w) as [[[]|e] w1]; reflexivity.
Qed.

(** What the manifest check does in each state. *)
Lemma load_manifest_cases E w :
  match lookup (fs w) (manifest_path E) with
  | None => load_manifest E w = (Raise (RuntimeError (missing_manifest_message E)), w)
  | Some (Dir _) => load_manifest E w = (Raise IsADirectoryError, w)
  | Some (File _ data) =>
      match json_loads E data with
      | Some j => load_manifest E w = (Ok j, w)
      | None => load_manifest E w = (Raise (decode_failure E data), w)
      end
  end.
Proof.
  unfold load_manifest, bind, path_exists, read_fs, exists_, open_read, json_load.
  destruct (lookup (fs w) (manifest_path E)) as [[m d|es]|] eqn:Hlook; simpl;
    rewrite ?Hlook; try reflexivity.
  destruct (json_loads E d); reflexivity.
Qed.


(** C3, as the code has it.  When [download_and_extract] returns, the
    extension directory exists and holds at its root a regular manifest
    file whose content decodes to the value returned. *)
Theorem installed_manifest_is_valid (E : environment) (url : string) (w w' : world)
  (manifest : json) :
  download_and_extract E url w = (Ok manifest, w') ->
  is_dir (fs w') (EXTENSION_DIR E) = true
  /\ exists mode data,
       lookup (fs w') (manifest_path E) = Some (File mode data)
       /\ json_loads E data = Some manifest.
Proof.
  rewrite download_and_extract_after_normalize. intros Hrun.
  apply bind_ok in Hrun as ([] & w1 & _ & Hload).
  pose proof (load_manifest_cases E w1) as Hcases.
  destruct (lookup (fs w1) (manifest_path E)) as [[m d|es]|] eqn:Hlook.
  - destruct (json_loads E d) as [j|] eqn:Hj; rewrite Hcases in Hload;
      [|discriminate].
    injection Hload as -> ->. split.
    + unfold manifest_path in Hlook. rewrite lookup_snoc in Hlook.
      unfold is_dir. destruct (lookup (fs w') (EXTENSION_DIR E)) as [[?|?]|];
        [discriminate | reflexivity | discriminate].
    + now exists m, d.
  - rewrite Hcases in Hload. discriminate.
  - rewrite Hcases in Hload. discriminate.
Qed.

(* ================================================================== *)
(** * Layout normalization *)
(* ================================================================== *)

(** The normalization step leaves a flat extension directory as it is. *)
Lemma flatten_noop_on_flat (E : environment) (w : world) (es : list (string * node)) :
  lookup (fs w) (EXTENSION_DIR E) = Some (Dir es) ->
  already_flat es ->
  flatten_single_subdir E w = (Ok tt, w).
Proof.
  intros Hext Hflat. unfold flatten_single_subdir. unfold bind at 1.
  unfold iterdir. rewrite Hext.
  destruct es as [|[x c] [|e2 es']]; [reflexivity| |reflexivity].
  cbn [names map fst].
  assert (Hchild : lookup (fs w) (EXTENSION_DIR E ++ [x])%list = Some c).
  { rewrite lookup_snoc, Hext. simpl. now rewrite String.eqb_refl. }
  unfold bind, path_is_dir, path_exists, read_fs, is_dir, exists_.
  rewrite Hchild.
  destruct Hflat as [Hlen | [(x' & m & d & Heq) | (x' & sub & Heq & Hnone)]].
  - simpl in Hlen. congruence.
  - injection Heq as -> ->. reflexivity.
  - injection Heq as -> ->. rewrite lookup_snoc, Hchild, Hnone. reflexivity.
Qed.

(** C10, as the code has it.  When the unpacked extension directory holds
    exactly one entry, a directory that is not itself called
    manifest.json and has no entry called manifest.json, neither a file
    nor a directory, at its own root, the normalization step moves
    nothing and the installer raises the missing-manifest error naming
    the extension directory, whatever lies deeper inside. *)
Theorem wrapper_without_manifest_fails
  (E : environment) (url : string) (w w1 : world) (d : string)
  (sub : list (string * node)) :
  unpack E url w = (Ok tt, w1) ->
  lookup (fs w1) (EXTENSION_DIR E) = Some (Dir [(d, Dir sub)]) ->
  assoc "manifest.json" sub = None ->
  d <> "manifest.json" ->
  flatten_single_subdir E w1 = (Ok tt, w1)
  /\ download_and_extract E url w
     = (Raise (RuntimeError (missing_manifest_message E)), w1)
  /\ missing_manifest_message E
     = "manifest.json not found after extraction in " ++ path_str (EXTENSION_DIR E).
Proof.
  intros Hrun Hext Hnone Hd.
  assert (Hflat : flatten_single_subdir E w1 = (Ok tt, w1)).
  { apply (flatten_noop_on_flat E w1 Hext). right. right. now exists d, sub. }
  split; [exact Hflat | split; [|reflexivity]].
  rewrite download_and_extract_after_unpack. unfold bind at 1. rewrite Hrun.
  unfold normalize_and_load, bind. rewrite Hflat.
  pose proof (load_manifest_cases E w1) as Hcases.
  unfold manifest_path in Hcases at 1. rewrite lookup_snoc, Hext in Hcases.
  cbn [assoc] in Hcases.
  apply not_eq_sym in Hd. apply String.eqb_neq in Hd. rewrite Hd in Hcases.
  exact Hcases.
Qed.

(* ================================================================== *)
(** * Changing the tree *)
(* ================================================================== *)

Lemma lookup_cons (x : string) (q : path) (es : list (string * node)) :
  lookup (Dir es) (x :: q) = match assoc x es with
                             | Some c => lookup c q
                             | None => None
                             end.
Proof. reflexivity. Qed.

Lemma alter_last (f : option node -> result (option node)) (x : string)
  (es : list (string * node)) :
  alter f [x] (Dir es) = match f (assoc x es) with
                         | Ok (Some c) => Ok (Dir (set_entry x c es))
                         | Ok None => Ok (Dir (remove_entry x es))
                         | Raise e => Raise e
                         end.
Proof. reflexivity. Qed.

Lemma alter_deeper (f : option node -> result (option node)) (x y : string)
  (q : path) (es : list (string * node)) :
  alter f (x :: y :: q) (Dir es)
  = match assoc x es with
    | None => Raise FileNotFoundError
    | Some c =>
        match alter f (y :: q) c with
        | Ok c' => Ok (Dir (set_entry x c' es))
        | Raise e => Raise e
        end
    end.
Proof. reflexivity. Qed.

Lemma mkdir_parents_cons (exist_ok : bool) (x : string) (q : path)
  (es : list (string * node)) :
  mkdir_parents exist_ok (x :: q) (Dir es)
  = match assoc x es with
    | Some c =>
        match mkdir_parents exist_ok q c with
        | Ok c' => Ok (Dir (set_entry x c' es))
        | Raise e => Raise e
        end
    | None => Ok (Dir (set_entry x (fresh_dirs q) es))
    end.
Proof. reflexivity. Qed.

(** After a change at [p], what is found at [p] is what [f] decided. *)
Lemma alter_lookup_same (f : option node -> result (option node)) (p : path) :
  forall n n',
    p <> [] -> alter f p n = Ok n' -> f (lookup n p) = Ok (lookup n' p).
Proof.
  induction p as [|x q IH]; intros n n' Hp Hrun; [contradiction|].
  destruct n as [m d|es]; [discriminate|].
  destruct q as [|y q].
  - rewrite alter_last in Hrun.
    assert (Hhere : lookup (Dir es) [x] = assoc x es).
    { rewrite lookup_cons. now destruct (assoc x es). }
    rewrite Hhere.
    destruct (f (assoc x es)) as [[c|]|e]; [| |discriminate];
      injection Hrun as <-; rewrite lookup_cons.
    + now rewrite assoc_set_entry_same.
    + now rewrite assoc_remove_entry_same.
  - rewrite alter_deeper in Hrun. rewrite lookup_cons.
    destruct (assoc x es) as [c0|] eqn:Hx; [|discriminate].
    destruct (alter f (y :: q) c0) as [c'|e] eqn:Hrec; [|discriminate].
    injection Hrun as <-. rewrite lookup_cons, assoc_set_entry_same.
    apply IH; [discriminate | exact Hrec].
Qed.

(** A change at [p] is not seen from a path that diverges from [p]. *)
Lemma alter_lookup_diverge (f : option node -> result (option node)) (p q : path) :
  forall n n',
    diverge p q -> alter f p n = Ok n' -> lookup n' q = lookup n q.
Proof.
  intros n n' (h & a & b & r & s & -> & -> & Hab). revert n n'.
  induction h as [|x h IH]; intros n n' Hrun.
  - destruct n as [m d|es]; [discriminate|]. simpl app in *.
    assert (Hn' : exists c, n' = Dir (set_entry a c es) \/ n' = Dir (remove_entry a es)).
    { destruct r as [|y r].
      - rewrite alter_last in Hrun.
        destruct (f (assoc a es)) as [[c|]|e]; [| |discriminate];
          injection Hrun as <-; [exists c; now left | exists (Dir []); now right].
      - rewrite alter_deeper in Hrun.
        destruct (assoc a es) as [c0|]; [|discriminate].
        destruct (alter f (y :: r) c0) as [c'|e]; [|discriminate].
        injection Hrun as <-. exists c'. now left. }
    destruct Hn' as [c [-> | ->]]; rewrite !lookup_cons.
    + now rewrite assoc_set_entry_other.
    + now rewrite assoc_remove_entry_other.
  - destruct n as [m d|es]; [discriminate|].
    rewrite <- !app_comm_cons in *.
    destruct (h ++ a :: r)%list as [|y t] eqn:Ht; [now destruct h|].
    rewrite alter_deeper in Hrun.
    destruct (assoc x es) as [c0|] eqn:Hx; [|discriminate].
    destruct (alter f (y :: t) c0) as [c'|e] eqn:Hrec; [|discriminate].
    injection Hrun as <-. rewrite !lookup_cons, assoc_set_entry_same, Hx.
    now apply IH.
Qed.

(** A change at a path where something exists goes as far as [f]. *)
Lemma alter_existing (f : option node -> result (option node)) (p : path) :
  forall n c,
    p <> [] -> lookup n p = Some c ->
    match f (Some c) with
    | Ok _ => exists n', alter f p n = Ok n'
    | Raise e => alter f p n = Raise e
    end.
Proof.
  induction p as [|x q IH]; intros n c Hp Hlook; [contradiction|].
  destruct n as [m d|es]; [discriminate|].
  rewrite lookup_cons in Hlook.
  destruct (assoc x es) as [c0|] eqn:Hx; [|discriminate].
  destruct q as [|y q].
  - simpl in Hlook. injection Hlook as ->. rewrite alter_last, Hx.
    destruct (f (Some c)) as [[c1|]|e]; [eexists; reflexivity.. | reflexivity].
  - rewrite alter_deeper, Hx.
    specialize (IH c0 c ltac:(discriminate) Hlook).
    destruct (f (Some c)) as [o|e].
    + destruct IH as [c' ->]. eexists; reflexivity.
    + now rewrite IH.
Qed.

Lemma lookup_fresh_dirs_diverge (h : path) (a b : string) (r s : path) :
  a <> b -> lookup (fresh_dirs (h ++ a :: r)%list) (h ++ b :: s)%list = None.
Proof.
  intros Hab. induction h as [|x h IH]; simpl.
  - apply String.eqb_neq in Hab. rewrite String.eqb_sym in Hab. now rewrite Hab.
  - rewrite String.eqb_refl. exact IH.
Qed.

(** Directories made along [p] are not seen from a path that diverges
    from [p]. *)
Lemma mkdir_parents_lookup_diverge (exist_ok : bool) (p q : path) :
  forall n n',
    diverge p q -> mkdir_parents exist_ok p n = Ok n' -> lookup n' q = lookup n q.
Proof.
  intros n n' (h & a & b & r & s & -> & -> & Hab). revert n n'.
  induction h as [|x h IH]; intros n n' Hrun.
  - destruct n as [m d|es]; [destruct r; discriminate|]. simpl app in *.
    rewrite mkdir_parents_cons in Hrun.
    destruct (assoc a es) as [c0|].
    + destruct (mkdir_parents exist_ok r c0) as [c'|e]; [|discriminate].
      injection Hrun as <-. rewrite !lookup_cons. now rewrite assoc_set_entry_other.
    + injection Hrun as <-. rewrite !lookup_cons. now rewrite assoc_set_entry_other.
  - destruct n as [m d|es]; [discriminate|].
    rewrite <- !app_comm_cons in *. rewrite mkdir_parents_cons in Hrun.
    destruct (assoc x es) as [c0|] eqn:Hx.
    + destruct (mkdir_parents exist_ok (h ++ a :: r)%list c0) as [c'|e] eqn:Hrec;
        [|discriminate].
      injection Hrun as <-. rewrite !lookup_cons, assoc_set_entry_same, Hx.
      now apply IH.
    + injection Hrun as <-. rewrite !lookup_cons, assoc_set_entry_same, Hx.
      now apply lookup_fresh_dirs_diverge.
Qed.

Lemma diverge_sym (p q : path) : diverge p q -> diverge q p.
Proof.
  intros (h & a & b & r & s & Hp & Hq & Hab).
  exists h, b, a, s, r. repeat split; [assumption.. | now apply not_eq_sym].
Qed.

(* ================================================================== *)
(** * Traces *)
(* ================================================================== *)

Lemma emit_log (e : event) (w : world) : emit e w = (Ok tt, log w [e]).
Proof. reflexivity. Qed.

Lemma log_log (w : world) (a b : list event) : log (log w a) b = log w (a ++ b).
Proof. unfold log. simpl. now rewrite app_assoc. Qed.

Lemma print_header_log (text : string) (w : world) :
  _print_header text w = (Ok tt, log w (header_lines text)).
Proof.
  unfold _print_header, print, bind. rewrite !emit_log, !log_log. reflexivity.
Qed.

(* ================================================================== *)
(** * Preflight checks *)
(* ================================================================== *)

Lemma check_macos_darwin (E : environment) (w : world) :
  platform E = "darwin" -> _check_macos E w = (Ok tt, w).
Proof. unfold _check_macos. intros ->. reflexivity. Qed.

Lemma check_macos_other (E : environment) (w : world) :
  platform E <> "darwin" ->
  _check_macos E w
  = (Raise (SystemExit 1), log w [PrintErr "Error: ublock-chrome is macOS-only."]).
Proof.
  unfold _check_macos. intros Hp. apply String.eqb_neq in Hp. rewrite Hp. reflexivity.
Qed.

Lemma check_chrome_present (w : world) :
  exists_ (fs w) chrome_app = true -> _check_chrome w = (Ok tt, w).
Proof.
  unfold _check_chrome, bind, path_exists, read_fs. intros ->. reflexivity.
Qed.

(* ================================================================== *)
(** * Uninstalling *)
(* ================================================================== *)

(** One round of the loop of [cmd_uninstall], on a target that is absent
    or a directory: the target is gone afterwards, the outcome is
    reported, and nothing changes at paths that diverge from it. *)
Lemma uninstall_target (p : path) (w : world) :
  p <> [] ->
  absent_or_dir (fs w) p ->
  exists w',
    (ex <- path_exists p ;;
     if ex then on_fs (rmtree p) ;; print ("  Removed: " ++ path_str p)
     else print ("  (not found: " ++ path_str p ++ ")")) w = (Ok tt, w')
    /\ trace w' = (trace w ++ [Print (uninstall_report (exists_ (fs w) p) p)])%list
    /\ lookup (fs w') p = None
    /\ (forall q, diverge p q -> lookup (fs w') q = lookup (fs w) q).
Proof.
  intros Hp [Hnone | [es Hdir]]; unfold bind at 1, path_exists, read_fs, exists_.
  - rewrite Hnone. exists (log w [Print ("  (not found: " ++ path_str p ++ ")")]).
    repeat split. exact Hnone.
  - rewrite Hdir. unfold bind, on_fs.
    pose proof (alter_existing
                  (fun o => match o with
                            | None => Raise FileNotFoundError
                            | Some (File _ _) => Raise NotADirectoryError
                            | Some (Dir _) => Ok None
                            end) (fs w) Hp Hdir) as [n' Hrm].
    fold rmtree in Hrm. rewrite Hrm.
    eexists. split; [reflexivity|]. simpl. split; [reflexivity|]. split.
    + apply alter_lookup_same in Hrm; [|exact Hp]. rewrite Hdir in Hrm.
      now injection Hrm as <-.
    + intros q Hq. unfold rmtree in Hrm. eapply alter_lookup_diverge; eassumption.
Qed.

Lemma uninstall_targets_diverge (E : environment) :
  diverge (INSTALL_DIR E) (launcher_in_applications E).
Proof.
  exists (home E), ".ublock-chrome", "Applications", [], [APP_NAME].
  repeat split. discriminate.
Qed.

Lemma path_snoc_not_root (p : path) (x : string) : (p ++ [x])%list <> [].
Proof. intros H. now apply app_eq_nil in H as [_ H]. Qed.

Lemma launcher_in_applications_not_root (E : environment) :
  launcher_in_applications E <> [].
Proof.
  unfold launcher_in_applications. intros H. now apply app_eq_nil in H as [_ H].
Qed.

(** C9, as the code has it.  On macOS, from every state in which each of
    the two targets is absent or a directory, [cmd_uninstall] returns
    normally, leaves neither target behind, and reports each target as
    removed or as not found, according to whether it existed. *)
Theorem uninstall_succeeds (E : environment) (w : world) :
  platform E = "darwin" ->
  absent_or_dir (fs w) (INSTALL_DIR E) ->
  absent_or_dir (fs w) (launcher_in_applications E) ->
  exists w',
    cmd_uninstall E w = (Ok tt, w')
    /\ lookup (fs w') (INSTALL_DIR E) = None
    /\ lookup (fs w') (launcher_in_applications E) = None
    /\ trace w'
       = (trace w ++ header_lines "Uninstalling uBlock Origin Chrome"
          ++ [Print (uninstall_report (exists_ (fs w) (INSTALL_DIR E)) (INSTALL_DIR E));
              Print (uninstall_report (exists_ (fs w) (launcher_in_applications E))
                                      (launcher_in_applications E));
              Print "";
              Print "  Done. uBlock Origin and the launcher have been removed.";
              Print ""])%list.
Proof.
  intros Hmac H1 H2.
  pose proof (uninstall_targets_diverge E) as Hdiv.
  unfold cmd_uninstall.
  unfold bind at 1. rewrite (check_macos_darwin E w Hmac).
  unfold bind at 1. rewrite print_header_log.
  set (w0 := log w (header_lines "Uninstalling uBlock Origin Chrome")).
  cbn [for_each]. fold (launcher_in_applications E).
  destruct (@uninstall_target (INSTALL_DIR E) w0 (path_snoc_not_root _ _) H1)
    as (w1 & Hrun1 & Htr1 & Hgone1 & Hframe1).
  assert (H2' : absent_or_dir (fs w1) (launcher_in_applications E)).
  { unfold absent_or_dir. now rewrite (Hframe1 _ Hdiv). }
  destruct (@uninstall_target (launcher_in_applications E) w1
              (launcher_in_applications_not_root E) H2')
    as (w2 & Hrun2 & Htr2 & Hgone2 & Hframe2).
  unfold bind at 1. unfold bind at 1. rewrite Hrun1.
  unfold bind at 1. rewrite Hrun2.
  unfold bind, ret, print. rewrite !emit_log.
  eexists. split; [reflexivity|]. simpl.
  split; [|split].
  - rewrite (Hframe2 _ (diverge_sym Hdiv)). exact Hgone1.
  - exact Hgone2.
  - rewrite Htr2, Htr1. unfold exists_ at 2. rewrite (Hframe1 _ Hdiv).
    fold (exists_ (fs w0) (launcher_in_applications E)).
    subst w0. simpl. rewrite <- !app_assoc. reflexivity.
Qed.

(* ================================================================== *)
(** * Launching *)
(* ================================================================== *)

Lemma quit_chrome_if_running_returns (E : environment) (w : world) :
  exists w', quit_chrome_if_running E w = (Ok tt, w').
Proof.
  pose proof (wait_for_exit_spec E 30) as Hloop.
  unfold quit_chrome_if_running.
  set (loop := wait_for_exit E 30) in *. clearbody loop.
  unfold bind at 1. unfold pgrep at 1.
  destruct (Z.eqb (pgrep_rc E (pgreps w)) 0); simpl; [|eexists; reflexivity].
  unfold bind at 1. unfold print at 1, emit at 1. simpl.
  unfold bind at 1. unfold subprocess_run at 1, emit at 1. simpl.
  unfold bind at 1.
  match goal with |- context [loop ?w1] =>
    destruct (Hloop w1) as (b & evs & w1' & Hrun & _) end.
  rewrite Hrun. destruct b; eexists; reflexivity.
Qed.

(** When the first process check reports no browser, nothing else of the
    quit sequence happens. *)
Lemma quit_chrome_skipped (E : environment) (w : world) :
  pgrep_rc E (pgreps w) <> 0%Z ->
  quit_chrome_if_running E w
  = (Ok tt, {| fs := fs w; tmpfiles := tmpfiles w;
               trace := (trace w ++ [Run ["pgrep"; "-x"; "Google Chrome"]])%list;
               pgreps := S (pgreps w) |}).
Proof.
  intros Hrc. apply Z.eqb_neq in Hrc.
  unfold quit_chrome_if_running. unfold bind at 1. unfold pgrep at 1.
  now rewrite Hrc.
Qed.


(* ================================================================== *)
(** * The launcher bundle *)
(* ================================================================== *)

Lemma create_launcher_app_path (E : environment) (w w1 : world) (p : path) :
  create_launcher_app E w = (Ok p, w1) -> p = private_bundle E.
Proof.
  unfold create_launcher_app. intros H.
  repeat (apply bind_ok in H as (? & ? & _ & H)).
  unfold ret in H. now injection H as <- _.
Qed.

(** A successful [copytree] to a destination that diverges from the
    source leaves the same directory at both places. *)
Lemma copytree_same_tree (src dst : path) (n n2 : node) :
  diverge dst src ->
  copytree src dst n = Ok n2 ->
  exists es, lookup n src = Some (Dir es)
             /\ lookup n2 src = Some (Dir es)
             /\ lookup n2 dst = Some (Dir es).
Proof.
  intros Hdiv. unfold copytree.
  destruct (lookup n src) as [[m d|es]|] eqn:Hsrc; try discriminate.
  destruct (mkdir_parents false dst n) as [n1|e] eqn:Hmk; [|discriminate].
  intros Hput. exists es. split; [reflexivity|]. split.
  - unfold put in Hput.
    erewrite alter_lookup_diverge; [|eassumption..].
    erewrite mkdir_parents_lookup_diverge; [|eassumption..]. exact Hsrc.
  - assert (Hne : dst <> []).
    { destruct Hdiv as (h & a & b & r & s & -> & _). now destruct h. }
    apply alter_lookup_same in Hput; [|exact Hne]. rename Hput into Hsame.
    now injection Hsame as <-.
Qed.

Lemma bundles_diverge (E : environment) :
  diverge (launcher_in_applications E) (private_bundle E).
Proof.
  exists (home E), "Applications", ".ublock-chrome", [APP_NAME], [APP_NAME].
  unfold private_bundle, INSTALL_DIR. rewrite <- app_assoc.
  repeat split. discriminate.
Qed.

(** C7.  When [create_launcher_app] and then [install_app_to_applications]
    have returned, the bundle directory under the applications folder is
    the same tree, names, contents and modes, as the one under the
    private installation directory; and the copy was made into a place
    where nothing existed any more, whatever had been there before having
    been removed. *)
Theorem launcher_copy_identical (E : environment) (w w1 w2 : world)
  (app_dir dest : path) :
  create_launcher_app E w = (Ok app_dir, w1) ->
  install_app_to_applications E app_dir w1 = (Ok dest, w2) ->
  app_dir = private_bundle E
  /\ dest = launcher_in_applications E
  /\ (exists bundle,
        lookup (fs w2) (private_bundle E) = Some (Dir bundle)
        /\ lookup (fs w2) (launcher_in_applications E) = Some (Dir bundle))
  /\ (exists wm,
        (on_fs (mkdir true (home E ++ ["Applications"])%list) ;;
         ex <- path_exists dest ;;
         when ex (on_fs (rmtree dest))) w1 = (Ok tt, wm)
        /\ lookup (fs wm) dest = None
        /\ on_fs (copytree app_dir dest) wm = (Ok tt, w2)).
Proof.
  intros Hbuild Hinstall.
  apply create_launcher_app_path in Hbuild. subst app_dir.
  unfold install_app_to_applications in Hinstall.
  assert (Hdest : ((home E ++ ["Applications"]) ++ [APP_NAME])%list
                  = launcher_in_applications E).
  { unfold launcher_in_applications. now rewrite <- app_assoc. }
  rewrite Hdest in Hinstall.
  apply bind_ok in Hinstall as ([] & wa & Hmkdir & Hinstall).
  apply bind_ok in Hinstall as (ex & wa' & Hex & Hinstall).
  apply bind_ok in Hinstall as ([] & wm & Hrm & Hinstall).
  apply bind_ok in Hinstall as ([] & wc & Hcopy & Hret).
  unfold ret in Hret. injection Hret as <- ->.
  unfold path_exists, read_fs in Hex. injection Hex as <- <-.
  assert (Hgone : lookup (fs wm) (launcher_in_applications E) = None).
  { destruct (exists_ (fs wa) (launcher_in_applications E)) eqn:Hthere;
      cbn [when] in Hrm.
    - unfold on_fs in Hrm.
      destruct (rmtree (launcher_in_applications E) (fs wa)) as [n'|e] eqn:Hrun;
        [|discriminate].
      injection Hrm as <-. simpl. unfold rmtree in Hrun.
      apply alter_lookup_same in Hrun; [|apply launcher_in_applications_not_root].
      destruct (lookup (fs wa) (launcher_in_applications E)) as [[?|?]|];
        [discriminate | now injection Hrun as <- | discriminate].
    - unfold ret in Hrm. injection Hrm as <-. now apply exists_false_iff. }
  split; [reflexivity | split; [reflexivity | split]].
  - unfold on_fs in Hcopy.
    destruct (copytree (private_bundle E) (launcher_in_applications E) (fs wm))
      as [n2|e] eqn:Hrun; [|discriminate].
    injection Hcopy as <-. simpl.
    apply copytree_same_tree in Hrun; [|apply bundles_diverge].
    destruct Hrun as (es & _ & Hsrc & Hdst).
    now exists es.
  - exists wm. split; [|split; [exact Hgone | exact Hcopy]].
    unfold bind at 1. rewrite Hmkdir.
    unfold bind at 1. unfold path_exists, read_fs. unfold bind. now rewrite Hrm.
Qed.

(* ================================================================== *)
(** * Working below a directory *)
(* ================================================================== *)

Local Open Scope list_scope.

Lemma graft_cons (x : string) (q : path) (c : node) (es : list (string * node)) :
  graft (x :: q) c (Dir es) = match assoc x es with
                              | Some c0 => Dir (set_entry x (graft q c c0) es)
                              | None => Dir es
                              end.
Proof. reflexivity. Qed.

Lemma set_entry_twice (x : string) (a b : node) (l : list (string * node)) :
  set_entry x a (set_entry x b l) = set_entry x a l.
Proof.
  induction l as [|[y c] l IH]; simpl.
  - now rewrite String.eqb_refl.
  - destruct (String.eqb x y) eqn:Hxy; simpl.
    + now rewrite String.eqb_refl.
    + now rewrite Hxy, IH.
Qed.

Lemma lookup_graft_same (h : path) (c' : node) : forall n c,
  lookup n h = Some c -> lookup (graft h c' n) h = Some c'.
Proof.
  induction h as [|x h IH]; intros n c Hlook; [reflexivity|].
  destruct n as [m d|es]; [discriminate|].
  rewrite lookup_cons in Hlook. rewrite graft_cons.
  destruct (assoc x es) as [c0|] eqn:Hx; [|discriminate].
  rewrite lookup_cons, assoc_set_entry_same. now apply (IH c0 c).
Qed.

Lemma graft_graft (h : path) (c1 c2 : node) : forall n c,
  lookup n h = Some c -> graft h c2 (graft h c1 n) = graft h c2 n.
Proof.
  induction h as [|x h IH]; intros n c Hlook; [reflexivity|].
  destruct n as [m d|es]; [discriminate|].
  rewrite lookup_cons in Hlook.
  destruct (assoc x es) as [c0|] eqn:Hx; [|discriminate].
  rewrite (graft_cons x h c1), Hx, graft_cons, assoc_set_entry_same.
  rewrite (IH c0 c Hlook), set_entry_twice, graft_cons, Hx. reflexivity.
Qed.

(** A change at a path below [h] is that change made to the subtree at
    [h], grafted back. *)
Lemma alter_focus (f : option node -> result (option node)) (h p : path) :
  forall n c,
    lookup n h = Some c -> p <> [] ->
    alter f (h ++ p) n = match alter f p c with
                         | Ok c' => Ok (graft h c' n)
                         | Raise e => Raise e
                         end.
Proof.
  induction h as [|x h IH]; intros n c Hlook Hp.
  - simpl in Hlook. injection Hlook as ->. simpl. now destruct (alter f p c).
  - destruct n as [m d|es]; [discriminate|].
    rewrite lookup_cons in Hlook.
    destruct (assoc x es) as [c0|] eqn:Hx; [|discriminate].
    rewrite <- app_comm_cons.
    destruct (h ++ p)%list as [|y t] eqn:Ht.
    { apply app_eq_nil in Ht as [_ Ht]. contradiction. }
    rewrite alter_deeper, Hx, (IH c0 c Hlook Hp).
    destruct (alter f p c) as [c'|e]; [|reflexivity].
    now rewrite graft_cons, Hx.
Qed.

Lemma basename_snoc (p : path) (x : string) : basename (p ++ [x]) = x.
Proof. unfold basename. apply last_last. Qed.

(* ================================================================== *)
(** * Moving a wrapped payload up *)
(* ================================================================== *)

(** One [shutil.move] of the loop, seen from the extension directory [h]:
    the first remaining child [x] of the wrapper [d] becomes the last
    entry of [h]. *)
Lemma move_child_up (h : path) (d x : string) (c : node)
  (todo done : list (string * node)) (n : node) :
  lookup n h = Some (Dir ((d, Dir ((x, c) :: todo)) :: done)) ->
  x <> d ->
  assoc x done = None ->
  assoc x todo = None ->
  move ((h ++ [d]) ++ [x]) (h ++ [basename ((h ++ [d]) ++ [x])]) n
  = Ok (graft h (Dir ((d, Dir todo) :: (done ++ [(x, c)]))) n).
Proof.
  intros Hh Hxd Hdone Htodo.
  assert (Hdx : String.eqb d x = false).
  { apply String.eqb_neq. now apply not_eq_sym. }
  assert (Hxd' : String.eqb x d = false) by now apply String.eqb_neq.
  rewrite basename_snoc. unfold move.
  assert (Hsrc : lookup n ((h ++ [d]) ++ [x]) = Some c).
  { rewrite !lookup_snoc, Hh. cbn [assoc]. rewrite String.eqb_refl.
    cbn [assoc]. now rewrite String.eqb_refl. }
  assert (Hdst : lookup n (h ++ [x]) = None).
  { rewrite lookup_snoc, Hh. cbn [assoc]. now rewrite Hxd'. }
  rewrite Hsrc, Hdst.
  unfold detach. rewrite <- app_assoc. cbn [app].
  rewrite (alter_focus _ h (p := [d; x]) n Hh) by discriminate.
  rewrite alter_deeper. cbn [assoc]. rewrite String.eqb_refl, alter_last.
  cbn [assoc]. rewrite String.eqb_refl. cbn [remove_entry set_entry].
  rewrite !String.eqb_refl, (remove_entry_absent _ _ Htodo).
  unfold put.
  erewrite alter_focus; [|apply (lookup_graft_same _ _ _ Hh) | discriminate].
  rewrite alter_last. cbn [set_entry]. rewrite Hxd'.
  rewrite (set_entry_absent _ c _ Hdone).
  now rewrite (graft_graft _ _ _ n Hh).
Qed.

Lemma set_entry_same_value (x : string) (c : node) (l : list (string * node)) :
  assoc x l = Some c -> set_entry x c l = l.
Proof.
  induction l as [|[y b] l IH]; simpl; [discriminate|].
  destruct (String.eqb x y) eqn:Hxy.
  - apply String.eqb_eq in Hxy. subst y. now intros [= ->].
  - intros H. now rewrite IH.
Qed.

Lemma graft_same (h : path) : forall n c, lookup n h = Some c -> graft h c n = n.
Proof.
  induction h as [|x h IH]; intros n c Hlook.
  - simpl in *. now injection Hlook as ->.
  - destruct n as [m d|es]; [discriminate|].
    rewrite lookup_cons in Hlook. rewrite graft_cons.
    destruct (assoc x es) as [c0|] eqn:Hx; [|reflexivity].
    now rewrite (IH c0 c Hlook), set_entry_same_value.
Qed.

Lemma names_app (a b : list (string * node)) : names (a ++ b) = names a ++ names b.
Proof. apply map_app. Qed.

(** The loop of moves: every child of the wrapper [d] ends up in the
    extension directory [h], in the listing order, and the wrapper is
    left empty. *)
Lemma move_loop (h : path) (d : string) : forall todo done w,
  lookup (fs w) h = Some (Dir ((d, Dir todo) :: done)) ->
  NoDup (names (done ++ todo)) ->
  ~ In d (names (done ++ todo)) ->
  for_each (map (fun x => (h ++ [d]) ++ [x]) (names todo))
           (fun item => on_fs (move item (h ++ [basename item]))) w
  = (Ok tt, {| fs := graft h (Dir ((d, Dir []) :: (done ++ todo))) (fs w);
               tmpfiles := tmpfiles w; trace := trace w; pgreps := pgreps w |}).
Proof.
  induction todo as [|[x c] todo IH]; intros done w Hh Hnodup Hd.
  - cbn [names map for_each]. rewrite app_nil_r, (graft_same _ _ Hh).
    now destruct w.
  - cbn [names map fst for_each]. fold (names todo).
    rewrite names_app in Hnodup, Hd. cbn [names map fst] in Hnodup, Hd.
    fold (names todo) in Hnodup, Hd. fold (names done) in Hnodup, Hd.
    pose proof (NoDup_remove_2 _ _ _ Hnodup) as Hx.
    assert (Hxd : x <> d).
    { intros ->. apply Hd. apply in_or_app. right. now left. }
    assert (Hdone : assoc x done = None).
    { apply assoc_none_not_in. intros Hin. apply Hx, in_or_app. now left. }
    assert (Htodo : assoc x todo = None).
    { apply assoc_none_not_in. intros Hin. apply Hx, in_or_app. now right. }
    unfold bind at 1. unfold on_fs at 1.
    rewrite (move_child_up h (fs w) Hh Hxd Hdone Htodo).
    match goal with |- for_each _ _ ?w1 = _ =>
      rewrite (IH (done ++ [(x, c)]) w1) end.
    + cbn [fs tmpfiles trace pgreps].
      rewrite (graft_graft _ _ _ (fs w) Hh), <- app_assoc. reflexivity.
    + cbn [fs]. apply (lookup_graft_same _ _ _ Hh).
    + rewrite <- app_assoc, names_app. exact Hnodup.
    + rewrite <- app_assoc, names_app. exact Hd.
Qed.

(** The normalization step on a payload wrapped in one directory whose
    name is not the name of one of its children: the extension directory
    ends up holding exactly the children of the wrapper, and nothing
    else in the tree changes. *)
Lemma flatten_moves_wrapped_payload (E : environment) (w : world) (d : string)
  (sub : list (string * node)) :
  lookup (fs w) (EXTENSION_DIR E) = Some (Dir [(d, Dir sub)]) ->
  assoc "manifest.json" sub <> None ->
  NoDup (names sub) ->
  ~ In d (names sub) ->
  flatten_single_subdir E w
  = (Ok tt, {| fs := graft (EXTENSION_DIR E) (Dir sub) (fs w);
               tmpfiles := tmpfiles w; trace := trace w; pgreps := pgreps w |}).
Proof.
  intros Hext Hman Hnodup Hd.
  assert (Hsubdir : lookup (fs w) (EXTENSION_DIR E ++ [d]) = Some (Dir sub)).
  { rewrite lookup_snoc, Hext. cbn [assoc]. now rewrite String.eqb_refl. }
  assert (Hinner : exists_ (fs w) ((EXTENSION_DIR E ++ [d]) ++ ["manifest.json"]) = true).
  { apply exists_true_iff. now rewrite lookup_snoc, Hsubdir. }
  unfold flatten_single_subdir. unfold bind at 1. unfold iterdir at 1. rewrite Hext.
  cbn [names map fst].
  unfold bind at 1. unfold path_is_dir, read_fs, is_dir. rewrite Hsubdir.
  unfold bind at 1. unfold path_exists, read_fs. rewrite Hinner. cbn [when].
  unfold bind at 1. unfold iterdir. rewrite Hsubdir.
  unfold bind at 1.
  pose proof (@move_loop (EXTENSION_DIR E) d sub [] w Hext Hnodup Hd) as Hloop.
  unfold path in *. rewrite Hloop.
  unfold on_fs. cbn [fs tmpfiles trace pgreps app]. unfold rmdir.
  erewrite alter_focus;
    [|apply (lookup_graft_same _ _ _ Hext) | discriminate].
  rewrite alter_last. cbn [assoc]. rewrite String.eqb_refl.
  cbn [remove_entry]. rewrite String.eqb_refl.
  rewrite remove_entry_absent by now apply assoc_none_not_in.
  now rewrite (graft_graft _ _ _ (fs w) Hext).
Qed.

Lemma load_manifest_state (E : environment) (w : world) :
  snd (load_manifest E w) = w.
Proof.
  pose proof (load_manifest_cases E w) as H.
  destruct (lookup (fs w) (manifest_path E)) as [[m d|es]|].
  - destruct (json_loads E d); now rewrite H.
  - now rewrite H.
  - now rewrite H.
Qed.

(** Where the normalization works as intended: after unpacking, a payload
    that lies flat in the extension directory with its manifest at the
    root, or that is wrapped in exactly one directory whose name is not
    also the name of one of its children, leaves the manifest at the
    root of the extension directory when [download_and_extract] ends. *)
Lemma install_ends_with_manifest_at_root
  (E : environment) (url : string) (w w1 : world) (es : list (string * node)) :
  unpack E url w = (Ok tt, w1) ->
  lookup (fs w1) (EXTENSION_DIR E) = Some (Dir es) ->
  (assoc "manifest.json" es <> None /\ already_flat es)
  \/ (exists d sub, es = [(d, Dir sub)]
                    /\ assoc "manifest.json" sub <> None
                    /\ NoDup (names sub)
                    /\ ~ In d (names sub)) ->
  exists_ (fs (snd (download_and_extract E url w))) (manifest_path E) = true.
Proof.
  intros Hrun Hext Hlayout.
  rewrite download_and_extract_after_unpack. unfold bind at 1. rewrite Hrun.
  unfold normalize_and_load. unfold bind.
  destruct Hlayout as [[Hman Hflat] | (d & sub & -> & Hman & Hnodup & Hd)].
  - rewrite (flatten_noop_on_flat E w1 Hext Hflat), load_manifest_state.
    apply exists_true_iff. unfold manifest_path. now rewrite lookup_snoc, Hext.
  - rewrite (flatten_moves_wrapped_payload E w1 Hext Hman Hnodup Hd).
    rewrite load_manifest_state. cbn [fs].
    apply exists_true_iff. unfold manifest_path.
    now rewrite lookup_snoc, (lookup_graft_same _ _ _ Hext).
Qed.

(* ================================================================== *)
(** * From the archive to the extension directory *)
(* ================================================================== *)

Lemma lookup_fresh_dirs (q : path) : lookup (fresh_dirs q) q = Some (Dir []).
Proof.
  induction q as [|x q IH]; [reflexivity|].
  cbn [fresh_dirs]. rewrite lookup_cons. cbn [assoc]. now rewrite String.eqb_refl.
Qed.

(** [mkdir(parents=True)] of a path at which nothing exists makes an
    empty directory there. *)
Lemma mkdir_parents_creates (exist_ok : bool) (p : path) : forall n n',
  lookup n p = None ->
  mkdir_parents exist_ok p n = Ok n' ->
  lookup n' p = Some (Dir []).
Proof.
  induction p as [|x q IH]; intros n n' Hnone Hrun; [discriminate|].
  destruct n as [m d|es]; [discriminate|].
  rewrite lookup_cons in Hnone. rewrite mkdir_parents_cons in Hrun.
  destruct (assoc x es) as [c|] eqn:Hx.
  - destruct (mkdir_parents exist_ok q c) as [c'|e] eqn:Hrec; [|discriminate].
    injection Hrun as <-. rewrite lookup_cons, assoc_set_entry_same.
    now apply (IH c).
  - injection Hrun as <-. rewrite lookup_cons, assoc_set_entry_same.
    apply lookup_fresh_dirs.
Qed.

(** Lines 113-116 leave an empty extension directory, whatever was there. *)
Lemma clean_previous_install_empties (E : environment) (w w0 : world) :
  clean_previous_install E w = (Ok tt, w0) ->
  lookup (fs w0) (EXTENSION_DIR E) = Some (Dir [])
  /\ tmpfiles w0 = tmpfiles w /\ trace w0 = trace w /\ pgreps w0 = pgreps w.
Proof.
  unfold clean_previous_install. intros Hrun.
  apply bind_ok in Hrun as (ex & wa & Hex & Hrun).
  apply bind_ok in Hrun as ([] & wb & Hrm & Hmk).
  unfold path_exists, read_fs in Hex. injection Hex as <- <-.
  assert (Hgone : lookup (fs wb) (EXTENSION_DIR E) = None
                  /\ tmpfiles wb = tmpfiles w /\ trace wb = trace w
                  /\ pgreps wb = pgreps w).
  { destruct (exists_ (fs w) (EXTENSION_DIR E)) eqn:Hthere; cbn [when] in Hrm.
    - unfold on_fs in Hrm.
      destruct (rmtree (EXTENSION_DIR E) (fs w)) as [n'|e] eqn:Halter; [|discriminate].
      injection Hrm as <-. cbn [fs tmpfiles trace pgreps].
      split; [|now repeat split].
      unfold rmtree in Halter.
      apply alter_lookup_same in Halter; [|apply EXTENSION_DIR_not_root].
      destruct (lookup (fs w) (EXTENSION_DIR E)) as [[?|?]|];
        [discriminate | now injection Halter as <- | discriminate].
    - unfold ret in Hrm. injection Hrm as <-.
      split; [now apply exists_false_iff | now repeat split]. }
  destruct Hgone as (Hnone & Ht & Htr & Hp).
  unfold on_fs in Hmk.
  destruct (mkdir_parents true (EXTENSION_DIR E) (fs wb)) as [n'|e] eqn:Hrun;
    [|discriminate].
  injection Hmk as <-. cbn [fs tmpfiles trace pgreps].
  split; [|now repeat split].
  eapply mkdir_parents_creates; eassumption.
Qed.

(** Entries with distinct names, written into a directory that has none
    of them, are listed after the others in their order. *)
Lemma write_entries_distinct (new : list (string * node)) : forall es0,
  NoDup (names (es0 ++ new)) -> write_entries es0 new = es0 ++ new.
Proof.
  unfold write_entries.
  induction new as [|[x c] new IH]; intros es0 Hnodup; cbn [fold_left fst snd].
  - now rewrite app_nil_r.
  - assert (Hx : assoc x es0 = None).
    { apply assoc_none_not_in. rewrite names_app in Hnodup.
      intros Hin. apply (NoDup_remove_2 _ _ _ Hnodup). apply in_or_app. now left. }
    rewrite (set_entry_absent _ c _ Hx), IH; rewrite <- app_assoc; [reflexivity|].
    exact Hnodup.
Qed.

(** When the download succeeds and the archive unpacks without failure
    into entries of distinct names, lines 113-126 end with exactly those
    entries in the extension directory. *)
Lemma unpack_writes_archive (E : environment) (url body : string) (w w0 : world)
  (written : list (string * node)) :
  clean_previous_install E w = (Ok tt, w0) ->
  assoc (tmp_name E) (tmpfiles w) = None ->
  http_get E url = Ok body ->
  unzip E body = (written, None) ->
  NoDup (names written) ->
  exists w1,
    unpack E url w = (Ok tt, w1)
    /\ lookup (fs w1) (EXTENSION_DIR E) = Some (Dir written).
Proof.
  intros Hclean Hfree Hget Hzip Hnodup.
  destruct (clean_previous_install_empties E w Hclean) as (Hempty & Htmp & _ & _).
  rewrite <- Htmp in Hfree.
  unfold unpack. unfold bind at 1. rewrite Hclean.
  unfold download_and_unpack. unfold bind at 1. unfold NamedTemporaryFile.
  rewrite Hfree. unfold try_finally. unfold bind at 1. unfold urlretrieve.
  rewrite Hget. cbn [set_tmpfiles].
  unfold extractall. cbn [tmpfiles]. rewrite assoc_set_entry_same, Hzip.
  unfold bind at 1. unfold on_fs at 1. cbn [fs].
  match goal with |- context [alter ?f (EXTENSION_DIR E) (fs w0)] =>
    pose proof (alter_existing f (fs w0) (EXTENSION_DIR_not_root E) Hempty) as Hok;
    cbv beta iota in Hok; destruct Hok as [n1 Hn1];
    pose proof Hn1 as Hsame;
    apply alter_lookup_same in Hsame; [|apply EXTENSION_DIR_not_root];
    rewrite Hempty in Hsame; cbv beta iota in Hsame;
    rewrite Hn1
  end.
  unfold ret, os_unlink. cbn [tmpfiles]. rewrite assoc_set_entry_same.
  eexists. split; [reflexivity|]. cbn [fs set_tmpfiles fst snd].
  injection Hsame as Hsame. rewrite <- Hsame.
  now rewrite (write_entries_distinct written []).
Qed.

(** End to end: an archive that unpacks into one directory holding the
    payload, manifest at its root, under a name that none of its
    children has, is installed with the payload directly in the
    extension directory. *)
Lemma install_from_wrapped_archive (E : environment) (url body : string)
  (w w0 : world) (d : string) (sub : list (string * node)) :
  clean_previous_install E w = (Ok tt, w0) ->
  assoc (tmp_name E) (tmpfiles w) = None ->
  http_get E url = Ok body ->
  unzip E body = ([(d, Dir sub)], None) ->
  assoc "manifest.json" sub <> None ->
  NoDup (names sub) ->
  ~ In d (names sub) ->
  lookup (fs (snd (download_and_extract E url w))) (EXTENSION_DIR E) = Some (Dir sub)
  /\ exists_ (fs (snd (download_and_extract E url w))) (manifest_path E) = true.
Proof.
  intros Hclean Hfree Hget Hzip Hman Hnodup Hd.
  destruct (unpack_writes_archive E url w Hclean Hfree Hget Hzip) as (w1 & Hrun & Hext).
  { cbn. constructor; [intros [] | constructor]. }
  split.
  - rewrite download_and_extract_after_unpack. unfold bind at 1. rewrite Hrun.
    unfold normalize_and_load, bind.
    rewrite (flatten_moves_wrapped_payload E w1 Hext Hman Hnodup Hd).
    rewrite load_manifest_state. cbn [fs].
    apply (lookup_graft_same _ _ _ Hext).
  - apply (install_ends_with_manifest_at_root E url w Hrun Hext).
    right. now exists d, sub.
Qed.

(* ================================================================== *)
(** * The program on the sample machines *)
(* ================================================================== *)

Local Open Scope string_scope.
Import Sample.

(** C1.  An archive that wraps its payload in the directory [w], where
    the payload has a child called [w] listed before the manifest: the
    first [shutil.move] finds its destination occupied by the wrapper
    itself and raises; nothing has been moved, the wrapper is still the
    only entry of the extension directory, and no manifest is at its
    root.  The layout is the wrapped one: a single directory with a
    manifest at its own root. *)
Theorem flatten_name_clash_raises :
  let E := mac clash_archive in
  let run := download_and_extract E url (boot fresh_disk) in
  fst (unpack E url (boot fresh_disk)) = Ok tt
  /\ lookup (fs (snd (unpack E url (boot fresh_disk)))) (EXTENSION_DIR E)
     = Some (Dir [("w", Dir [("w", File 420 "x"); ("manifest.json", File 420 "{}")])])
  /\ fst run
     = Raise (ShutilError
                "Destination path '/Users/ann/.ublock-chrome/extension/w/w' already exists")
  /\ lookup (fs (snd run)) (EXTENSION_DIR E)
     = Some (Dir [("w", Dir [("w", File 420 "x"); ("manifest.json", File 420 "{}")])])
  /\ exists_ (fs (snd run)) (manifest_path E) = false.
Proof. vm_compute. repeat split. Qed.

(** C2 on the sample release: the second of three assets is the first
    that qualifies. *)
Lemma fetch_latest_release_url_first_match_witness :
  api_latest (mac []) = Ok latest
  /\ exists pre a post,
       get (assets latest) [] = (pre ++ a :: post)%list
       /\ Forall (fun b => ~ chromium_zip_name (name b)) pre
       /\ chromium_zip_name (name a)
       /\ fetch_latest_release_url (mac []) (boot fresh_disk)
          = (Ok (browser_download_url a, "1.60.0"), boot fresh_disk).
Proof.
  split; [reflexivity|].
  apply (@fetch_latest_release_url_first_match (mac []) latest (boot fresh_disk) eq_refl).
  apply Exists_cons_tl, Exists_cons_hd.
  apply is_chromium_zip_spec. reflexivity.
Defined.

(** C3 fails as stated: an archive without a manifest makes the installer
    raise the missing-manifest error, and the extension directory is left
    in existence, empty of any manifest. *)
Lemma manifest_invariant_counterexample :
  let E := mac deep_archive in
  let run := download_and_extract E url (boot fresh_disk) in
  fst run = Raise (RuntimeError (missing_manifest_message E))
  /\ is_dir (fs (snd run)) (EXTENSION_DIR E) = true
  /\ exists_ (fs (snd run)) (manifest_path E) = false.
Proof. vm_compute. repeat split. Qed.

Lemma installed_manifest_is_valid_witness :
  let E := mac wrapped_archive in
  let run := download_and_extract E url (boot installed_disk) in
  run = (Ok (JObject []), snd run)
  /\ is_dir (fs (snd run)) (EXTENSION_DIR E) = true
  /\ exists mode data,
       lookup (fs (snd run)) (manifest_path E) = Some (File mode data)
       /\ json_loads E data = Some (JObject []).
Proof.
  intros E run.
  assert (Hrun : run = (Ok (JObject []), snd run)) by (vm_compute; reflexivity).
  split; [exact Hrun|].
  exact (installed_manifest_is_valid E url (boot installed_disk) Hrun).
Defined.


(** C7 on a machine with an earlier copy of the bundle in place. *)
Lemma launcher_copy_identical_witness :
  let E := mac [] in
  let built := create_launcher_app E (boot installed_disk) in
  let installed := install_app_to_applications E (private_bundle E) (snd built) in
  built = (Ok (private_bundle E), snd built)
  /\ installed = (Ok (launcher_in_applications E), snd installed)
  /\ exists bundle,
       lookup (fs (snd installed)) (private_bundle E) = Some (Dir bundle)
       /\ lookup (fs (snd installed)) (launcher_in_applications E) = Some (Dir bundle).
Proof.
  intros E built installed.
  assert (Hbuilt : built = (Ok (private_bundle E), snd built))
    by (vm_compute; reflexivity).
  assert (Hinstalled : installed = (Ok (launcher_in_applications E), snd installed))
    by (vm_compute; reflexivity).
  split; [exact Hbuilt | split; [exact Hinstalled|]].
  exact (proj1 (proj2 (proj2
           (launcher_copy_identical E (boot installed_disk) Hbuilt Hinstalled)))).
Defined.



(** C9 fails as stated: a regular file in the place of the private
    installation directory makes [rmtree] raise, and the file stays; and
    on another platform the command exits with status 1. *)
Lemma uninstall_counterexample :
  (let E := mac [] in
   let run := cmd_uninstall E (boot blocked_disk) in
   fst run = Raise NotADirectoryError
   /\ exists_ (fs (snd run)) (INSTALL_DIR E) = true)
  /\
  (let E := machine "linux" [] never_running in
   fst (cmd_uninstall E (boot fresh_disk)) = Raise (SystemExit 1)).
Proof. vm_compute. repeat split. Qed.

Lemma uninstall_succeeds_witness :
  let E := mac [] in
  platform E = "darwin"
  /\ absent_or_dir (fs (boot installed_disk)) (INSTALL_DIR E)
  /\ absent_or_dir (fs (boot fresh_disk)) (launcher_in_applications E)
  /\ (exists w', cmd_uninstall E (boot installed_disk) = (Ok tt, w')
                 /\ lookup (fs w') (INSTALL_DIR E) = None)
  /\ (exists w', cmd_uninstall E (boot fresh_disk) = (Ok tt, w')
                 /\ lookup (fs w') (INSTALL_DIR E) = None).
Proof.
  intros E.
  assert (H1 : absent_or_dir (fs (boot installed_disk)) (INSTALL_DIR E)).
  { right. eexists. vm_compute. reflexivity. }
  assert (H2 : absent_or_dir (fs (boot installed_disk)) (launcher_in_applications E)).
  { right. eexists. vm_compute. reflexivity. }
  assert (H3 : absent_or_dir (fs (boot fresh_disk)) (INSTALL_DIR E)).
  { left. reflexivity. }
  assert (H4 : absent_or_dir (fs (boot fresh_disk)) (launcher_in_applications E)).
  { left. reflexivity. }
  split; [reflexivity | split; [exact H1 | split; [exact H4 | split]]].
  - destruct (@uninstall_succeeds E (boot installed_disk) eq_refl H1 H2)
      as (w' & Hrun & Hgone & _).
    now exists w'.
  - destruct (@uninstall_succeeds E (boot fresh_disk) eq_refl H3 H4)
      as (w' & Hrun & Hgone & _).
    now exists w'.
Defined.

(** C10 fails as stated, in two ways, both because the checks are checks
    of existence.  When the single directory is itself called
    manifest.json, the manifest check finds its path occupied, and the
    installer raises another error when it opens the directory.  When
    the single directory holds no manifest file but a directory called
    manifest.json, the normalization step does move that directory up,
    and the installer again raises the other error. *)
Lemma wrapper_named_manifest_counterexample :
  let E := mac manifest_named_archive in
  let w1 := snd (unpack E url (boot fresh_disk)) in
  let F := mac Faults.manifest_directory_archive in
  let v1 := snd (unpack F url (boot fresh_disk)) in
  (unpack E url (boot fresh_disk) = (Ok tt, w1)
   /\ lookup (fs w1) (EXTENSION_DIR E)
      = Some (Dir [("manifest.json", Dir wrapped_archive)])
   /\ assoc "manifest.json" wrapped_archive = None
   /\ flatten_single_subdir E w1 = (Ok tt, w1)
   /\ download_and_extract E url (boot fresh_disk) = (Raise IsADirectoryError, w1))
  /\
  (unpack F url (boot fresh_disk) = (Ok tt, v1)
   /\ lookup (fs v1) (EXTENSION_DIR F)
      = Some (Dir [("uBlock0.chromium", Dir [("manifest.json", Dir flat_archive)])])
   /\ (exists v2,
         flatten_single_subdir F v1 = (Ok tt, v2)
         /\ lookup (fs v2) (EXTENSION_DIR F)
            = Some (Dir [("manifest.json", Dir flat_archive)])
         /\ download_and_extract F url (boot fresh_disk) = (Raise IsADirectoryError, v2))).
Proof.
  split.
  - vm_compute. repeat split.
  - split; [vm_compute; reflexivity | split; [vm_compute; reflexivity|]].
    eexists. split; [vm_compute; reflexivity | split; vm_compute; reflexivity].
Qed.

Lemma wrapper_without_manifest_fails_witness :
  let E := mac deep_archive in
  let w1 := snd (unpack E url (boot fresh_disk)) in
  unpack E url (boot fresh_disk) = (Ok tt, w1)
  /\ lookup (fs w1) (EXTENSION_DIR E) = Some (Dir [("release", Dir wrapped_archive)])
  /\ assoc "manifest.json" wrapped_archive = None
  /\ "release" <> "manifest.json"
  /\ flatten_single_subdir E w1 = (Ok tt, w1)
  /\ download_and_extract E url (boot fresh_disk)
     = (Raise (RuntimeError (missing_manifest_message E)), w1).
Proof.
  intros E w1.
  assert (Hrun : unpack E url (boot fresh_disk) = (Ok tt, w1))
    by (vm_compute; reflexivity).
  assert (Hext : lookup (fs w1) (EXTENSION_DIR E)
                 = Some (Dir [("release", Dir wrapped_archive)]))
    by (vm_compute; reflexivity).
  assert (Hsub : assoc "manifest.json" wrapped_archive = None) by reflexivity.
  assert (Hname : "release" <> "manifest.json") by discriminate.
  split; [exact Hrun | split; [exact Hext | split; [exact Hsub | split; [exact Hname|]]]].
  destruct (wrapper_without_manifest_fails E url (boot fresh_disk) Hrun Hext Hsub Hname)
    as (Hflat & Hfail & _).
  split; [exact Hflat | exact Hfail].
Defined.

(* ================================================================== *)
(** * More on changing the tree *)
(* ================================================================== *)

Local Open Scope list_scope.

(** Making directories along a path below [h] is making them inside the
    subtree at [h]. *)
Lemma mkdir_parents_focus (exist_ok : bool) (h p : path) : forall n c,
  lookup n h = Some c ->
  mkdir_parents exist_ok (h ++ p) n
  = match mkdir_parents exist_ok p c with
    | Ok c' => Ok (graft h c' n)
    | Raise e => Raise e
    end.
Proof.
  induction h as [|x h IH]; intros n c Hlook.
  - simpl in Hlook. injection Hlook as ->. simpl.
    now destruct (mkdir_parents exist_ok p c).
  - destruct n as [m d|es]; [discriminate|].
    rewrite lookup_cons in Hlook.
    destruct (assoc x es) as [c0|] eqn:Hx; [|discriminate].
    rewrite <- app_comm_cons, mkdir_parents_cons, Hx, (IH c0 c Hlook).
    destruct (mkdir_parents exist_ok p c) as [c'|e]; [|reflexivity].
    now rewrite graft_cons, Hx.
Qed.

(** Grafting at [h] is not seen from a path that diverges from [h]. *)
Lemma lookup_graft_diverge (h q : path) (c : node) : forall n,
  diverge h q -> lookup (graft h c n) q = lookup n q.
Proof.
  intros n (t & a & b & r & s & -> & -> & Hab). revert n.
  induction t as [|x t IH]; intros n.
  - simpl app. destruct n as [m d|es]; [reflexivity|].
    rewrite graft_cons. destruct (assoc a es) as [c0|]; [|reflexivity].
    rewrite !lookup_cons. now rewrite assoc_set_entry_other.
  - rewrite <- !app_comm_cons. destruct n as [m d|es]; [reflexivity|].
    rewrite graft_cons. destruct (assoc x es) as [c0|] eqn:Hx; [|reflexivity].
    rewrite !lookup_cons, assoc_set_entry_same, Hx. apply IH.
Qed.

Lemma lookup_fresh_dirs_app (p q : path) :
  lookup (fresh_dirs (p ++ q)) p = Some (fresh_dirs q).
Proof.
  induction p as [|x p IH]; [reflexivity|].
  rewrite <- app_comm_cons. cbn [fresh_dirs]. rewrite lookup_cons. cbn [assoc].
  now rewrite String.eqb_refl.
Qed.

(** [mkdir(parents=True)] of a path below a place [p] where nothing
    exists leaves at [p] just the chain of new directories. *)
Lemma mkdir_parents_fresh_chain (exist_ok : bool) (p q : path) : forall n n',
  lookup n p = None ->
  mkdir_parents exist_ok (p ++ q) n = Ok n' ->
  lookup n' p = Some (fresh_dirs q).
Proof.
  induction p as [|x p IH]; intros n n' Hnone Hrun; [discriminate|].
  destruct n as [m d|es]; [discriminate|].
  rewrite lookup_cons in Hnone.
  rewrite <- app_comm_cons, mkdir_parents_cons in Hrun.
  destruct (assoc x es) as [c|] eqn:Hx.
  - destruct (mkdir_parents exist_ok (p ++ q) c) as [c'|e] eqn:Hrec; [|discriminate].
    injection Hrun as <-. rewrite lookup_cons, assoc_set_entry_same.
    now apply (IH c).
  - injection Hrun as <-. rewrite lookup_cons, assoc_set_entry_same.
    apply lookup_fresh_dirs_app.
Qed.

Lemma mkdir_parents_clear (p : path) : forall n,
  clear_path p n = true -> exists n', mkdir_parents true p n = Ok n'.
Proof.
  induction p as [|x p IH]; intros n Hclear.
  - destruct n as [m d|es]; [discriminate|]. now exists (Dir es).
  - destruct n as [m d|es]; [discriminate|].
    rewrite mkdir_parents_cons. cbn [clear_path] in Hclear.
    destruct (assoc x es) as [c|]; [|eexists; reflexivity].
    destruct (IH c Hclear) as [c' ->]. eexists; reflexivity.
Qed.

Lemma clear_path_lookup_dir (p : path) : forall n c,
  clear_path p n = true -> lookup n p = Some c -> exists es, c = Dir es.
Proof.
  induction p as [|x p IH]; intros n c Hclear Hlook.
  - simpl in Hlook. injection Hlook as <-.
    destruct n as [m d|es]; [discriminate|]. now exists es.
  - destruct n as [m d|es]; [discriminate|].
    rewrite lookup_cons in Hlook. cbn [clear_path] in Hclear.
    destruct (assoc x es) as [c0|]; [|discriminate].
    now apply (IH c0).
Qed.

(** Taking the entry at [p] away keeps the path clear. *)
Lemma alter_gone_clear (f : option node -> result (option node)) (p : path) :
  forall n n',
    alter f p n = Ok n' -> clear_path p n = true -> lookup n' p = None ->
    clear_path p n' = true.
Proof.
  induction p as [|x q IH]; intros n n' Hrun Hclear Hgone; [discriminate|].
  destruct n as [m d|es]; [discriminate|].
  destruct q as [|y q].
  - rewrite alter_last in Hrun.
    destruct (f (assoc x es)) as [[c|]|e]; [| |discriminate];
      injection Hrun as <-; rewrite lookup_cons in Hgone; cbn [clear_path].
    + now rewrite assoc_set_entry_same in *.
    + now rewrite assoc_remove_entry_same.
  - rewrite alter_deeper in Hrun. cbn [clear_path] in Hclear.
    destruct (assoc x es) as [c0|] eqn:Hx; [|discriminate].
    destruct (alter f (y :: q) c0) as [c'|e] eqn:Hrec; [|discriminate].
    injection Hrun as <-. rewrite lookup_cons, assoc_set_entry_same in Hgone.
    change (clear_path (x :: y :: q) (Dir (set_entry x c' es)))
      with (match assoc x (set_entry x c' es) with
            | Some c => clear_path (y :: q) c
            | None => true
            end).
    rewrite assoc_set_entry_same. now apply (IH c0).
Qed.

(** Lines 113-116 succeed whenever no regular file stands at the
    extension directory or above it. *)
Lemma clean_previous_install_succeeds (E : environment) (w : world) :
  clear_path (EXTENSION_DIR E) (fs w) = true ->
  exists w0, clean_previous_install E w = (Ok tt, w0).
Proof.
  intros Hclear. unfold clean_previous_install.
  unfold bind at 1. unfold path_exists, read_fs, exists_.
  destruct (lookup (fs w) (EXTENSION_DIR E)) as [c|] eqn:Hlook; cbn [when].
  - destruct (clear_path_lookup_dir _ _ Hclear Hlook) as [es ->].
    unfold bind at 1. unfold on_fs at 1.
    pose proof (alter_existing
                  (fun o => match o with
                            | None => Raise FileNotFoundError
                            | Some (File _ _) => Raise NotADirectoryError
                            | Some (Dir _) => Ok None
                            end) (fs w) (EXTENSION_DIR_not_root E) Hlook) as [n1 Hrm].
    fold rmtree in Hrm. rewrite Hrm.
    assert (Hgone : lookup n1 (EXTENSION_DIR E) = None).
    { pose proof Hrm as Hsame. unfold rmtree in Hsame.
      apply alter_lookup_same in Hsame; [|apply EXTENSION_DIR_not_root].
      rewrite Hlook in Hsame. now injection Hsame as <-. }
    unfold rmtree in Hrm.
    pose proof (alter_gone_clear _ _ _ Hrm Hclear Hgone) as Hclear1.
    destruct (mkdir_parents_clear _ _ Hclear1) as [n2 Hmk].
    unfold on_fs. cbn [fs]. rewrite Hmk. eexists; reflexivity.
  - unfold bind at 1. unfold ret at 1.
    destruct (mkdir_parents_clear _ _ Hclear) as [n2 Hmk].
    unfold on_fs. rewrite Hmk. eexists; reflexivity.
Qed.

(** Lines 113-116 change nothing at paths that diverge from the
    extension directory. *)
Lemma clean_previous_install_frame (E : environment) (w w0 : world) (q : path) :
  clean_previous_install E w = (Ok tt, w0) ->
  diverge (EXTENSION_DIR E) q ->
  lookup (fs w0) q = lookup (fs w) q.
Proof.
  unfold clean_previous_install. intros Hrun Hdiv.
  apply bind_ok in Hrun as (ex & wa & Hex & Hrun).
  apply bind_ok in Hrun as ([] & wb & Hrm & Hmk).
  unfold path_exists, read_fs in Hex. injection Hex as <- <-.
  assert (Hb : lookup (fs wb) q = lookup (fs w) q).
  { destruct (exists_ (fs w) (EXTENSION_DIR E)); cbn [when] in Hrm.
    - unfold on_fs in Hrm.
      destruct (rmtree (EXTENSION_DIR E) (fs w)) as [n'|e] eqn:Halter; [|discriminate].
      injection Hrm as <-. cbn [fs]. unfold rmtree in Halter.
      eapply alter_lookup_diverge; eassumption.
    - unfold ret in Hrm. now injection Hrm as <-. }
  unfold on_fs in Hmk.
  destruct (mkdir_parents true (EXTENSION_DIR E) (fs wb)) as [n'|e] eqn:Hrun;
    [|discriminate].
  injection Hmk as <-. cbn [fs]. rewrite <- Hb.
  eapply mkdir_parents_lookup_diverge; eassumption.
Qed.

(** Replacing what exists at [p] is grafting the new node there. *)
Lemma alter_replace (f : option node -> result (option node)) (p : path) :
  forall n c c',
    p <> [] -> lookup n p = Some c -> f (Some c) = Ok (Some c') ->
    alter f p n = Ok (graft p c' n).
Proof.
  induction p as [|x q IH]; intros n c c' Hp Hlook Hf; [contradiction|].
  destruct n as [m d|es]; [discriminate|].
  rewrite lookup_cons in Hlook.
  destruct (assoc x es) as [c0|] eqn:Hx; [|discriminate].
  rewrite graft_cons, Hx.
  destruct q as [|y q].
  - simpl in Hlook. injection Hlook as ->. now rewrite alter_last, Hx, Hf.
  - rewrite alter_deeper, Hx.
    now rewrite (IH c0 c c' ltac:(discriminate) Hlook Hf).
Qed.

(* ================================================================== *)
(** * Outcomes of the installer *)
(* ================================================================== *)

Lemma with_disk_same (w : world) : with_disk w (fs w) = w.
Proof. now destruct w. Qed.

(** Lines 118-126 from a state with an empty extension directory and the
    temporary name free: the outcome is that of the download and of the
    unpacking, the directory holds what was unpacked, and nothing else
    has changed. *)
Lemma download_and_unpack_outcome (E : environment) (url : string) (w0 : world) :
  assoc (tmp_name E) (tmpfiles w0) = None ->
  lookup (fs w0) (EXTENSION_DIR E) = Some (Dir []) ->
  download_and_unpack E url w0
  = match http_get E url with
    | Raise e => (Raise e, w0)
    | Ok body =>
        (match snd (unzip E body) with Some e => Raise e | None => Ok tt end,
         with_disk w0 (graft (EXTENSION_DIR E)
                             (Dir (write_entries [] (fst (unzip E body)))) (fs w0)))
    end.
Proof.
  intros Hfree Hempty.
  assert (Hnew : assoc (tmp_name E) (tmpfiles w0 ++ [(tmp_name E, EmptyString)])
                 = Some EmptyString).
  { rewrite assoc_app_absent by exact Hfree. cbn [assoc]. now rewrite String.eqb_refl. }
  assert (Hback : forall data,
             remove_entry (tmp_name E)
               (set_entry (tmp_name E) data (tmpfiles w0 ++ [(tmp_name E, EmptyString)]))
             = tmpfiles w0).
  { intros data. rewrite remove_set_entry, remove_entry_app,
      (remove_entry_absent _ _ Hfree). cbn [remove_entry].
    rewrite String.eqb_refl. apply app_nil_r. }
  assert (Hgone : remove_entry (tmp_name E) (tmpfiles w0 ++ [(tmp_name E, EmptyString)])
                  = tmpfiles w0).
  { rewrite remove_entry_app, (remove_entry_absent _ _ Hfree). cbn [remove_entry].
    rewrite String.eqb_refl. apply app_nil_r. }
  unfold download_and_unpack. unfold bind at 1. unfold NamedTemporaryFile.
  rewrite Hfree. unfold try_finally. unfold bind at 1. unfold urlretrieve.
  destruct (http_get E url) as [body|e].
  - cbn [set_tmpfiles]. unfold extractall. cbn [tmpfiles].
    rewrite assoc_set_entry_same.
    destruct (unzip E body) as [written failure]. cbn [fst snd].
    unfold bind at 1. unfold on_fs at 1. cbn [fs].
    erewrite alter_replace;
      [| apply EXTENSION_DIR_not_root | exact Hempty | reflexivity].
    unfold os_unlink.
    destruct failure as [e|]; unfold raise, ret; cbn [tmpfiles];
      rewrite assoc_set_entry_same; cbn [set_tmpfiles fs tmpfiles trace pgreps];
      rewrite Hback; reflexivity.
  - unfold os_unlink. cbn [tmpfiles]. rewrite Hnew. cbn [set_tmpfiles fs trace pgreps].
    rewrite Hgone. now destruct w0.
Qed.

(** Lines 113-126 from a state in which no regular file stands in the way
    of the extension directory and the temporary name is free. *)
Lemma unpack_outcome (E : environment) (url : string) (w : world) :
  clear_path (EXTENSION_DIR E) (fs w) = true ->
  assoc (tmp_name E) (tmpfiles w) = None ->
  exists w0,
    lookup (fs w0) (EXTENSION_DIR E) = Some (Dir [])
    /\ tmpfiles w0 = tmpfiles w /\ trace w0 = trace w /\ pgreps w0 = pgreps w
    /\ (forall q, diverge (EXTENSION_DIR E) q -> lookup (fs w0) q = lookup (fs w) q)
    /\ unpack E url w
       = match http_get E url with
         | Raise e => (Raise e, w0)
         | Ok body =>
             (match snd (unzip E body) with Some e => Raise e | None => Ok tt end,
              with_disk w0 (graft (EXTENSION_DIR E)
                                  (Dir (write_entries [] (fst (unzip E body)))) (fs w0)))
         end.
Proof.
  intros Hclear Hfree.
  destruct (clean_previous_install_succeeds E w Hclear) as [w0 Hclean].
  destruct (clean_previous_install_empties E w Hclean) as (Hempty & Htmp & Htr & Hpg).
  exists w0. repeat (split; [assumption|]). split.
  - intros q Hq. eapply clean_previous_install_frame; eassumption.
  - unfold unpack. unfold bind at 1. rewrite Hclean.
    apply download_and_unpack_outcome; [now rewrite Htmp | exact Hempty].
Qed.

(** X2.  A download or an unpacking that fails takes the previous
    installation with it: whatever the extension directory held before,
    [download_and_extract] raises the failure and leaves the directory
    with nothing in it (failed download) or with just the entries written
    before the failure (failed unpacking); the temporary files are as
    before. *)
Theorem failed_transfer_destroys_previous_install
  (E : environment) (url : string) (w : world) :
  clear_path (EXTENSION_DIR E) (fs w) = true ->
  assoc (tmp_name E) (tmpfiles w) = None ->
  (forall e,
     http_get E url = Raise e ->
     exists w',
       download_and_extract E url w = (Raise e, w')
       /\ lookup (fs w') (EXTENSION_DIR E) = Some (Dir [])
       /\ tmpfiles w' = tmpfiles w)
  /\
  (forall body written e,
     http_get E url = Ok body ->
     unzip E body = (written, Some e) ->
     exists w',
       download_and_extract E url w = (Raise e, w')
       /\ lookup (fs w') (EXTENSION_DIR E) = Some (Dir (write_entries [] written))
       /\ tmpfiles w' = tmpfiles w).
Proof.
  intros Hclear Hfree.
  destruct (unpack_outcome E url w Hclear Hfree)
    as (w0 & Hempty & Htmp & _ & _ & _ & Hrun).
  split.
  - intros e Hget. rewrite Hget in Hrun. exists w0.
    rewrite download_and_extract_after_unpack. unfold bind. rewrite Hrun.
    now repeat split.
  - intros body written e Hget Hzip. rewrite Hget, Hzip in Hrun. cbn [fst snd] in Hrun.
    eexists. rewrite download_and_extract_after_unpack. unfold bind. rewrite Hrun.
    split; [reflexivity|]. cbn [with_disk fs tmpfiles]. split; [|exact Htmp].
    apply (lookup_graft_same _ _ _ Hempty).
Qed.

(** X3.  An archive with the payload at its top: when nothing is in the
    way, the download succeeds, the archive unpacks without failure into
    entries of distinct names that need no flattening, and the manifest
    is a regular file that decodes, [download_and_extract] returns the
    decoded manifest; the extension directory then holds exactly the
    entries of the archive, whatever it held before, and the temporary
    files, the output and every path that diverges from the extension
    directory are as before. *)
Theorem install_flat_archive
  (E : environment) (url body : string) (w : world)
  (written : list (string * node)) (m : N) (data : string) (manifest : json) :
  clear_path (EXTENSION_DIR E) (fs w) = true ->
  assoc (tmp_name E) (tmpfiles w) = None ->
  http_get E url = Ok body ->
  unzip E body = (written, None) ->
  NoDup (names written) ->
  already_flat written ->
  assoc "manifest.json"%string written = Some (File m data) ->
  json_loads E data = Some manifest ->
  exists w',
    download_and_extract E url w = (Ok manifest, w')
    /\ lookup (fs w') (EXTENSION_DIR E) = Some (Dir written)
    /\ tmpfiles w' = tmpfiles w /\ trace w' = trace w
    /\ (forall q, diverge (EXTENSION_DIR E) q -> lookup (fs w') q = lookup (fs w) q).
Proof.
  intros Hclear Hfree Hget Hzip Hnodup Hflat Hman Hjson.
  destruct (unpack_outcome E url w Hclear Hfree)
    as (w0 & Hempty & Htmp & Htr & _ & Hframe & Hrun).
  rewrite Hget, Hzip in Hrun. cbn [fst snd] in Hrun.
  rewrite (write_entries_distinct written []) in Hrun by exact Hnodup.
  cbn [app] in Hrun.
  set (w1 := with_disk w0 (graft (EXTENSION_DIR E) (Dir written) (fs w0))) in *.
  assert (Hext : lookup (fs w1) (EXTENSION_DIR E) = Some (Dir written)).
  { apply (lookup_graft_same _ _ _ Hempty). }
  exists w1. split.
  - rewrite download_and_extract_after_unpack. unfold bind at 1. rewrite Hrun.
    unfold normalize_and_load, bind.
    rewrite (flatten_noop_on_flat E w1 Hext Hflat).
    pose proof (load_manifest_cases E w1) as Hload.
    unfold manifest_path in Hload at 1.
    rewrite lookup_snoc, Hext, Hman, Hjson in Hload. exact Hload.
  - split; [exact Hext|]. split; [exact Htmp|]. split; [exact Htr|].
    intros q Hq. subst w1. cbn [with_disk fs].
    rewrite (lookup_graft_diverge _ _ Hq). now apply Hframe.
Qed.

(** X4.  An archive that wraps the payload in one directory whose name
    none of its children has: under the same conditions the wrapper is
    flattened away, [download_and_extract] returns the decoded manifest,
    and the extension directory holds exactly the children of the
    wrapper, in their order, whatever it held before; the rest is as
    before. *)
Theorem install_wrapped_archive
  (E : environment) (url body : string) (w : world) (d : string)
  (sub : list (string * node)) (m : N) (data : string) (manifest : json) :
  clear_path (EXTENSION_DIR E) (fs w) = true ->
  assoc (tmp_name E) (tmpfiles w) = None ->
  http_get E url = Ok body ->
  unzip E body = ([(d, Dir sub)], None) ->
  NoDup (names sub) ->
  ~ In d (names sub) ->
  assoc "manifest.json"%string sub = Some (File m data) ->
  json_loads E data = Some manifest ->
  exists w',
    download_and_extract E url w = (Ok manifest, w')
    /\ lookup (fs w') (EXTENSION_DIR E) = Some (Dir sub)
    /\ tmpfiles w' = tmpfiles w /\ trace w' = trace w
    /\ (forall q, diverge (EXTENSION_DIR E) q -> lookup (fs w') q = lookup (fs w) q).
Proof.
  intros Hclear Hfree Hget Hzip Hnodup Hd Hman Hjson.
  destruct (unpack_outcome E url w Hclear Hfree)
    as (w0 & Hempty & Htmp & Htr & _ & Hframe & Hrun).
  rewrite Hget, Hzip in Hrun. cbn [fst snd] in Hrun.
  change (write_entries [] [(d, Dir sub)]) with [(d, Dir sub)] in Hrun.
  set (w1 := with_disk w0 (graft (EXTENSION_DIR E) (Dir [(d, Dir sub)]) (fs w0))) in *.
  assert (Hext : lookup (fs w1) (EXTENSION_DIR E) = Some (Dir [(d, Dir sub)])).
  { apply (lookup_graft_same _ _ _ Hempty). }
  assert (Hsome : assoc "manifest.json"%string sub <> None) by now rewrite Hman.
  pose proof (flatten_moves_wrapped_payload E w1 Hext Hsome Hnodup Hd) as Hflat.
  set (w2 := {| fs := graft (EXTENSION_DIR E) (Dir sub) (fs w1);
                tmpfiles := tmpfiles w1; trace := trace w1; pgreps := pgreps w1 |}) in *.
  assert (Hext2 : lookup (fs w2) (EXTENSION_DIR E) = Some (Dir sub)).
  { apply (lookup_graft_same _ _ _ Hext). }
  exists w2. split.
  - rewrite download_and_extract_after_unpack. unfold bind at 1. rewrite Hrun.
    unfold normalize_and_load, bind. rewrite Hflat.
    pose proof (load_manifest_cases E w2) as Hload.
    unfold manifest_path in Hload at 1.
    rewrite lookup_snoc, Hext2, Hman, Hjson in Hload. exact Hload.
  - split; [exact Hext2|]. split; [exact Htmp|]. split; [exact Htr|].
    intros q Hq. subst w2 w1. cbn [with_disk fs].
    rewrite !(lookup_graft_diverge _ _ Hq). now apply Hframe.
Qed.

(* ================================================================== *)
(** * The quit sequence, event by event *)
(* ================================================================== *)

Lemma observed_eq (w : world) (t : list event) (k : nat) (evs : list event) (c : nat) :
  t = trace w ++ evs -> k = pgreps w + c ->
  {| fs := fs w; tmpfiles := tmpfiles w; trace := t; pgreps := k |} = observed w evs c.
Proof. intros -> ->. reflexivity. Qed.

Lemma total_sleep_waiting_rounds (k : nat) : total_sleep (waiting_rounds k) = 500 * k.
Proof.
  induction k as [|k IH]; [reflexivity|].
  cbn [waiting_rounds total_sleep presence_check]. lia.
Qed.

Lemma total_sleep_app (a b : list event) :
  total_sleep (a ++ b) = total_sleep a + total_sleep b.
Proof.
  induction a as [|e a IH]; [reflexivity|].
  destruct e; cbn [app total_sleep]; lia.
Qed.

(** The loop stops at the first poll that reports the process gone. *)
Lemma wait_for_exit_gone (E : environment) (k : nat) : forall n w,
  k < n ->
  (forall j, j < k -> pgrep_rc E (pgreps w + j) = 0%Z) ->
  pgrep_rc E (pgreps w + k) <> 0%Z ->
  wait_for_exit E n w
  = (Ok false, observed w (waiting_rounds k ++ [presence_check]) (k + 1)).
Proof.
  induction k as [|k IH]; intros n w Hlt Hbefore Hgone;
    (destruct n as [|n]; [lia|]); cbn [wait_for_exit];
    unfold bind at 1; unfold pgrep at 1.
  - rewrite Nat.add_0_r in Hgone. apply Z.eqb_neq in Hgone. rewrite Hgone.
    cbn [negb]. unfold ret. f_equal. apply observed_eq; [reflexivity | lia].
  - pose proof (Hbefore 0 ltac:(lia)) as H0. rewrite Nat.add_0_r in H0.
    apply Z.eqb_eq in H0. rewrite H0. cbn [negb].
    unfold bind at 1. unfold sleep, emit. cbn [fs tmpfiles trace pgreps].
    rewrite (IH n); cbn [fs tmpfiles trace pgreps].
    + f_equal. unfold observed. cbn [fs tmpfiles trace pgreps waiting_rounds].
      f_equal; [|lia]. rewrite <- !app_assoc. reflexivity.
    + lia.
    + intros j Hj. replace (S (pgreps w) + j) with (pgreps w + S j) by lia.
      apply Hbefore. lia.
    + replace (S (pgreps w) + k) with (pgreps w + S k) by lia. exact Hgone.
Qed.

(** The loop runs to its end when every poll reports the process. *)
Lemma wait_for_exit_exhausted (E : environment) (n : nat) : forall w,
  (forall j, j < n -> pgrep_rc E (pgreps w + j) = 0%Z) ->
  wait_for_exit E n w = (Ok true, observed w (waiting_rounds n) n).
Proof.
  induction n as [|n IH]; intros w Hall; cbn [wait_for_exit].
  - unfold ret. f_equal. destruct w. unfold observed.
    cbn [fs tmpfiles trace pgreps waiting_rounds]. f_equal; [now rewrite app_nil_r | lia].
  - unfold bind at 1. unfold pgrep at 1.
    pose proof (Hall 0 ltac:(lia)) as H0. rewrite Nat.add_0_r in H0.
    apply Z.eqb_eq in H0. rewrite H0. cbn [negb].
    unfold bind at 1. unfold sleep, emit. cbn [fs tmpfiles trace pgreps].
    rewrite IH; cbn [fs tmpfiles trace pgreps].
    + f_equal. unfold observed. cbn [fs tmpfiles trace pgreps waiting_rounds].
      f_equal; [|lia]. rewrite <- !app_assoc. reflexivity.
    + intros j Hj. replace (S (pgreps w) + j) with (pgreps w + S j) by lia.
      apply Hall. lia.
Qed.

(** X5.  [quit_chrome_if_running], event by event.  If the first check
    reports no browser, that check is all that happens.  Otherwise the
    graceful quit is requested once, and the process is polled every half
    second: if poll number [k] (counted from 0, below 30) is the first to
    report it gone, the wait has lasted [k] half seconds and nothing is
    killed; if all thirty polls report it present, the wait has lasted
    fifteen seconds, the forced termination follows with one more second
    of sleep: sixteen seconds at most.  The file system is never
    touched. *)
Theorem quit_chrome_event_by_event (E : environment) (w : world) :
  (pgrep_rc E (pgreps w) <> 0%Z ->
   quit_chrome_if_running E w = (Ok tt, observed w [presence_check] 1))
  /\
  (forall k,
     k < 30 ->
     pgrep_rc E (pgreps w) = 0%Z ->
     (forall j, j < k -> pgrep_rc E (pgreps w + 1 + j) = 0%Z) ->
     pgrep_rc E (pgreps w + 1 + k) <> 0%Z ->
     let evs := [presence_check; Print "  Quitting Chrome..."; graceful_quit]
                ++ waiting_rounds k
                ++ [presence_check; Print "  Chrome stopped."] in
     quit_chrome_if_running E w = (Ok tt, observed w evs (k + 2))
     /\ total_sleep evs = 500 * k)
  /\
  ((forall j, j <= 30 -> pgrep_rc E (pgreps w + j) = 0%Z) ->
   let evs := [presence_check; Print "  Quitting Chrome..."; graceful_quit]
              ++ waiting_rounds 30
              ++ [forced_kill; Sleep 1000; Print "  Chrome stopped."] in
   quit_chrome_if_running E w = (Ok tt, observed w evs 31)
   /\ total_sleep evs = 500 * 30 + 1000).
Proof.
  split; [|split].
  - intros Hrc. rewrite (quit_chrome_skipped E w Hrc). f_equal.
    apply observed_eq; [reflexivity | lia].
  - intros k Hk Hrun Hbefore Hgone evs. split.
    + unfold quit_chrome_if_running.
      set (loop := wait_for_exit E 30).
      unfold bind at 1. unfold pgrep at 1.
      apply Z.eqb_eq in Hrun. rewrite Hrun. cbn [negb].
      unfold bind at 1. unfold print at 1, emit at 1. cbn [fs tmpfiles trace pgreps].
      unfold bind at 1. unfold subprocess_run at 1, emit at 1.
      cbn [fs tmpfiles trace pgreps].
      unfold bind at 1. subst loop.
      erewrite (@wait_for_exit_gone E k 30); cbn [fs tmpfiles trace pgreps].
      * cbn [when]. unfold bind, ret, print, emit. f_equal.
        unfold observed. cbn [fs tmpfiles trace pgreps]. subst evs.
        f_equal; [|lia]. rewrite <- !app_assoc. reflexivity.
      * exact Hk.
      * intros j Hj. replace (S (pgreps w) + j) with (pgreps w + 1 + j) by lia.
        now apply Hbefore.
      * replace (S (pgreps w) + k) with (pgreps w + 1 + k) by lia. exact Hgone.
    + subst evs. rewrite !total_sleep_app, total_sleep_waiting_rounds.
      cbn [total_sleep presence_check graceful_quit]. lia.
  - intros Hall evs. split.
    + unfold quit_chrome_if_running.
      set (loop := wait_for_exit E 30).
      unfold bind at 1. unfold pgrep at 1.
      pose proof (Hall 0 ltac:(lia)) as H0. rewrite Nat.add_0_r in H0.
      apply Z.eqb_eq in H0. rewrite H0. cbn [negb].
      unfold bind at 1. unfold print at 1, emit at 1. cbn [fs tmpfiles trace pgreps].
      unfold bind at 1. unfold subprocess_run at 1, emit at 1.
      cbn [fs tmpfiles trace pgreps].
      unfold bind at 1. subst loop.
      erewrite (@wait_for_exit_exhausted E 30); cbn [fs tmpfiles trace pgreps].
      * cbn [when]. unfold bind, subprocess_run, sleep, print, emit. f_equal.
        unfold observed. cbn [fs tmpfiles trace pgreps]. subst evs.
        f_equal; [|lia]. rewrite <- !app_assoc. reflexivity.
      * intros j Hj. replace (S (pgreps w) + j) with (pgreps w + S j) by lia.
        apply Hall. lia.
    + subst evs. rewrite !total_sleep_app, total_sleep_waiting_rounds.
      cbn [total_sleep presence_check graceful_quit forced_kill]. lia.
Qed.

(* ================================================================== *)
(** * Building the launcher bundle *)
(* ================================================================== *)

Lemma diverge_extend (p q t : path) : diverge p q -> diverge (p ++ t) q.
Proof.
  intros (h & a & b & r & s & -> & -> & Hab).
  exists h, a, b, (r ++ t), s. rewrite <- app_assoc. now repeat split.
Qed.

Lemma diverge_cons (x : string) (p q : path) : diverge p q -> diverge (x :: p) (x :: q).
Proof.
  intros (h & a & b & r & s & -> & -> & Hab).
  exists (x :: h), a, b, r, s. now repeat split.
Qed.

(** A path through a component that [q] does not have either diverges
    from [q] or passes through [q] before that component. *)
Lemma diverge_or_below (x : string) (q : path) : forall h r,
  ~ In x q -> diverge (h ++ x :: r) q \/ below q h.
Proof.
  induction q as [|a q IH]; intros h r Hx.
  - right. now exists h.
  - assert (Hxa : x <> a) by (intros ->; apply Hx; now left).
    assert (Hxq : ~ In x q) by (intros H; apply Hx; now right).
    destruct h as [|b h].
    + left. exists [], x, a, r, q. now repeat split.
    + destruct (string_dec a b) as [<- | Hab].
      * destruct (IH h r Hxq) as [Hdiv | [t ->]].
        -- left. rewrite <- app_comm_cons. now apply diverge_cons.
        -- right. now exists t.
      * left. exists [], b, a, (h ++ x :: r), q.
        repeat split. now apply not_eq_sym.
Qed.

(** A file system operation at a path below [h] that succeeds on the
    subtree at [h]. *)
Lemma on_fs_alter_below (f : option node -> result (option node)) (h p : path)
  (w w' : world) (c : node) :
  lookup (fs w) h = Some c ->
  p <> [] ->
  on_fs (alter f (h ++ p)) w = (Ok tt, w') ->
  exists c', alter f p c = Ok c' /\ w' = with_disk w (graft h c' (fs w)).
Proof.
  intros Hh Hp. unfold on_fs. erewrite alter_focus; [|exact Hh | exact Hp].
  destruct (alter f p c) as [c'|e]; [|discriminate].
  intros [= <-]. now exists c'.
Qed.

Lemma on_fs_mkdir_parents_below (exist_ok : bool) (h p : path)
  (w w' : world) (c : node) :
  lookup (fs w) h = Some c ->
  on_fs (mkdir_parents exist_ok (h ++ p)) w = (Ok tt, w') ->
  exists c', mkdir_parents exist_ok p c = Ok c' /\ w' = with_disk w (graft h c' (fs w)).
Proof.
  intros Hh. unfold on_fs. erewrite mkdir_parents_focus; [|exact Hh].
  destruct (mkdir_parents exist_ok p c) as [c'|e]; [|discriminate].
  intros [= <-]. now exists c'.
Qed.

Lemma step_alter_below (f : option node -> result (option node)) (h p : path)
  (w w' : world) (c : node) :
  lookup (fs w) h = Some c ->
  p <> [] ->
  on_fs (alter f (h ++ p)) w = (Ok tt, w') ->
  exists c',
    alter f p c = Ok c'
    /\ lookup (fs w') h = Some c'
    /\ (forall q, diverge h q -> lookup (fs w') q = lookup (fs w) q).
Proof.
  intros Hh Hp Hrun.
  destruct (on_fs_alter_below f h w Hh Hp Hrun) as (c' & Hc' & ->).
  exists c'. split; [exact Hc'|]. cbn [with_disk fs]. split.
  - apply (lookup_graft_same _ _ _ Hh).
  - intros q Hq. now apply lookup_graft_diverge.
Qed.

Lemma step_mkdir_parents_below (exist_ok : bool) (h p : path)
  (w w' : world) (c : node) :
  lookup (fs w) h = Some c ->
  on_fs (mkdir_parents exist_ok (h ++ p)) w = (Ok tt, w') ->
  exists c',
    mkdir_parents exist_ok p c = Ok c'
    /\ lookup (fs w') h = Some c'
    /\ (forall q, diverge h q -> lookup (fs w') q = lookup (fs w) q).
Proof.
  intros Hh Hrun.
  destruct (on_fs_mkdir_parents_below exist_ok h p w Hh Hrun) as (c' & Hc' & ->).
  exists c'. split; [exact Hc'|]. cbn [with_disk fs]. split.
  - apply (lookup_graft_same _ _ _ Hh).
  - intros q Hq. now apply lookup_graft_diverge.
Qed.

Lemma browser_icon_outside (E : environment) (n : node) (c : node) (m : N) (d : string) :
  lookup n (private_bundle E) = Some c ->
  lookup n browser_icon = Some (File m d) ->
  diverge (private_bundle E) browser_icon.
Proof.
  intros Happ Hicon.
  assert (Hnot : ~ In ".ublock-chrome"%string browser_icon).
  { cbv. intros H. repeat (destruct H as [H | H]; [discriminate|]). exact H. }
  destruct (@diverge_or_below ".ublock-chrome"%string browser_icon (home E) [APP_NAME] Hnot)
    as [Hdiv | [t Ht]].
  - unfold private_bundle, INSTALL_DIR. now rewrite <- app_assoc.
  - exfalso. unfold private_bundle, INSTALL_DIR in Happ.
    rewrite Ht, <- !app_assoc, lookup_app, Hicon in Happ.
    destruct t; simpl in Happ; discriminate.
Qed.

(** What a successful [create_launcher_app] leaves behind. *)
Lemma create_launcher_app_outcome (E : environment) (w w1 : world) (p : path) :
  create_launcher_app E w = (Ok p, w1) ->
  p = private_bundle E
  /\ lookup (fs w1) (private_bundle E)
  = Some (expected_bundle E (lookup (fs w1) browser_icon))
  /\ (forall q, diverge (private_bundle E) q -> lookup (fs w1) q = lookup (fs w) q).
Proof.
  unfold create_launcher_app. fold (private_bundle E).
  rewrite <- !(app_assoc (private_bundle E)). cbn [app].
  fold browser_icon.
  intros Hrun.
  apply bind_ok in Hrun as (ex & wa & Hex & Hrun).
  apply bind_ok in Hrun as ([] & wb & Hrm & Hrun).
  apply bind_ok in Hrun as ([] & w2 & Hmk1 & Hrun).
  apply bind_ok in Hrun as ([] & w3 & Hmk2 & Hrun).
  apply bind_ok in Hrun as ([] & w4 & Hwr1 & Hrun).
  apply bind_ok in Hrun as ([] & w5 & Hch & Hrun).
  apply bind_ok in Hrun as ([] & w6 & Hwr2 & Hrun).
  apply bind_ok in Hrun as (icon & w7 & Hicon & Hrun).
  apply bind_ok in Hrun as ([] & w8 & Hcp & Hrun).
  unfold ret in Hrun. injection Hrun as <- ->.
  split; [reflexivity|].
  unfold path_exists, read_fs in Hex, Hicon.
  injection Hex as <- <-. injection Hicon as <- <-.
  unfold expected_bundle.
  set (script := launcher_script (path_str (EXTENSION_DIR E))) in *.
  set (plist := info_plist) in *. set (mode := new_file_mode E) in *.
  clearbody script plist mode.
  set (app := private_bundle E) in *.
  assert (Happ_ne : app <> []) by apply path_snoc_not_root.
  (* the old bundle goes *)
  assert (Hb : lookup (fs wb) app = None
               /\ forall q, diverge app q -> lookup (fs wb) q = lookup (fs w) q).
  { destruct (exists_ (fs w) app) eqn:Hthere; cbn [when] in Hrm.
    - unfold on_fs in Hrm.
      destruct (rmtree app (fs w)) as [n'|e] eqn:Halter; [|discriminate].
      injection Hrm as <-. cbn [fs]. unfold rmtree in Halter. split.
      + apply alter_lookup_same in Halter; [|exact Happ_ne].
        destruct (lookup (fs w) app) as [[?|?]|];
          [discriminate | now injection Halter as <- | discriminate].
      + intros q Hq. eapply alter_lookup_diverge; eassumption.
    - unfold ret in Hrm. injection Hrm as <-.
      split; [now apply exists_false_iff | reflexivity]. }
  destruct Hb as [Hgone Hframeb].
  (* the first mkdir makes the chain *)
  assert (H2 : lookup (fs w2) app = Some (fresh_dirs ["Contents"; "MacOS"])
               /\ forall q, diverge app q -> lookup (fs w2) q = lookup (fs w) q).
  { unfold on_fs in Hmk1.
    destruct (mkdir_parents false (app ++ ["Contents"; "MacOS"]) (fs wb))
      as [n'|e] eqn:Hmk; [|discriminate].
    injection Hmk1 as <-. cbn [fs]. split.
    - eapply mkdir_parents_fresh_chain; eassumption.
    - intros q Hq. rewrite <- (Hframeb q Hq).
      eapply mkdir_parents_lookup_diverge; [|eassumption].
      now apply diverge_extend. }
  destruct H2 as [Happ2 Hframe2].
  eapply step_mkdir_parents_below in Hmk2; [|exact Happ2].
  destruct Hmk2 as (c3 & Hc3 & Happ3 & Hframe3).
  vm_compute in Hc3. injection Hc3 as <-.
  unfold write_text in Hwr1.
  eapply step_alter_below in Hwr1; [|exact Happ3 | discriminate].
  destruct Hwr1 as (c4 & Hc4 & Happ4 & Hframe4).
  vm_compute in Hc4. injection Hc4 as <-.
  unfold chmod in Hch.
  eapply step_alter_below in Hch; [|exact Happ4 | discriminate].
  destruct Hch as (c5 & Hc5 & Happ5 & Hframe5).
  vm_compute in Hc5. injection Hc5 as <-.
  unfold write_text in Hwr2.
  eapply step_alter_below in Hwr2; [|exact Happ5 | discriminate].
  destruct Hwr2 as (c6 & Hc6 & Happ6 & Hframe6).
  vm_compute in Hc6. injection Hc6 as <-.
  assert (Hframe : forall q, diverge app q -> lookup (fs w6) q = lookup (fs w) q).
  { intros q Hq.
    now rewrite (Hframe6 q Hq), (Hframe5 q Hq), (Hframe4 q Hq), (Hframe3 q Hq),
      (Hframe2 q Hq). }
  unfold exists_ in Hcp.
  destruct (lookup (fs w6) browser_icon) as [[m d|es]|] eqn:Hic; cbn [when] in Hcp.
  - unfold copy2 in Hcp at 1. 
    assert (Hout : diverge app browser_icon).
    { eapply browser_icon_outside; eassumption. }
    assert (Hcp' : on_fs (alter (fun o => match o with
                                   | Some (Dir _) => Raise IsADirectoryError
                                   | _ => Ok (Some (File m d))
                                   end) (app ++ ["Contents"; "Resources"; "AppIcon.icns"]))
                     w6 = (Ok tt, w1)).
    { unfold on_fs in *. unfold copy2 in Hcp. now rewrite Hic in Hcp. }
    eapply step_alter_below in Hcp'; [|exact Happ6 | discriminate].
    destruct Hcp' as (c7 & Hc7 & Happ7 & Hframe7).
    vm_compute in Hc7. injection Hc7 as <-.
    rewrite (Hframe7 _ Hout), Hic. split; [exact Happ7|].
    intros q Hq. now rewrite (Hframe7 q Hq), (Hframe q Hq).
  - unfold on_fs, copy2 in Hcp. rewrite Hic in Hcp. discriminate.
  - unfold ret in Hcp. injection Hcp as <-. rewrite Hic.
    split; [exact Happ6 | exact Hframe].
Qed.

(** X6.  When [create_launcher_app] returns, the bundle directory under
    the private installation directory is exactly the generated bundle,
    with nothing of an earlier bundle left in it: the launcher script
    with mode 0o755, the property list, and a Resources directory that
    holds a copy (data and mode) of the browser's icon exactly when a
    regular file is found at the icon's place.  Every path that diverges
    from the bundle is as before. *)
Theorem create_launcher_app_builds_bundle (E : environment) (w w1 : world) (p : path) :
  create_launcher_app E w = (Ok p, w1) ->
  p = private_bundle E
  /\ lookup (fs w1) (private_bundle E)
  = Some (expected_bundle E (lookup (fs w1) browser_icon))
  /\ (forall q, diverge (private_bundle E) q -> lookup (fs w1) q = lookup (fs w) q).
Proof. exact (@create_launcher_app_outcome E w w1 p). Qed.

(* ================================================================== *)
(** * Copying the bundle to the applications folder *)
(* ================================================================== *)

Lemma diverge_snoc_cases (p q : path) (a : string) :
  diverge (p ++ [a]) q -> diverge p q \/ exists b s, q = p ++ b :: s.
Proof.
  intros (h & a' & b & r & s & Hp & -> & Hab).
  induction r as [|z r' _] using rev_ind.
  - apply app_inj_tail in Hp as [-> _]. right. now exists b, s.
  - change (h ++ a' :: r' ++ [z]) with (h ++ (a' :: r') ++ [z]) in Hp.
    rewrite app_assoc in Hp. apply app_inj_tail in Hp as [-> _].
    left. now exists h, a', b, r', s.
Qed.

(** [mkdir(exist_ok=True)] is not seen from a path that diverges from the
    directory or lies strictly below it. *)
Lemma mkdir_lookup_elsewhere (p q : path) (n n' : node) :
  p <> [] ->
  mkdir true p n = Ok n' ->
  diverge p q \/ (exists b s, q = p ++ b :: s) ->
  lookup n' q = lookup n q.
Proof.
  intros Hp Hrun [Hdiv | (b & s & ->)]; unfold mkdir in Hrun.
  - eapply alter_lookup_diverge; eassumption.
  - apply alter_lookup_same in Hrun; [|exact Hp].
    rewrite !lookup_app.
    destruct (lookup n p) as [[m d|es]|]; [discriminate | |];
      injection Hrun as <-; reflexivity.
Qed.

Lemma applications_bundle_path (E : environment) :
  (home E ++ ["Applications"%string]) ++ [APP_NAME] = launcher_in_applications E.
Proof. unfold launcher_in_applications. now rewrite <- app_assoc. Qed.

(** What a successful [install_app_to_applications] leaves behind. *)
Lemma install_app_to_applications_outcome
  (E : environment) (src p : path) (w w' : world) :
  diverge (launcher_in_applications E) src ->
  install_app_to_applications E src w = (Ok p, w') ->
  p = launcher_in_applications E
  /\ (exists es, lookup (fs w) src = Some (Dir es)
                 /\ lookup (fs w') (launcher_in_applications E) = Some (Dir es))
  /\ (forall q, diverge (launcher_in_applications E) q ->
                lookup (fs w') q = lookup (fs w) q).
Proof.
  intros Hsrc Hrun. unfold install_app_to_applications in Hrun.
  rewrite applications_bundle_path in Hrun.
  set (dest := launcher_in_applications E) in *.
  apply bind_ok in Hrun as ([] & wa & Hmkdir & Hrun).
  apply bind_ok in Hrun as (ex & wa' & Hex & Hrun).
  apply bind_ok in Hrun as ([] & wb & Hrm & Hrun).
  apply bind_ok in Hrun as ([] & wc & Hcopy & Hret).
  unfold ret in Hret. injection Hret as <- ->.
  unfold path_exists, read_fs in Hex. injection Hex as <- <-.
  split; [reflexivity|].
  assert (Hfa : forall q, diverge dest q -> lookup (fs wa) q = lookup (fs w) q).
  { intros q Hq. unfold on_fs in Hmkdir.
    destruct (mkdir true (home E ++ ["Applications"%string]) (fs w)) as [n1|e] eqn:Hmk;
      [|discriminate].
    injection Hmkdir as <-. cbn [fs].
    eapply mkdir_lookup_elsewhere; [apply path_snoc_not_root | exact Hmk |].
    apply (@diverge_snoc_cases _ q APP_NAME).
    now rewrite applications_bundle_path. }
  assert (Hfb : forall q, diverge dest q -> lookup (fs wb) q = lookup (fs w) q).
  { intros q Hq. rewrite <- (Hfa q Hq).
    destruct (exists_ (fs wa) dest); cbn [when] in Hrm.
    - unfold on_fs in Hrm.
      destruct (rmtree dest (fs wa)) as [n'|e] eqn:Halter; [|discriminate].
      injection Hrm as <-. cbn [fs]. unfold rmtree in Halter.
      eapply alter_lookup_diverge; eassumption.
    - unfold ret in Hrm. now injection Hrm as <-. }
  unfold on_fs in Hcopy.
  destruct (copytree src dest (fs wb)) as [n2|e] eqn:Hcp; [|discriminate].
  injection Hcopy as <-. cbn [fs].
  pose proof Hcp as Htree.
  apply copytree_same_tree in Htree; [|exact Hsrc].
  destruct Htree as (es & Hbefore & _ & Hdst).
  split.
  - exists es. split; [|exact Hdst]. now rewrite <- (Hfb src Hsrc).
  - intros q Hq. rewrite <- (Hfb q Hq). unfold copytree in Hcp.
    rewrite Hbefore in Hcp.
    destruct (mkdir_parents false dest (fs wb)) as [n1|e] eqn:Hmk; [|discriminate].
    unfold put in Hcp.
    erewrite alter_lookup_diverge; [|eassumption..].
    eapply mkdir_parents_lookup_diverge; eassumption.
Qed.

(** X7.  When [install_app_to_applications] returns, for a source that
    diverges from the destination: the source is a directory, the
    destination under the applications folder holds the same tree, and
    every path that diverges from the destination (the source, the other
    entries of the applications folder) is as before. *)
Theorem install_app_to_applications_copies
  (E : environment) (src p : path) (w w' : world) :
  diverge (launcher_in_applications E) src ->
  install_app_to_applications E src w = (Ok p, w') ->
  p = launcher_in_applications E
  /\ (exists es, lookup (fs w) src = Some (Dir es)
                 /\ lookup (fs w') (launcher_in_applications E) = Some (Dir es))
  /\ (forall q, diverge (launcher_in_applications E) q ->
                lookup (fs w') q = lookup (fs w) q).
Proof. exact (@install_app_to_applications_outcome E src p w w'). Qed.

(** X8.  The earlier copy is removed before the source is looked at: when
    a bundle directory exists under the applications folder and nothing
    exists at the source, [install_app_to_applications] raises
    [FileNotFoundError] and the applications folder has lost its
    bundle. *)
Theorem install_app_without_source_removes_copy
  (E : environment) (src : path) (w : world) (old : list (string * node)) :
  diverge (launcher_in_applications E) src ->
  lookup (fs w) (launcher_in_applications E) = Some (Dir old) ->
  lookup (fs w) src = None ->
  exists w',
    install_app_to_applications E src w = (Raise FileNotFoundError, w')
    /\ lookup (fs w') (launcher_in_applications E) = None.
Proof.
  intros Hsrc Hdest Hnone. unfold install_app_to_applications.
  rewrite applications_bundle_path.
  set (dest := launcher_in_applications E) in *.
  assert (Happs : exists es, lookup (fs w) (home E ++ ["Applications"%string])
                             = Some (Dir es)).
  { unfold dest in Hdest. rewrite <- applications_bundle_path, lookup_snoc in Hdest.
    destruct (lookup (fs w) (home E ++ ["Applications"%string])) as [[?|es]|];
      [discriminate | now exists es | discriminate]. }
  destruct Happs as [es Hes].
  unfold bind at 1. unfold on_fs at 1. unfold mkdir.
  erewrite alter_replace; [| apply path_snoc_not_root | exact Hes | reflexivity].
  rewrite (graft_same _ _ Hes).
  unfold bind at 1. unfold path_exists, read_fs, exists_. cbn [fs]. rewrite Hdest.
  cbn [when]. unfold bind at 1. unfold on_fs at 1. cbn [fs].
  pose proof (alter_existing
                (fun o => match o with
                          | None => Raise FileNotFoundError
                          | Some (File _ _) => Raise NotADirectoryError
                          | Some (Dir _) => Ok None
                          end) (fs w) (launcher_in_applications_not_root E) Hdest)
    as [n1 Hrm].
  fold rmtree in Hrm. fold dest in Hrm. rewrite Hrm.
  unfold rmtree in Hrm.
  assert (Hgone : lookup n1 dest = None).
  { pose proof Hrm as Hsame.
    apply alter_lookup_same in Hsame; [|apply launcher_in_applications_not_root].
    rewrite Hdest in Hsame. now injection Hsame as <-. }
  assert (Hsrc1 : lookup n1 src = None).
  { rewrite <- Hnone. eapply alter_lookup_diverge; eassumption. }
  unfold bind, on_fs, copytree. cbn [fs]. rewrite Hsrc1.
  eexists. split; [reflexivity | exact Hgone].
Qed.

(* ================================================================== *)
(** * The resolver and the world *)
(* ================================================================== *)

Lemma select_asset_leaves_world (tag : string) (l : list asset) (w : world) :
  snd (select_asset tag l w) = w.
Proof.
  induction l as [|a l IH]; cbn [select_asset]; [reflexivity|].
  destruct (is_chromium_zip (name a)); [reflexivity | exact IH].
Qed.

(** X1.  [fetch_latest_release_url] never changes the world, whatever it
    returns or raises.  A failed request is raised as it is.  A
    descriptor without an asset list is treated like one with no assets,
    and a missing tag is reported as "unknown". *)
Theorem fetch_latest_release_url_leaves_world (E : environment) (w : world) :
  snd (fetch_latest_release_url E w) = w
  /\ (forall e, api_latest E = Raise e -> fetch_latest_release_url E w = (Raise e, w))
  /\ (forall data,
        api_latest E = Ok data -> assets data = None ->
        fetch_latest_release_url E w
        = (Raise (RuntimeError (no_asset_message (get (tag_name data) "unknown"%string))), w))
  /\ (forall data a rest,
        api_latest E = Ok data -> tag_name data = None ->
        assets data = Some (a :: rest) -> is_chromium_zip (name a) = true ->
        fetch_latest_release_url E w
        = (Ok (browser_download_url a, "unknown"%string), w)).
Proof.
  unfold fetch_latest_release_url, urlopen_json, bind.
  destruct (api_latest E) as [data|e]; cbn [ret raise].
  - split; [apply select_asset_leaves_world|]. split; [discriminate|]. split.
    + intros d [= <-] Hnone. now rewrite Hnone.
    + intros d a rest [= <-] Htag Hassets Ha. rewrite Htag, Hassets.
      cbn [get select_asset]. now rewrite Ha.
  - split; [reflexivity|]. split; [now intros e' [= <-]|]. split; discriminate.
Qed.

(* ================================================================== *)
(** * Launching after other commands *)
(* ================================================================== *)

(** One round of the loop of [cmd_uninstall] that has gone through: the
    target is gone and paths that diverge from it are as before. *)
Lemma uninstall_round_done (p : path) (w w' : world) :
  p <> [] ->
  (ex <- path_exists p ;;
   if ex then on_fs (rmtree p) ;; print ("  Removed: " ++ path_str p)%string
   else print ("  (not found: " ++ path_str p ++ ")")%string) w = (Ok tt, w') ->
  lookup (fs w') p = None
  /\ (forall q, diverge p q -> lookup (fs w') q = lookup (fs w) q).
Proof.
  intros Hp Hrun.
  apply bind_ok in Hrun as (ex & wa & Hex & Hrun).
  unfold path_exists, read_fs in Hex. injection Hex as <- <-.
  destruct (exists_ (fs w) p) eqn:Hthere.
  - apply bind_ok in Hrun as ([] & wb & Hrm & Hprint).
    unfold print, emit in Hprint. injection Hprint as <-. cbn [fs].
    unfold on_fs in Hrm.
    destruct (rmtree p (fs w)) as [n'|e] eqn:Halter; [|discriminate].
    injection Hrm as <-. cbn [fs]. unfold rmtree in Halter. split.
    + apply alter_lookup_same in Halter; [|exact Hp].
      destruct (lookup (fs w) p) as [[?|?]|];
        [discriminate | now injection Halter as <- | discriminate].
    + intros q Hq. eapply alter_lookup_diverge; eassumption.
  - unfold print, emit in Hrun. injection Hrun as <-. cbn [fs].
    split; [now apply exists_false_iff | reflexivity].
Qed.

(** The launch command on a machine that passes the preflight checks and
    has nothing at the extension directory or at the manifest. *)
Lemma cmd_launch_not_installed (E : environment) (w : world) :
  platform E = "darwin"%string ->
  exists_ (fs w) chrome_app = true ->
  exists_ (fs w) (manifest_path E) = false ->
  cmd_launch E w = (Raise (SystemExit 1), log w [PrintErr not_installed_message]).
Proof.
  intros Hmac Hchrome Hman. unfold cmd_launch.
  unfold bind at 1. rewrite (check_macos_darwin E w Hmac).
  unfold bind at 1. rewrite (check_chrome_present w Hchrome).
  unfold bind at 1. unfold path_exists at 1, read_fs.
  destruct (exists_ (fs w) (EXTENSION_DIR E)); cbn [negb].
  - unfold bind at 1. unfold path_exists, read_fs. rewrite Hman.
    cbn [negb orb]. unfold bind, print_err. now rewrite emit_log.
  - unfold bind at 1. unfold ret at 1. cbn [negb orb].
    unfold bind, print_err. now rewrite emit_log.
Qed.

(** The launch command on a machine that passes the preflight checks and
    has something at the extension directory and at the manifest. *)
Lemma cmd_launch_installed (E : environment) (w : world) :
  platform E = "darwin"%string ->
  exists_ (fs w) chrome_app = true ->
  exists_ (fs w) (EXTENSION_DIR E) = true ->
  exists_ (fs w) (manifest_path E) = true ->
  exists wq,
    quit_chrome_if_running E
      (log w [Print "  Restarting Chrome with uBlock Origin..."]) = (Ok tt, wq)
    /\ cmd_launch E w
       = (Ok tt, log wq [browser_launch E;
                         Print "  Chrome launched with uBlock Origin enabled.";
                         Print ""]).
Proof.
  intros Hmac Hchrome Hext Hman.
  destruct (quit_chrome_if_running_returns E
              (log w [Print "  Restarting Chrome with uBlock Origin..."]))
    as [wq Hquit].
  exists wq. split; [exact Hquit|].
  unfold cmd_launch.
  unfold bind at 1. rewrite (check_macos_darwin E w Hmac).
  unfold bind at 1. rewrite (check_chrome_present w Hchrome).
  unfold bind at 1. unfold path_exists at 1, read_fs. rewrite Hext. cbn [negb].
  unfold bind at 1. unfold path_exists at 1, read_fs. rewrite Hman. cbn [negb orb].
  unfold bind at 1. unfold print at 1. rewrite emit_log.
  unfold bind at 1. rewrite Hquit.
  unfold bind, launch_chrome_with_ubo, print. rewrite !emit_log, !log_log.
  reflexivity.
Qed.

(** X10.  After [cmd_uninstall] has returned, neither target exists, and
    with them the extension directory is gone: as long as the browser is
    still there, [cmd_launch] stops with status 1 and the error that
    tells the user to install, without touching any process. *)
Theorem launch_after_uninstall (E : environment) (w w' : world) :
  cmd_uninstall E w = (Ok tt, w') ->
  exists_ (fs w') chrome_app = true ->
  lookup (fs w') (INSTALL_DIR E) = None
  /\ lookup (fs w') (launcher_in_applications E) = None
  /\ exists_ (fs w') (EXTENSION_DIR E) = false
  /\ cmd_launch E w' = (Raise (SystemExit 1), log w' [PrintErr not_installed_message]).
Proof.
  intros Hrun Hchrome. unfold cmd_uninstall in Hrun.
  apply bind_ok in Hrun as ([] & w0 & Hmac & Hrun).
  assert (Hdarwin : platform E = "darwin"%string).
  { destruct (string_dec (platform E) "darwin") as [H|H]; [exact H|].
    rewrite (check_macos_other E w H) in Hmac. discriminate. }
  rewrite (check_macos_darwin E w Hdarwin) in Hmac. injection Hmac as <-.
  apply bind_ok in Hrun as ([] & wh & Hhead & Hrun).
  apply bind_ok in Hrun as ([] & wl & Hloop & Hrun).
  cbn [for_each] in Hloop. fold (launcher_in_applications E) in Hloop.
  apply bind_ok in Hloop as ([] & wa & Hfirst & Hloop).
  apply bind_ok in Hloop as ([] & wb & Hsecond & Hret).
  unfold ret in Hret. injection Hret as <-.
  apply uninstall_round_done in Hfirst; [|apply path_snoc_not_root].
  apply uninstall_round_done in Hsecond; [|apply launcher_in_applications_not_root].
  destruct Hfirst as [Hgone1 _]. destruct Hsecond as [Hgone2 Hframe2].
  assert (Hfs : fs w' = fs wb).
  { unfold bind, print, emit in Hrun. now injection Hrun as <-. }
  rewrite Hfs in *.
  assert (H1 : lookup (fs wb) (INSTALL_DIR E) = None).
  { rewrite (Hframe2 _ (diverge_sym (uninstall_targets_diverge E))). exact Hgone1. }
  assert (Hext : lookup (fs wb) (EXTENSION_DIR E) = None).
  { unfold EXTENSION_DIR. now rewrite lookup_snoc, H1. }
  split; [exact H1|]. split; [exact Hgone2|].
  split; [now apply exists_false_iff|].
  apply cmd_launch_not_installed; [exact Hdarwin | now rewrite Hfs |].
  apply exists_false_iff. unfold manifest_path. rewrite Hfs.
  now rewrite lookup_snoc, Hext.
Qed.


(* ================================================================== *)
(** * Commands: the preflight gates *)
(* ================================================================== *)

Local Open Scope string_scope.

Lemma check_chrome_absent (w : world) :
  exists_ (fs w) chrome_app = false ->
  _check_chrome w = (Raise (SystemExit 1), log w [PrintErr chrome_missing_message]).
Proof.
  unfold _check_chrome, bind, path_exists, read_fs. intros ->. reflexivity.
Qed.

Lemma lift_raise {A} (c : M A) (w w' : world) (e : exn) :
  c w = (Raise e, w') -> lift c w = (Raises (Operation e), w').
Proof. unfold lift. now intros ->. Qed.

Lemma lift_return {A} (c : M A) (w w' : world) (a : A) :
  c w = (Ok a, w') -> lift c w = (Returns a, w').
Proof. unfold lift. now intros ->. Qed.

Lemma cbind_raise {A B} (c : C A) (k : A -> C B) (w w' : world) (e : command_exn) :
  c w = (Raises e, w') -> cbind c k w = (Raises e, w').
Proof. unfold cbind. now intros ->. Qed.

Lemma cbind_return {A B} (c : C A) (k : A -> C B) (w w' : world) (a : A) :
  c w = (Returns a, w') -> cbind c k w = k a w'.
Proof. unfold cbind. now intros ->. Qed.

Lemma bind_raise_first {A B} (c : M A) (k : A -> M B) (w w' : world) (e : exn) :
  c w = (Raise e, w') -> bind c k w = (Raise e, w').
Proof. unfold bind. now intros ->. Qed.

(** Each of the four handlers starts with the platform check. *)
Lemma handlers_check_platform (E : environment) (cs : json -> string) (w w' : world)
  (e : exn) :
  _check_macos E w = (Raise e, w') ->
  cmd_install E cs w = (Raises (Operation e), w')
  /\ cmd_update E cs w = (Raises (Operation e), w')
  /\ lift (cmd_uninstall E) w = (Raises (Operation e), w')
  /\ lift (cmd_launch E) w = (Raises (Operation e), w').
Proof.
  intros Hcheck. repeat split.
  - unfold cmd_install. apply cbind_raise, lift_raise, Hcheck.
  - unfold cmd_update. apply cbind_raise, lift_raise, Hcheck.
  - apply lift_raise. unfold cmd_uninstall. now apply bind_raise_first.
  - apply lift_raise. unfold cmd_launch. now apply bind_raise_first.
Qed.

(** The handler that [main] picks is one of the four. *)
Lemma main_handler (E : environment) (cs : json -> string) (command : option string) :
  commands_get E cs command = cmd_install E cs
  \/ commands_get E cs command = cmd_update E cs
  \/ (command = Some "uninstall"
      /\ commands_get E cs command = lift (cmd_uninstall E))
  \/ commands_get E cs command = lift (cmd_launch E).
Proof.
  destruct command as [c|]; [|now left]. unfold commands_get, commands. cbn [assoc].
  destruct (String.eqb c "install"); [now left|].
  destruct (String.eqb c "update"); [right; now left|].
  destruct (String.eqb c "uninstall") eqn:Hu.
  - apply String.eqb_eq in Hu. subst c. right; right; left. now split.
  - destruct (String.eqb c "launch"); [right; right; now right | now left].
Qed.

Lemma main_parsed (E : environment) (cs : json -> string)
  (argparse : list string -> parsed) (argv : list string) (w : world) :
  match argparse argv with
  | Namespace command => main E cs argparse argv w = commands_get E cs command w
  | ParserExit code output =>
      main E cs argparse argv w
      = (Raises (Operation (SystemExit code)), log w output)
  end.
Proof.
  unfold main, cbind, lift, parse_args. now destruct (argparse argv).
Qed.

(** X9.  The gates of [main].  When the parser turns the command line
    down (an unknown subcommand, a request for help), the program ends
    with the parser's exit status after the parser's output: no handler
    runs and the platform is not looked at.  When the parser accepts the
    command line: on a platform other than macOS, whatever the
    subcommand (or without one), the program prints that it is
    macOS-only and exits with status 1, and nothing else happens; on
    macOS without the browser application, every subcommand but
    uninstall prints where the browser was looked for and exits with
    status 1, and nothing else happens. *)
Theorem main_preflight_gates (E : environment) (cs : json -> string)
  (argparse : list string -> parsed) (argv : list string) (w : world) :
  (forall code output,
     argparse argv = ParserExit code output ->
     main E cs argparse argv w
     = (Raises (Operation (SystemExit code)), log w output))
  /\
  (forall command,
     argparse argv = Namespace command ->
     (platform E <> "darwin" ->
      main E cs argparse argv w
      = (Raises (Operation (SystemExit 1)),
         log w [PrintErr "Error: ublock-chrome is macOS-only."]))
     /\
     (platform E = "darwin" ->
      exists_ (fs w) chrome_app = false ->
      command <> Some "uninstall" ->
      main E cs argparse argv w
      = (Raises (Operation (SystemExit 1)),
         log w [PrintErr chrome_missing_message]))).
Proof.
  pose proof (main_parsed E cs argparse argv w) as Hmain.
  split.
  - intros code output Hexit. now rewrite Hexit in Hmain.
  - intros command Hargs. rewrite Hargs in Hmain. rewrite Hmain. split.
    + intros Hother.
      destruct (handlers_check_platform E cs w (check_macos_other E w Hother))
        as (Hi & Hu & Hun & Hl).
      destruct (main_handler E cs command) as [-> | [-> | [[_ ->] | ->]]]; assumption.
    + intros Hmac Habsent Hcmd.
      pose proof (check_macos_darwin E w Hmac) as Hos.
      pose proof (check_chrome_absent w Habsent) as Hchrome.
      destruct (main_handler E cs command) as [-> | [-> | [[Hc _] | ->]]].
      * unfold cmd_install.
        erewrite cbind_return; [|apply lift_return; exact Hos].
        apply cbind_raise, lift_raise, Hchrome.
      * unfold cmd_update.
        erewrite cbind_return; [|apply lift_return; exact Hos].
        apply cbind_raise, lift_raise, Hchrome.
      * contradiction.
      * apply lift_raise. unfold cmd_launch. unfold bind at 1. rewrite Hos.
        now apply bind_raise_first.
Qed.

(* ================================================================== *)
(** * Commands: when the release cannot be resolved *)
(* ================================================================== *)

Lemma select_asset_result (tag : string) (l : list asset) (w1 w2 : world) :
  fst (select_asset tag l w1) = fst (select_asset tag l w2).
Proof.
  induction l as [|a l IH]; cbn [select_asset]; [reflexivity|].
  destruct (is_chromium_zip (name a)); [reflexivity | exact IH].
Qed.

Lemma fetch_latest_release_url_result (E : environment) (w1 w2 : world) :
  fst (fetch_latest_release_url E w1) = fst (fetch_latest_release_url E w2).
Proof.
  unfold fetch_latest_release_url, urlopen_json, bind.
  destruct (api_latest E) as [data|e]; cbn [ret raise]; [|reflexivity].
  apply select_asset_result.
Qed.

Lemma fetch_latest_release_url_world (E : environment) (w : world) :
  snd (fetch_latest_release_url E w) = w.
Proof.
  unfold fetch_latest_release_url, urlopen_json, bind.
  destruct (api_latest E) as [data|e]; cbn [ret raise]; [|reflexivity].
  apply select_asset_leaves_world.
Qed.

Lemma fetch_latest_release_url_at (E : environment) (w w0 : world)
  (r : result (string * string)) :
  fst (fetch_latest_release_url E w) = r ->
  fetch_latest_release_url E w0 = (r, w0).
Proof.
  intros <-. rewrite (fetch_latest_release_url_result E w w0).
  rewrite <- (fetch_latest_release_url_world E w0) at 3.
  now destruct (fetch_latest_release_url E w0).
Qed.

Lemma print_step_log (n : Z) (text : string) (w : world) :
  _print_step n text w = (Ok tt, log w [Print ("  [" ++ int_str n ++ "] " ++ text)]).
Proof. reflexivity. Qed.

(** X12.  When the release cannot be resolved (the request fails, or no
    asset of the latest release is a Chromium zip), [cmd_install] and
    [cmd_update] on a Mac with the browser raise the resolver's error
    after the header and the first step line; the files, a previous
    installation included, and the temporary files are as before. *)
Theorem failed_resolution_changes_no_file (E : environment) (cs : json -> string)
  (w : world) (e : exn) :
  platform E = "darwin" ->
  exists_ (fs w) chrome_app = true ->
  fst (fetch_latest_release_url E w) = Raise e ->
  (exists w',
     cmd_install E cs w = (Raises (Operation e), w')
     /\ fs w' = fs w /\ tmpfiles w' = tmpfiles w
     /\ trace w'
        = (trace w
           ++ header_lines ("uBlock Origin " ++ arrow ++ " Chrome Installer (macOS)")
           ++ [Print "  [1] Fetching latest uBlock Origin release from GitHub..."])%list)
  /\
  (exists w',
     cmd_update E cs w = (Raises (Operation e), w')
     /\ fs w' = fs w /\ tmpfiles w' = tmpfiles w
     /\ trace w'
        = (trace w ++ header_lines "Updating uBlock Origin"
           ++ [Print "  [1] Fetching latest release..."])%list).
Proof.
  intros Hmac Hchrome Hfetch.
  pose proof (check_macos_darwin E w Hmac) as Hos.
  pose proof (check_chrome_present w Hchrome) as Hbrowser.
  split.
  - eexists. split.
    + unfold cmd_install.
      erewrite cbind_return; [|apply lift_return; exact Hos].
      erewrite cbind_return; [|apply lift_return; exact Hbrowser].
      erewrite cbind_return; [|apply lift_return; apply print_header_log].
      erewrite cbind_return; [|apply lift_return; apply print_step_log].
      apply cbind_raise, lift_raise.
      eapply fetch_latest_release_url_at. exact Hfetch.
    + cbn [log fs tmpfiles trace]. rewrite <- app_assoc. repeat split.
  - eexists. split.
    + unfold cmd_update.
      erewrite cbind_return; [|apply lift_return; exact Hos].
      erewrite cbind_return; [|apply lift_return; exact Hbrowser].
      erewrite cbind_return; [|apply lift_return; apply print_header_log].
      erewrite cbind_return; [|apply lift_return; apply print_step_log].
      apply cbind_raise, lift_raise.
      eapply fetch_latest_release_url_at. exact Hfetch.
    + cbn [log fs tmpfiles trace]. rewrite <- app_assoc. repeat split.
Qed.

(* ================================================================== *)
(** * Commands: installing and updating side by side *)
(* ================================================================== *)

Lemma same_disk_refl (w : world) : same_disk w w.
Proof. now split. Qed.

Lemma same_disk_log (w1 w2 : world) (a b : list event) :
  same_disk w1 w2 -> same_disk (log w1 a) (log w2 b).
Proof. intros [Hfs Htmp]. now split. Qed.

Create HintDb oblivious.

Lemma oblivious_ret {A} (a : A) : oblivious (ret a).
Proof. intros w1 w2 H. now split. Qed.

Lemma oblivious_raise {A} (e : exn) : oblivious (@raise A e).
Proof. intros w1 w2 H. now split. Qed.

Lemma oblivious_bind {A B} (c : M A) (k : A -> M B) :
  oblivious c -> (forall a, oblivious (k a)) -> oblivious (bind c k).
Proof.
  intros Hc Hk w1 w2 Hsame. unfold bind.
  destruct (Hc w1 w2 Hsame) as [Hres Hdisk].
  destruct (c w1) as [[a1|e1] v1], (c w2) as [[a2|e2] v2]; simpl in Hres, Hdisk;
    try discriminate.
  - injection Hres as <-. now apply Hk.
  - injection Hres as <-. now split.
Qed.

Lemma oblivious_try_finally {A} (body : M A) (cleanup : M unit) :
  oblivious body -> oblivious cleanup -> oblivious (try_finally body cleanup).
Proof.
  intros Hb Hc w1 w2 Hsame. unfold try_finally.
  destruct (Hb w1 w2 Hsame) as [Hres Hdisk].
  destruct (body w1) as [r1 v1], (body w2) as [r2 v2]; simpl in Hres, Hdisk.
  subst r2.
  destruct (Hc v1 v2 Hdisk) as [Hres' Hdisk'].
  destruct (cleanup v1) as [[[]|e1] u1], (cleanup v2) as [[[]|e2] u2];
    simpl in Hres', Hdisk'; try discriminate.
  - now split.
  - injection Hres' as <-. now split.
Qed.

Lemma oblivious_if {A} (b : bool) (c1 c2 : M A) :
  oblivious c1 -> oblivious c2 -> oblivious (if b then c1 else c2).
Proof. now destruct b. Qed.

Lemma oblivious_when (b : bool) (c : M unit) : oblivious c -> oblivious (when b c).
Proof. intros Hc. destruct b; [exact Hc | apply oblivious_ret]. Qed.

Lemma oblivious_for_each {A} (l : list A) (body : A -> M unit) :
  (forall x, oblivious (body x)) -> oblivious (for_each l body).
Proof.
  intros Hbody. induction l as [|x l IH]; cbn [for_each].
  - apply oblivious_ret.
  - apply oblivious_bind; [apply Hbody | intros _; exact IH].
Qed.

Lemma oblivious_emit (e : event) : oblivious (emit e).
Proof. intros w1 w2 [Hfs Htmp]. now split. Qed.

Lemma oblivious_print (s : string) : oblivious (print s).
Proof. apply oblivious_emit. Qed.

Lemma oblivious_on_fs (op : node -> result node) : oblivious (on_fs op).
Proof.
  intros w1 w2 [Hfs Htmp]. unfold on_fs. rewrite Hfs.
  destruct (op (fs w2)); now split.
Qed.

Lemma oblivious_read_fs {A} (q : node -> A) : oblivious (read_fs q).
Proof. intros w1 w2 [Hfs Htmp]. unfold read_fs. rewrite Hfs. now split. Qed.

Lemma oblivious_path_exists (p : path) : oblivious (path_exists p).
Proof. apply oblivious_read_fs. Qed.

Lemma oblivious_path_is_dir (p : path) : oblivious (path_is_dir p).
Proof. apply oblivious_read_fs. Qed.

Lemma oblivious_iterdir (p : path) : oblivious (iterdir p).
Proof.
  intros w1 w2 [Hfs Htmp]. unfold iterdir. rewrite Hfs.
  destruct (lookup (fs w2) p) as [[m d|es]|]; now split.
Qed.

Lemma oblivious_open_read (p : path) : oblivious (open_read p).
Proof.
  intros w1 w2 [Hfs Htmp]. unfold open_read. rewrite Hfs.
  destruct (lookup (fs w2) p) as [[m d|es]|]; now split.
Qed.

Lemma oblivious_json_load (E : environment) (data : string) :
  oblivious (json_load E data).
Proof.
  unfold json_load. destruct (json_loads E data);
    [apply oblivious_ret | apply oblivious_raise].
Qed.

Lemma oblivious_NamedTemporaryFile (E : environment) :
  oblivious (NamedTemporaryFile E).
Proof.
  intros w1 w2 [Hfs Htmp]. unfold NamedTemporaryFile. rewrite Htmp.
  destruct (assoc (tmp_name E) (tmpfiles w2)); [now split|].
  split; [reflexivity|]. split; simpl; [exact Hfs | reflexivity].
Qed.

Lemma oblivious_urlretrieve (E : environment) (url tmp_path : string) :
  oblivious (urlretrieve E url tmp_path).
Proof.
  intros w1 w2 [Hfs Htmp]. unfold urlretrieve, set_tmpfiles. rewrite Htmp.
  destruct (http_get E url); now split.
Qed.

Lemma oblivious_os_unlink (tmp_path : string) : oblivious (os_unlink tmp_path).
Proof.
  intros w1 w2 [Hfs Htmp]. unfold os_unlink, set_tmpfiles. rewrite Htmp.
  destruct (assoc tmp_path (tmpfiles w2)); now split.
Qed.

Lemma oblivious_extractall (E : environment) (tmp_path : string) (target : path) :
  oblivious (extractall E tmp_path target).
Proof.
  intros w1 w2 Hsame. pose proof Hsame as [Hfs Htmp].
  unfold extractall. rewrite Htmp.
  destruct (assoc tmp_path (tmpfiles w2)) as [bytes|]; [|now split].
  destruct (unzip E bytes) as [written failure].
  eapply oblivious_bind; [apply oblivious_on_fs | intros _ | exact Hsame].
  destruct failure; [apply oblivious_raise | apply oblivious_ret].
Qed.

#[local] Hint Resolve oblivious_ret oblivious_raise oblivious_bind oblivious_try_finally
  oblivious_if oblivious_when oblivious_for_each oblivious_emit oblivious_print
  oblivious_on_fs oblivious_read_fs oblivious_path_exists oblivious_path_is_dir
  oblivious_iterdir oblivious_open_read oblivious_json_load
  oblivious_NamedTemporaryFile oblivious_urlretrieve oblivious_os_unlink
  oblivious_extractall : oblivious.

Lemma oblivious_check_macos (E : environment) : oblivious (_check_macos E).
Proof. unfold _check_macos, print_err, sys_exit. auto 10 with oblivious. Qed.

Lemma oblivious_check_chrome : oblivious _check_chrome.
Proof.
  unfold _check_chrome, print_err, sys_exit.
  apply oblivious_bind; [apply oblivious_path_exists | intros ex].
  auto 10 with oblivious.
Qed.

Lemma oblivious_fetch_latest_release_url (E : environment) :
  oblivious (fetch_latest_release_url E).
Proof.
  intros w1 w2 Hsame. split.
  - apply fetch_latest_release_url_result.
  - now rewrite !fetch_latest_release_url_world.
Qed.

Lemma oblivious_flatten_single_subdir (E : environment) :
  oblivious (flatten_single_subdir E).
Proof.
  unfold flatten_single_subdir.
  apply oblivious_bind; [apply oblivious_iterdir | intros children].
  destruct children as [|child [|other rest]]; try apply oblivious_ret.
  apply oblivious_bind; [apply oblivious_path_is_dir | intros d].
  apply oblivious_bind; [destruct d; auto with oblivious | intros m].
  apply oblivious_when.
  apply oblivious_bind; [apply oblivious_iterdir | intros items].
  apply oblivious_bind; [|intros _; apply oblivious_on_fs].
  apply oblivious_for_each. intros item. apply oblivious_on_fs.
Qed.

Lemma oblivious_download_and_extract (E : environment) (url : string) :
  oblivious (download_and_extract E url).
Proof.
  unfold download_and_extract.
  apply oblivious_bind; [|intros _].
  { unfold clean_previous_install. auto 10 with oblivious. }
  apply oblivious_bind; [|intros _].
  { unfold download_and_unpack. auto 10 with oblivious. }
  apply oblivious_bind; [apply oblivious_flatten_single_subdir | intros _].
  unfold load_manifest.
  apply oblivious_bind; [apply oblivious_path_exists | intros ex].
  auto 10 with oblivious.
Qed.

Lemma oblivious_create_launcher_app (E : environment) :
  oblivious (create_launcher_app E).
Proof. unfold create_launcher_app. auto 20 with oblivious. Qed.

Lemma oblivious_install_app_to_applications (E : environment) (app_dir : path) :
  oblivious (install_app_to_applications E app_dir).
Proof. unfold install_app_to_applications. auto 20 with oblivious. Qed.

Lemma silent_print (s : string) : silent (print s).
Proof. intros w. now split. Qed.

Lemma silent_print_step (n : Z) (text : string) : silent (_print_step n text).
Proof. apply silent_print. Qed.

Lemma silent_print_header (text : string) : silent (_print_header text).
Proof. intros w. rewrite print_header_log. now split. Qed.

Lemma quiet_lift (p : M unit) : silent p -> quiet (lift p).
Proof.
  intros Hp w. unfold lift. destruct (Hp w) as [Hres Hdisk].
  destruct (p w) as [[[]|e] v]; simpl in Hres, Hdisk; [now split | discriminate].
Qed.

Lemma quiet_cbind (c : C unit) (k : unit -> C unit) :
  quiet c -> (forall u, quiet (k u)) -> quiet (cbind c k).
Proof.
  intros Hc Hk w. unfold cbind. destruct (Hc w) as [Hres Hdisk].
  destruct (c w) as [[[]|e] v]; simpl in Hres, Hdisk; [|discriminate].
  destruct (Hk tt v) as [Hres' [Hfs Htmp]]. split; [exact Hres'|].
  destruct Hdisk as [Hfs0 Htmp0]. split; congruence.
Qed.

Lemma alike_quiet (c1 c2 : C unit) : quiet c1 -> quiet c2 -> alike c1 c2.
Proof.
  intros H1 H2 w1 w2 [Hfs Htmp].
  destruct (H1 w1) as [-> [Hfs1 Htmp1]], (H2 w2) as [-> [Hfs2 Htmp2]].
  split; [reflexivity|]. split; congruence.
Qed.

Lemma alike_lift {A} (c : M A) : oblivious c -> alike (lift c) (lift c).
Proof.
  intros Hc w1 w2 Hsame. unfold lift.
  destruct (Hc w1 w2 Hsame) as [Hres Hdisk].
  destruct (c w1) as [[a1|e1] v1], (c w2) as [[a2|e2] v2]; simpl in Hres, Hdisk;
    try discriminate; injection Hres as <-; now split.
Qed.

Lemma alike_cbind {A B} (c1 c2 : C A) (k1 k2 : A -> C B) :
  alike c1 c2 -> (forall a, alike (k1 a) (k2 a)) -> alike (cbind c1 k1) (cbind c2 k2).
Proof.
  intros Hc Hk w1 w2 Hsame. unfold cbind.
  destruct (Hc w1 w2 Hsame) as [Hres Hdisk].
  destruct (c1 w1) as [[a1|e1] v1], (c2 w2) as [[a2|e2] v2]; simpl in Hres, Hdisk;
    try discriminate; injection Hres as <-.
  - now apply Hk.
  - now split.
Qed.

Lemma alike_skip_left {A} (c : C unit) (k : unit -> C A) (c2 : C A) :
  quiet c -> alike (k tt) c2 -> alike (cbind c k) c2.
Proof.
  intros Hc Hk w1 w2 [Hfs Htmp]. unfold cbind.
  destruct (Hc w1) as [Hres [Hfs1 Htmp1]].
  destruct (c w1) as [[[]|e] v]; simpl in Hres, Hfs1, Htmp1; [|discriminate].
  apply Hk. split; congruence.
Qed.

Lemma alike_manifest_get (manifest : json) (key : string) (default : json) :
  alike (manifest_get manifest key default) (manifest_get manifest key default).
Proof.
  intros w1 w2 Hsame. unfold manifest_get, creturn, craise.
  destruct manifest; now split.
Qed.

(** Installing and updating go through the same operations; only what
    they print differs. *)
Lemma install_update_alike (E : environment) (cs : json -> string) :
  alike (cmd_install E cs) (cmd_update E cs).
Proof.
  unfold cmd_install, cmd_update.
  apply alike_cbind; [apply alike_lift, oblivious_check_macos | intros _].
  apply alike_cbind; [apply alike_lift, oblivious_check_chrome | intros _].
  apply alike_cbind;
    [apply alike_quiet; apply quiet_lift, silent_print_header | intros _].
  apply alike_cbind;
    [apply alike_quiet; apply quiet_lift, silent_print_step | intros _].
  apply alike_cbind;
    [apply alike_lift, oblivious_fetch_latest_release_url | intros [url tag]].
  apply alike_cbind; [apply alike_lift, oblivious_print | intros _].
  apply alike_cbind;
    [apply alike_quiet; apply quiet_lift, silent_print_step | intros _].
  apply alike_cbind;
    [apply alike_lift, oblivious_download_and_extract | intros manifest].
  apply alike_cbind; [apply alike_manifest_get | intros name].
  apply alike_cbind; [apply alike_manifest_get | intros version].
  apply alike_cbind; [apply alike_lift, oblivious_print | intros _].
  apply alike_skip_left; [apply quiet_lift, silent_print|].
  apply alike_cbind;
    [apply alike_quiet; apply quiet_lift, silent_print_step | intros _].
  apply alike_cbind;
    [apply alike_lift, oblivious_create_launcher_app | intros app_dir].
  apply alike_cbind;
    [apply alike_lift, oblivious_install_app_to_applications | intros dest].
  apply alike_quiet;
    repeat (apply quiet_cbind; [apply quiet_lift, silent_print | intros _]);
    apply quiet_lift, silent_print.
Qed.

(** X13.  [cmd_update] is [cmd_install] with other words: from any state
    the two commands end the same way (both return, or both raise the
    same exception) and leave the same files and the same temporary
    files; they differ only in what they print. *)
Theorem update_installs_again (E : environment) (cs : json -> string) (w : world) :
  fst (cmd_update E cs w) = fst (cmd_install E cs w)
  /\ fs (snd (cmd_update E cs w)) = fs (snd (cmd_install E cs w))
  /\ tmpfiles (snd (cmd_update E cs w)) = tmpfiles (snd (cmd_install E cs w)).
Proof.
  destruct (install_update_alike E cs (same_disk_refl w)) as [Hres [Hfs Htmp]].
  repeat split; symmetry; assumption.
Qed.

(* ================================================================== *)
(** * Commands: what a finished installation consists of *)
(* ================================================================== *)

Local Open Scope list_scope.

Lemma cbind_returns {A B} (c : C A) (k : A -> C B) (w w' : world) (b : B) :
  cbind c k w = (Returns b, w') ->
  exists a w1, c w = (Returns a, w1) /\ k a w1 = (Returns b, w').
Proof.
  unfold cbind. destruct (c w) as [[a|e] w1]; intros H.
  - now exists a, w1.
  - discriminate.
Qed.

Lemma step_returns {A B} (c : M A) (k : A -> C B) (w w' : world) (b : B) :
  cbind (lift c) k w = (Returns b, w') ->
  exists a w1, c w = (Ok a, w1) /\ k a w1 = (Returns b, w').
Proof.
  intros H. apply cbind_returns in H as (a & w1 & Hc & Hk).
  exists a, w1. split; [|exact Hk].
  unfold lift in Hc. destruct (c w) as [[a'|e] v]; [|discriminate].
  now injection Hc as -> ->.
Qed.

Lemma silent_step {A} (p : M unit) (k : unit -> C A) (w w' : world) (o : outcome A) :
  silent p ->
  cbind (lift p) k w = (o, w') ->
  exists w1, same_disk w1 w /\ k tt w1 = (o, w').
Proof.
  intros Hp H. unfold cbind, lift in H. destruct (Hp w) as [Hres Hdisk].
  destruct (p w) as [[[]|e] v]; simpl in Hres, Hdisk; [|discriminate].
  now exists v.
Qed.

Lemma quiet_end (c : C unit) (w w' : world) (o : outcome unit) :
  quiet c -> c w = (o, w') -> o = Returns tt /\ same_disk w' w.
Proof.
  intros Hc H. destruct (Hc w) as [Hres Hdisk]. rewrite H in Hres, Hdisk.
  now split.
Qed.

Lemma check_macos_returns (E : environment) (w w' : world) :
  _check_macos E w = (Ok tt, w') -> platform E = "darwin"%string /\ w' = w.
Proof.
  intros H. destruct (String.eqb_spec (platform E) "darwin") as [Hp|Hp].
  - rewrite (check_macos_darwin E w Hp) in H. now injection H as <-.
  - rewrite (check_macos_other E w Hp) in H. discriminate.
Qed.

Lemma check_chrome_returns (w w' : world) :
  _check_chrome w = (Ok tt, w') -> exists_ (fs w) chrome_app = true /\ w' = w.
Proof.
  intros H. destruct (exists_ (fs w) chrome_app) eqn:Hex.
  - rewrite (check_chrome_present w Hex) in H. now injection H as <-.
  - rewrite (check_chrome_absent w Hex) in H. discriminate.
Qed.

Lemma manifest_get_returns (manifest : json) (key : string) (default v : json)
  (w w' : world) :
  manifest_get manifest key default w = (Returns v, w') ->
  (exists members, manifest = JObject members) /\ w' = w.
Proof.
  unfold manifest_get, creturn, craise.
  destruct manifest; intros H; try discriminate.
  injection H as _ <-. split; [now eexists | reflexivity].
Qed.


(** What a successful [download_and_extract] leaves at the manifest's
    place. *)
Lemma download_and_extract_returns (E : environment) (url : string) (w w' : world)
  (manifest : json) :
  download_and_extract E url w = (Ok manifest, w') ->
  exists mode data,
    lookup (fs w') (manifest_path E) = Some (File mode data)
    /\ json_loads E data = Some manifest.
Proof.
  rewrite download_and_extract_after_normalize. intros Hrun.
  apply bind_ok in Hrun as ([] & w1 & _ & Hload).
  pose proof (load_manifest_cases E w1) as Hcases.
  destruct (lookup (fs w1) (manifest_path E)) as [[m d|es]|] eqn:Hlook.
  - destruct (json_loads E d) as [j|] eqn:Hj; rewrite Hcases in Hload;
      [|discriminate].
    injection Hload as -> ->. now exists m, d.
  - rewrite Hcases in Hload. discriminate.
  - rewrite Hcases in Hload. discriminate.
Qed.

Lemma private_bundle_off_manifest (E : environment) :
  diverge (private_bundle E) (manifest_path E).
Proof.
  exists (INSTALL_DIR E), APP_NAME, "extension"%string, [], ["manifest.json"%string].
  unfold private_bundle, manifest_path, EXTENSION_DIR. rewrite <- app_assoc.
  repeat split. discriminate.
Qed.

Lemma applications_off_manifest (E : environment) :
  diverge (launcher_in_applications E) (manifest_path E).
Proof.
  exists (home E), "Applications"%string, ".ublock-chrome"%string, [APP_NAME],
    ["extension"%string; "manifest.json"%string].
  unfold launcher_in_applications, manifest_path, EXTENSION_DIR, INSTALL_DIR.
  rewrite <- !app_assoc. repeat split. discriminate.
Qed.

(** What a finished [cmd_install] has found and left behind. *)
Lemma cmd_install_returns (E : environment) (cs : json -> string) (w w' : world) :
  cmd_install E cs w = (Returns tt, w') ->
  platform E = "darwin"%string
  /\ exists_ (fs w) chrome_app = true
  /\ (exists mode data members,
        lookup (fs w') (manifest_path E) = Some (File mode data)
        /\ json_loads E data = Some (JObject members))
  /\ (exists icon,
        lookup (fs w') (private_bundle E) = Some (expected_bundle E icon)
        /\ lookup (fs w') (launcher_in_applications E) = Some (expected_bundle E icon)).
Proof.
  unfold cmd_install. intros Hrun.
  apply step_returns in Hrun as ([] & w1 & Hos & Hrun).
  apply check_macos_returns in Hos as [Hmac ->].
  apply step_returns in Hrun as ([] & w2 & Hbrowser & Hrun).
  apply check_chrome_returns in Hbrowser as [Hchrome ->].
  apply silent_step in Hrun as (w3 & _ & Hrun); [|apply silent_print_header].
  apply silent_step in Hrun as (w4 & _ & Hrun); [|apply silent_print_step].
  apply step_returns in Hrun as ([url tag] & w5 & _ & Hrun).
  apply silent_step in Hrun as (w6 & _ & Hrun); [|apply silent_print].
  apply silent_step in Hrun as (w7 & _ & Hrun); [|apply silent_print_step].
  apply step_returns in Hrun as (manifest & w8 & Hextract & Hrun).
  apply download_and_extract_returns in Hextract as (mode & data & Hfile & Hjson).
  apply cbind_returns in Hrun as (name & w9 & Hname & Hrun).
  apply manifest_get_returns in Hname as [[members ->] ->].
  apply cbind_returns in Hrun as (version & w10 & Hversion & Hrun).
  apply manifest_get_returns in Hversion as [_ ->].
  apply silent_step in Hrun as (w11 & [H11 _] & Hrun); [|apply silent_print].
  apply silent_step in Hrun as (w12 & [H12 _] & Hrun); [|apply silent_print].
  apply silent_step in Hrun as (w13 & [H13 _] & Hrun); [|apply silent_print_step].
  apply step_returns in Hrun as (app_dir & w14 & Hcreate & Hrun).
  apply create_launcher_app_outcome in Hcreate as (-> & Hbundle & Hframe).
  apply step_returns in Hrun as (dest & w15 & Hcopy & Hrun).
  apply install_app_to_applications_outcome in Hcopy
    as (-> & (es & Hsrc & Hdest) & Hframe'); [|apply bundles_diverge].
  apply quiet_end in Hrun as [_ [Hend _]].
  2:{ repeat (apply quiet_cbind; [apply quiet_lift, silent_print | intros _]).
      apply quiet_lift, silent_print. }
  split; [exact Hmac|]. split; [exact Hchrome|]. split.
  - exists mode, data, members. split; [|exact Hjson].
    rewrite Hend, (Hframe' _ (applications_off_manifest E)),
      (Hframe _ (private_bundle_off_manifest E)).
    congruence.
  - exists (lookup (fs w14) browser_icon).
    rewrite Hbundle in Hsrc. injection Hsrc as <-.
    rewrite Hend. split; [|exact Hdest].
    rewrite (Hframe' _ (bundles_diverge E)). exact Hbundle.
Qed.

(** X14.  A successful [cmd_install] or [cmd_update] ran on a Mac with
    the browser installed and ends with all three parts in place: the
    manifest file directly in the extension directory, holding a JSON
    object; the launcher bundle in the private directory; and an
    identical bundle under the user's Applications folder.  Both bundles
    are exactly what [create_launcher_app] builds (executable script,
    property list, and the browser's icon when that is a file). *)
Theorem finished_installation_is_complete (E : environment) (cs : json -> string)
  (w w' : world) :
  cmd_install E cs w = (Returns tt, w') \/ cmd_update E cs w = (Returns tt, w') ->
  platform E = "darwin"%string
  /\ exists_ (fs w) chrome_app = true
  /\ (exists mode data members,
        lookup (fs w') (manifest_path E) = Some (File mode data)
        /\ json_loads E data = Some (JObject members))
  /\ (exists icon,
        lookup (fs w') (private_bundle E) = Some (expected_bundle E icon)
        /\ lookup (fs w') (launcher_in_applications E) = Some (expected_bundle E icon)).
Proof.
  intros [Hrun | Hrun].
  - eapply cmd_install_returns. exact Hrun.
  - destruct (install_update_alike E cs (same_disk_refl w)) as [Hres [Hfs _]].
    rewrite Hrun in Hres, Hfs. cbn [fst snd] in Hres, Hfs.
    destruct (cmd_install E cs w) as [o v] eqn:Hinstall. cbn [fst snd] in Hres, Hfs.
    subst o. rewrite <- Hfs.
    eapply cmd_install_returns. exact Hinstall.
Qed.

Lemma manifest_get_not_object (manifest : json) (key : string) (default : json)
  (w : world) :
  (forall members, manifest <> JObject members) ->
  manifest_get manifest key default w
  = (Raises (AttributeError
               ("'" ++ type_name manifest ++ "' object has no attribute 'get'")%string),
     w).
Proof.
  intros Hshape. unfold manifest_get, craise.
  destruct manifest; try reflexivity. now elim (Hshape members).
Qed.

(** X15.  [download_and_extract] does not look at the shape of the
    manifest, and the commands do.  On a Mac with the browser, once the
    release is resolved: when [download_and_extract] returns a manifest
    that is not a JSON object (a list, a string, a number, ...),
    [cmd_install] and [cmd_update] raise the [AttributeError] of
    [manifest.get] and stop in the very state in which
    [download_and_extract] returned: the extension is in place, with a
    regular manifest file of that content at its root, and none of the
    later steps (building and copying the launcher) has run. *)
Theorem manifest_must_be_an_object (E : environment) (cs : json -> string)
  (w : world) (url tag : string) (manifest : json) :
  platform E = "darwin"%string ->
  exists_ (fs w) chrome_app = true ->
  fst (fetch_latest_release_url E w) = Ok (url, tag) ->
  (forall members, manifest <> JObject members) ->
  let failure :=
    Raises (A:=unit)
      (AttributeError ("'" ++ type_name manifest ++ "' object has no attribute 'get'")%string)
  in
  (forall w1,
     download_and_extract E url (log w (install_preamble tag)) = (Ok manifest, w1) ->
     cmd_install E cs w = (failure, w1)
     /\ exists mode data,
          lookup (fs w1) (manifest_path E) = Some (File mode data)
          /\ json_loads E data = Some manifest)
  /\
  (forall w1,
     download_and_extract E url (log w (update_preamble tag)) = (Ok manifest, w1) ->
     cmd_update E cs w = (failure, w1)
     /\ exists mode data,
          lookup (fs w1) (manifest_path E) = Some (File mode data)
          /\ json_loads E data = Some manifest).
Proof.
  intros Hmac Hchrome Hfetch Hshape failure.
  pose proof (check_macos_darwin E w Hmac) as Hos.
  pose proof (check_chrome_present w Hchrome) as Hbrowser.
  split; intros w1 Hextract;
    (split; [|eapply download_and_extract_returns; exact Hextract]).
  - unfold cmd_install.
    erewrite cbind_return; [|apply lift_return; exact Hos].
    erewrite cbind_return; [|apply lift_return; exact Hbrowser].
    erewrite cbind_return; [|apply lift_return; apply print_header_log].
    erewrite cbind_return; [|apply lift_return; apply print_step_log].
    erewrite cbind_return;
      [|apply lift_return; eapply fetch_latest_release_url_at; exact Hfetch].
    cbv beta iota.
    erewrite cbind_return; [|apply lift_return; apply emit_log].
    erewrite cbind_return; [|apply lift_return; apply print_step_log].
    rewrite !log_log.
    erewrite cbind_return; [|apply lift_return; exact Hextract].
    apply cbind_raise. now apply manifest_get_not_object.
  - unfold cmd_update.
    erewrite cbind_return; [|apply lift_return; exact Hos].
    erewrite cbind_return; [|apply lift_return; exact Hbrowser].
    erewrite cbind_return; [|apply lift_return; apply print_header_log].
    erewrite cbind_return; [|apply lift_return; apply print_step_log].
    erewrite cbind_return;
      [|apply lift_return; eapply fetch_latest_release_url_at; exact Hfetch].
    cbv beta iota.
    erewrite cbind_return; [|apply lift_return; apply emit_log].
    erewrite cbind_return; [|apply lift_return; apply print_step_log].
    rewrite !log_log.
    erewrite cbind_return; [|apply lift_return; exact Hextract].
    apply cbind_raise. now apply manifest_get_not_object.
Qed.

(* ================================================================== *)
(** * Commands: temporary files *)
(* ================================================================== *)

Create HintDb keeps.

Lemma keeps_emit (e : event) : keeps_tmpfiles (emit e).
Proof. intros w. reflexivity. Qed.

Lemma keeps_print (s : string) : keeps_tmpfiles (print s).
Proof. apply keeps_emit. Qed.

Lemma keeps_print_err (s : string) : keeps_tmpfiles (print_err s).
Proof. apply keeps_emit. Qed.

Lemma keeps_sleep (ms : nat) : keeps_tmpfiles (sleep ms).
Proof. apply keeps_emit. Qed.

Lemma keeps_if {A} (b : bool) (c1 c2 : M A) :
  keeps_tmpfiles c1 -> keeps_tmpfiles c2 -> keeps_tmpfiles (if b then c1 else c2).
Proof. now destruct b. Qed.

Lemma keeps_path_exists (p : path) : keeps_tmpfiles (path_exists p).
Proof. apply keeps_read_fs. Qed.

Lemma keeps_pgrep (E : environment) : keeps_tmpfiles (pgrep E).
Proof. intros w. reflexivity. Qed.

#[local] Hint Resolve keeps_bind keeps_ret keeps_raise keeps_on_fs keeps_read_fs
  keeps_when keeps_for_each keeps_iterdir keeps_emit keeps_print keeps_print_err
  keeps_sleep keeps_if keeps_path_exists keeps_pgrep : keeps.

Lemma keeps_check_macos (E : environment) : keeps_tmpfiles (_check_macos E).
Proof. unfold _check_macos, sys_exit. auto 10 with keeps. Qed.

Lemma keeps_check_chrome : keeps_tmpfiles _check_chrome.
Proof. unfold _check_chrome, sys_exit. auto 10 with keeps. Qed.

Lemma keeps_print_header (text : string) : keeps_tmpfiles (_print_header text).
Proof. unfold _print_header. auto 10 with keeps. Qed.

Lemma keeps_fetch_latest_release_url (E : environment) :
  keeps_tmpfiles (fetch_latest_release_url E).
Proof. intros w. now rewrite fetch_latest_release_url_world. Qed.

Lemma keeps_download_and_extract (E : environment) (url : string) :
  keeps_tmpfiles (download_and_extract E url).
Proof.
  unfold download_and_extract.
  apply keeps_bind; [apply keeps_clean_previous_install | intros _].
  apply keeps_bind; [apply download_and_unpack_restores | intros _].
  apply keeps_bind; [apply keeps_flatten_single_subdir | intros _].
  apply keeps_load_manifest.
Qed.

Lemma keeps_create_launcher_app (E : environment) :
  keeps_tmpfiles (create_launcher_app E).
Proof. unfold create_launcher_app. auto 20 with keeps. Qed.

Lemma keeps_install_app_to_applications (E : environment) (app_dir : path) :
  keeps_tmpfiles (install_app_to_applications E app_dir).
Proof. unfold install_app_to_applications. auto 20 with keeps. Qed.

Lemma keeps_wait_for_exit (E : environment) (rounds : nat) :
  keeps_tmpfiles (wait_for_exit E rounds).
Proof.
  induction rounds as [|k IH]; cbn [wait_for_exit]; auto 10 with keeps.
Qed.

Lemma keeps_quit_chrome_if_running (E : environment) :
  keeps_tmpfiles (quit_chrome_if_running E).
Proof.
  unfold quit_chrome_if_running, subprocess_run.
  pose proof (keeps_wait_for_exit E 30) as Hloop.
  set (loop := wait_for_exit E 30) in *. clearbody loop.
  auto 20 with keeps.
Qed.

Lemma keeps_cmd_uninstall (E : environment) : keeps_tmpfiles (cmd_uninstall E).
Proof.
  unfold cmd_uninstall.
  apply keeps_bind; [apply keeps_check_macos | intros _].
  apply keeps_bind; [apply keeps_print_header | intros _].
  auto 20 with keeps.
Qed.

Lemma keeps_cmd_launch (E : environment) : keeps_tmpfiles (cmd_launch E).
Proof.
  unfold cmd_launch, launch_chrome_with_ubo, sys_exit.
  apply keeps_bind; [apply keeps_check_macos | intros _].
  apply keeps_bind; [apply keeps_check_chrome | intros _].
  apply keeps_bind; [apply keeps_path_exists | intros ext].
  apply keeps_bind; [auto with keeps | intros man].
  apply keeps_if; [auto with keeps|].
  apply keeps_bind; [apply keeps_print | intros _].
  apply keeps_bind; [apply keeps_quit_chrome_if_running | intros _].
  auto 10 with keeps.
Qed.

Lemma lift_keeps {A} (c : M A) (w : world) :
  keeps_tmpfiles c -> tmpfiles (snd (lift c w)) = tmpfiles w.
Proof.
  intros Hc. unfold lift. specialize (Hc w).
  destruct (c w) as [[a|e] v]; exact Hc.
Qed.

Lemma cbind_keeps {A B} (c : C A) (k : A -> C B) :
  (forall w, tmpfiles (snd (c w)) = tmpfiles w) ->
  (forall a w, tmpfiles (snd (k a w)) = tmpfiles w) ->
  forall w, tmpfiles (snd (cbind c k w)) = tmpfiles w.
Proof.
  intros Hc Hk w. unfold cbind. specialize (Hc w).
  destruct (c w) as [[a|e] v]; simpl in Hc.
  - now rewrite Hk.
  - exact Hc.
Qed.

Lemma manifest_get_keeps (manifest : json) (key : string) (default : json) (w : world) :
  tmpfiles (snd (manifest_get manifest key default w)) = tmpfiles w.
Proof. unfold manifest_get, creturn, craise. now destruct manifest. Qed.

Lemma cmd_install_keeps (E : environment) (cs : json -> string) (w : world) :
  tmpfiles (snd (cmd_install E cs w)) = tmpfiles w.
Proof.
  revert w. unfold cmd_install.
  apply cbind_keeps; [intros w; apply lift_keeps, keeps_check_macos | intros _].
  apply cbind_keeps; [intros w; apply lift_keeps, keeps_check_chrome | intros _].
  apply cbind_keeps; [intros w; apply lift_keeps, keeps_print_header | intros _].
  apply cbind_keeps; [intros w; apply lift_keeps, keeps_print | intros _].
  apply cbind_keeps;
    [intros w; apply lift_keeps, keeps_fetch_latest_release_url | intros [url tag]].
  apply cbind_keeps; [intros w; apply lift_keeps, keeps_print | intros _].
  apply cbind_keeps; [intros w; apply lift_keeps, keeps_print | intros _].
  apply cbind_keeps;
    [intros w; apply lift_keeps, keeps_download_and_extract | intros manifest].
  apply cbind_keeps; [apply manifest_get_keeps | intros name].
  apply cbind_keeps; [apply manifest_get_keeps | intros version].
  apply cbind_keeps; [intros w; apply lift_keeps, keeps_print | intros _].
  apply cbind_keeps; [intros w; apply lift_keeps, keeps_print | intros _].
  apply cbind_keeps; [intros w; apply lift_keeps, keeps_print | intros _].
  apply cbind_keeps;
    [intros w; apply lift_keeps, keeps_create_launcher_app | intros app_dir].
  apply cbind_keeps;
    [intros w; apply lift_keeps, keeps_install_app_to_applications | intros dest].
  repeat (apply cbind_keeps; [intros w; apply lift_keeps, keeps_print | intros _]).
  intros w. apply lift_keeps, keeps_print.
Qed.

(** X16.  No command leaves a temporary file behind: whatever the
    command line, whether the parser turns it down or whichever handler
    [main] dispatches to, and whether that returns, exits or raises, the
    temporary files at the end are exactly those at the start. *)
Theorem no_command_leaves_temporary_files (E : environment) (cs : json -> string)
  (argparse : list string -> parsed) (argv : list string) (w : world) :
  tmpfiles (snd (main E cs argparse argv w)) = tmpfiles w.
Proof.
  pose proof (main_parsed E cs argparse argv w) as Hmain.
  destruct (argparse argv) as [command | code output]; rewrite Hmain;
    [|reflexivity].
  destruct (main_handler E cs command) as [-> | [-> | [[_ ->] | ->]]].
  - apply cmd_install_keeps.
  - destruct (install_update_alike E cs (same_disk_refl w)) as [_ [_ Htmp]].
    rewrite <- Htmp. apply cmd_install_keeps.
  - apply lift_keeps, keeps_cmd_uninstall.
  - apply lift_keeps, keeps_cmd_launch.
Qed.

(* ================================================================== *)
(** * Launching after installing *)
(* ================================================================== *)

Lemma manifest_file_found (E : environment) (n : node) (mode : N) (data : string) :
  lookup n (manifest_path E) = Some (File mode data) ->
  exists_ n (EXTENSION_DIR E) = true /\ exists_ n (manifest_path E) = true.
Proof.
  intros Hfile. unfold exists_. rewrite Hfile. split; [|reflexivity].
  unfold manifest_path in Hfile. rewrite lookup_snoc in Hfile.
  destruct (lookup n (EXTENSION_DIR E)) as [[?|?]|];
    [discriminate | reflexivity | discriminate].
Qed.

(** X17.  What [cmd_install] or [cmd_update] leaves behind is what
    [cmd_launch] asks for: after either has returned, and with the browser
    application still in place, [cmd_launch] does not stop at its
    installed check; it runs the quit sequence and starts the browser
    with the extension directory, then returns. *)
Theorem launch_after_install (E : environment) (cs : json -> string) (w w' : world) :
  cmd_install E cs w = (Returns tt, w') \/ cmd_update E cs w = (Returns tt, w') ->
  exists_ (fs w') chrome_app = true ->
  exists wq,
    quit_chrome_if_running E
      (log w' [Print "  Restarting Chrome with uBlock Origin..."]) = (Ok tt, wq)
    /\ cmd_launch E w'
       = (Ok tt, log wq [browser_launch E;
                         Print "  Chrome launched with uBlock Origin enabled.";
                         Print ""]).
Proof.
  intros Hrun Hchrome.
  assert (Hdone : platform E = "darwin"%string
                  /\ exists mode data,
                       lookup (fs w') (manifest_path E) = Some (File mode data)).
  { destruct Hrun as [Hrun | Hrun].
    - apply cmd_install_returns in Hrun as (Hmac & _ & (m & d & _ & Hfile & _) & _).
      split; [exact Hmac | now exists m, d].
    - destruct (install_update_alike E cs (same_disk_refl w)) as [Hres [Hfs _]].
      rewrite Hrun in Hres, Hfs. cbn [fst snd] in Hres, Hfs.
      destruct (cmd_install E cs w) as [o v] eqn:Hinstall.
      cbn [fst snd] in Hres, Hfs. subst o.
      apply cmd_install_returns in Hinstall
        as (Hmac & _ & (m & d & _ & Hfile & _) & _).
      split; [exact Hmac | exists m, d; now rewrite <- Hfs]. }
  destruct Hdone as (Hmac & m & d & Hfile).
  apply manifest_file_found in Hfile as [Hext Hman].
  now apply cmd_launch_installed.
Qed.

(* ================================================================== *)
(** * Uninstalling after installing *)
(* ================================================================== *)

(** [cmd_uninstall] on a Mac where each target is absent or a
    directory. *)
Lemma cmd_uninstall_removes (E : environment) (w : world) :
  platform E = "darwin"%string ->
  absent_or_dir (fs w) (INSTALL_DIR E) ->
  absent_or_dir (fs w) (launcher_in_applications E) ->
  exists w',
    cmd_uninstall E w = (Ok tt, w')
    /\ lookup (fs w') (INSTALL_DIR E) = None
    /\ lookup (fs w') (launcher_in_applications E) = None.
Proof.
  intros Hmac H1 H2.
  pose proof (uninstall_targets_diverge E) as Hdiv.
  unfold cmd_uninstall.
  unfold bind at 1. rewrite (check_macos_darwin E w Hmac).
  unfold bind at 1. rewrite print_header_log.
  set (w0 := log w (header_lines "Uninstalling uBlock Origin Chrome")).
  cbn [for_each]. fold (launcher_in_applications E).
  destruct (@uninstall_target (INSTALL_DIR E) w0 (path_snoc_not_root _ _) H1)
    as (w1 & Hrun1 & _ & Hgone1 & Hframe1).
  assert (H2' : absent_or_dir (fs w1) (launcher_in_applications E)).
  { unfold absent_or_dir. now rewrite (Hframe1 _ Hdiv). }
  destruct (@uninstall_target (launcher_in_applications E) w1
              (launcher_in_applications_not_root E) H2')
    as (w2 & Hrun2 & _ & Hgone2 & Hframe2).
  unfold bind at 1. unfold bind at 1. rewrite Hrun1.
  unfold bind at 1. rewrite Hrun2.
  unfold bind, ret, print. rewrite !emit_log.
  eexists. split; [reflexivity|]. simpl. split.
  - rewrite (Hframe2 _ (diverge_sym Hdiv)). exact Hgone1.
  - exact Hgone2.
Qed.

(** X18.  [cmd_uninstall] undoes an installation: after [cmd_install] or
    [cmd_update] has returned, [cmd_uninstall] returns as well, and the
    private installation directory (extension, manifest and private
    bundle with it) and the bundle under the user's Applications folder
    are gone. *)
Theorem uninstall_after_install (E : environment) (cs : json -> string) (w w' : world) :
  cmd_install E cs w = (Returns tt, w') \/ cmd_update E cs w = (Returns tt, w') ->
  exists w'',
    cmd_uninstall E w' = (Ok tt, w'')
    /\ lookup (fs w'') (INSTALL_DIR E) = None
    /\ lookup (fs w'') (manifest_path E) = None
    /\ lookup (fs w'') (private_bundle E) = None
    /\ lookup (fs w'') (launcher_in_applications E) = None.
Proof.
  intros Hrun.
  assert (Hdone : platform E = "darwin"%string
                  /\ (exists mode data,
                        lookup (fs w') (manifest_path E) = Some (File mode data))
                  /\ (exists icon,
                        lookup (fs w') (launcher_in_applications E)
                        = Some (expected_bundle E icon))).
  { destruct Hrun as [Hrun | Hrun].
    - apply cmd_install_returns in Hrun
        as (Hmac & _ & (m & d & _ & Hfile & _) & (icon & _ & Hcopy)).
      split; [exact Hmac|]. split; [now exists m, d | now exists icon].
    - destruct (install_update_alike E cs (same_disk_refl w)) as [Hres [Hfs _]].
      rewrite Hrun in Hres, Hfs. cbn [fst snd] in Hres, Hfs.
      destruct (cmd_install E cs w) as [o v] eqn:Hinstall.
      cbn [fst snd] in Hres, Hfs. subst o.
      apply cmd_install_returns in Hinstall
        as (Hmac & _ & (m & d & _ & Hfile & _) & (icon & _ & Hcopy)).
      rewrite <- Hfs.
      split; [exact Hmac|]. split; [now exists m, d | now exists icon]. }
  destruct Hdone as (Hmac & (m & d & Hfile) & (icon & Hcopy)).
  assert (H1 : absent_or_dir (fs w') (INSTALL_DIR E)).
  { right. unfold manifest_path, EXTENSION_DIR in Hfile.
    rewrite !lookup_snoc in Hfile.
    destruct (lookup (fs w') (INSTALL_DIR E)) as [[?|es]|];
      [discriminate | now exists es | discriminate]. }
  assert (H2 : absent_or_dir (fs w') (launcher_in_applications E)).
  { right. unfold expected_bundle in Hcopy. eexists. exact Hcopy. }
  destruct (cmd_uninstall_removes E w' Hmac H1 H2) as (w'' & Hun & Hgone1 & Hgone2).
  exists w''. split; [exact Hun|]. split; [exact Hgone1|].
  split; [|split; [|exact Hgone2]].
  - unfold manifest_path, EXTENSION_DIR. now rewrite !lookup_snoc, Hgone1.
  - unfold private_bundle. now rewrite lookup_snoc, Hgone1.
Qed.

(* ================================================================== *)
(** * More runs on the sample machines *)
(* ================================================================== *)

Import Faults.
Local Open Scope string_scope.

Lemma flat_archive_names : NoDup (names flat_archive).
Proof. repeat constructor; simpl; intuition discriminate. Defined.

Lemma fetch_latest_release_url_leaves_world_witness :
  fetch_latest_release_url unreachable (boot fresh_disk)
  = (Raise (URLError "unreachable"), boot fresh_disk)
  /\ fetch_latest_release_url without_assets (boot fresh_disk)
     = (Raise (RuntimeError (no_asset_message "1.60.0")), boot fresh_disk)
  /\ fetch_latest_release_url untagged (boot fresh_disk)
     = (Ok (url, "unknown"), boot fresh_disk).
Proof.
  split; [|split].
  - exact (proj1 (proj2 (fetch_latest_release_url_leaves_world
                           unreachable (boot fresh_disk))) _ eq_refl).
  - exact (proj1 (proj2 (proj2 (fetch_latest_release_url_leaves_world
                                  without_assets (boot fresh_disk))))
             _ eq_refl eq_refl).
  - exact (proj2 (proj2 (proj2 (fetch_latest_release_url_leaves_world
                                  untagged (boot fresh_disk))))
             _ _ _ eq_refl eq_refl eq_refl eq_refl).
Defined.

Lemma failed_transfer_destroys_previous_install_witness :
  (exists w',
     download_and_extract offline url (boot installed_disk)
     = (Raise (URLError "timed out"), w')
     /\ lookup (fs w') (EXTENSION_DIR offline) = Some (Dir [])
     /\ tmpfiles w' = [])
  /\
  (exists w',
     download_and_extract truncated url (boot installed_disk) = (Raise BadZipFile, w')
     /\ lookup (fs w') (EXTENSION_DIR truncated) = Some (Dir [("js", Dir [])])
     /\ tmpfiles w' = []).
Proof.
  split.
  - exact (proj1 (@failed_transfer_destroys_previous_install
                    offline url (boot installed_disk) eq_refl eq_refl)
             _ eq_refl).
  - exact (proj2 (@failed_transfer_destroys_previous_install
                    truncated url (boot installed_disk) eq_refl eq_refl)
             _ _ _ eq_refl eq_refl).
Defined.

Lemma install_flat_archive_witness :
  exists w',
    download_and_extract (mac flat_archive) url (boot installed_disk)
    = (Ok (JObject []), w')
    /\ lookup (fs w') (EXTENSION_DIR (mac flat_archive)) = Some (Dir flat_archive).
Proof.
  assert (Hflat : already_flat flat_archive) by (left; simpl; discriminate).
  destruct (@install_flat_archive (mac flat_archive) url "PK" (boot installed_disk)
              flat_archive 420%N "{}" (JObject [])
              eq_refl eq_refl eq_refl eq_refl flat_archive_names Hflat
              eq_refl eq_refl)
    as (w' & Hrun & Hdir & _).
  exists w'. split; [exact Hrun | exact Hdir].
Defined.

Lemma install_wrapped_archive_witness :
  exists w',
    download_and_extract (mac wrapped_archive) url (boot fresh_disk)
    = (Ok (JObject []), w')
    /\ lookup (fs w') (EXTENSION_DIR (mac wrapped_archive)) = Some (Dir flat_archive).
Proof.
  assert (Hfree : ~ In "uBlock0.chromium" (names flat_archive))
    by (simpl; intuition discriminate).
  destruct (@install_wrapped_archive (mac wrapped_archive) url "PK" (boot fresh_disk)
              "uBlock0.chromium" flat_archive 420%N "{}" (JObject [])
              eq_refl eq_refl eq_refl eq_refl flat_archive_names Hfree
              eq_refl eq_refl)
    as (w' & Hrun & Hdir & _).
  exists w'. split; [exact Hrun | exact Hdir].
Defined.

Lemma quit_chrome_event_by_event_witness :
  quit_chrome_if_running (machine "darwin" [] never_running) (boot fresh_disk)
  = (Ok tt, observed (boot fresh_disk) [presence_check] 1)
  /\ quit_chrome_if_running (machine "darwin" [] leaves_late) (boot fresh_disk)
     = (Ok tt,
        observed (boot fresh_disk)
          ([presence_check; Print "  Quitting Chrome..."; graceful_quit]
           ++ waiting_rounds 2
           ++ [presence_check; Print "  Chrome stopped."]) 4)
  /\ quit_chrome_if_running (machine "darwin" [] stays) (boot fresh_disk)
     = (Ok tt,
        observed (boot fresh_disk)
          ([presence_check; Print "  Quitting Chrome..."; graceful_quit]
           ++ waiting_rounds 30
           ++ [forced_kill; Sleep 1000; Print "  Chrome stopped."]) 31).
Proof.
  split; [|split].
  - apply (proj1 (quit_chrome_event_by_event
                    (machine "darwin" [] never_running) (boot fresh_disk))).
    discriminate.
  - refine (proj1 (proj1 (proj2 (quit_chrome_event_by_event
                                   (machine "darwin" [] leaves_late) (boot fresh_disk)))
                     2 _ eq_refl _ _)).
    + repeat constructor.
    + intros [|[|j]] Hj; [reflexivity | reflexivity | exfalso; lia].
    + discriminate.
  - refine (proj1 (proj2 (proj2 (quit_chrome_event_by_event
                                   (machine "darwin" [] stays) (boot fresh_disk)))
                     _)).
    intros j _. reflexivity.
Defined.

Lemma create_launcher_app_builds_bundle_witness :
  let E := mac [] in
  let built := create_launcher_app E (boot fresh_disk) in
  built = (Ok (private_bundle E), snd built)
  /\ lookup (fs (snd built)) (private_bundle E)
     = Some (expected_bundle E (Some (File 420 "icns"))).
Proof.
  intros E built.
  assert (Hbuilt : built = (Ok (private_bundle E), snd built))
    by (vm_compute; reflexivity).
  split; [exact Hbuilt|].
  exact (proj1 (proj2 (@create_launcher_app_builds_bundle
                         E (boot fresh_disk) (snd built) (private_bundle E) Hbuilt))).
Defined.

Lemma install_app_to_applications_copies_witness :
  let E := mac [] in
  let copied := install_app_to_applications E (private_bundle E) (boot installed_disk) in
  copied = (Ok (launcher_in_applications E), snd copied)
  /\ exists es,
       lookup installed_disk (private_bundle E) = Some (Dir es)
       /\ lookup (fs (snd copied)) (launcher_in_applications E) = Some (Dir es).
Proof.
  intros E copied.
  assert (Hcopied : copied = (Ok (launcher_in_applications E), snd copied))
    by (vm_compute; reflexivity).
  split; [exact Hcopied|].
  exact (proj1 (proj2 (@install_app_to_applications_copies
                         E (private_bundle E) (launcher_in_applications E)
                         (boot installed_disk) (snd copied)
                         (bundles_diverge E) Hcopied))).
Defined.

Lemma install_app_without_source_removes_copy_witness :
  let E := mac [] in
  exists w',
    install_app_to_applications E (private_bundle E) (boot copy_only_disk)
    = (Raise FileNotFoundError, w')
    /\ lookup (fs w') (launcher_in_applications E) = None.
Proof.
  intros E.
  exact (@install_app_without_source_removes_copy
           E (private_bundle E) (boot copy_only_disk) [("Contents", Dir [])]
           (bundles_diverge E) eq_refl eq_refl).
Defined.

Lemma main_preflight_gates_witness :
  main (mac []) no_container one_word ["bogus"] (boot installed_disk)
  = (Raises (Operation (SystemExit 2)), log (boot installed_disk) [PrintErr usage])
  /\ main (machine "linux" [] never_running) no_container one_word ["update"]
       (boot installed_disk)
     = (Raises (Operation (SystemExit 1)),
        log (boot installed_disk) [PrintErr "Error: ublock-chrome is macOS-only."])
  /\ main (mac []) no_container one_word [] (boot bare_disk)
     = (Raises (Operation (SystemExit 1)),
        log (boot bare_disk) [PrintErr chrome_missing_message]).
Proof.
  split; [|split].
  - exact (proj1 (main_preflight_gates (mac []) no_container one_word ["bogus"]
                    (boot installed_disk)) _ _ eq_refl).
  - apply (proj1 (proj2 (main_preflight_gates (machine "linux" [] never_running)
                           no_container one_word ["update"] (boot installed_disk))
                    _ eq_refl)).
    discriminate.
  - apply (proj2 (proj2 (main_preflight_gates (mac []) no_container one_word []
                           (boot bare_disk))
                    _ eq_refl));
      [reflexivity | reflexivity | discriminate].
Defined.

Lemma launch_after_uninstall_witness :
  let E := mac [] in
  let removed := cmd_uninstall E (boot installed_disk) in
  removed = (Ok tt, snd removed)
  /\ cmd_launch E (snd removed)
     = (Raise (SystemExit 1), log (snd removed) [PrintErr not_installed_message]).
Proof.
  intros E removed.
  assert (Hremoved : removed = (Ok tt, snd removed)) by (vm_compute; reflexivity).
  split; [exact Hremoved|].
  exact (proj2 (proj2 (proj2 (@launch_after_uninstall
                                E (boot installed_disk) (snd removed)
                                Hremoved eq_refl)))).
Defined.


Lemma failed_resolution_changes_no_file_witness :
  exists w',
    cmd_update unreachable no_container (boot installed_disk)
    = (Raises (Operation (URLError "unreachable")), w')
    /\ fs w' = installed_disk.
Proof.
  destruct (proj2 (@failed_resolution_changes_no_file
                     unreachable no_container (boot installed_disk)
                     (URLError "unreachable") eq_refl eq_refl eq_refl))
    as (w' & Hrun & Hfs & _).
  exists w'. split; [exact Hrun | exact Hfs].
Defined.

Lemma finished_installation_is_complete_witness :
  let E := mac wrapped_archive in
  let done := cmd_install E no_container (boot fresh_disk) in
  done = (Returns tt, snd done)
  /\ exists icon,
       lookup (fs (snd done)) (private_bundle E) = Some (expected_bundle E icon)
       /\ lookup (fs (snd done)) (launcher_in_applications E)
          = Some (expected_bundle E icon).
Proof.
  intros E done.
  assert (Hdone : done = (Returns tt, snd done)) by (vm_compute; reflexivity).
  split; [exact Hdone|].
  exact (proj2 (proj2 (proj2 (@finished_installation_is_complete
                                E no_container (boot fresh_disk) (snd done)
                                (or_introl Hdone))))).
Defined.

Lemma manifest_must_be_an_object_witness :
  let w0 := log (boot fresh_disk) (install_preamble "1.60.0") in
  let extracted := download_and_extract list_manifest url w0 in
  extracted = (Ok (JArray []), snd extracted)
  /\ cmd_install list_manifest no_container (boot fresh_disk)
     = (Raises (AttributeError "'list' object has no attribute 'get'"), snd extracted).
Proof.
  intros w0 extracted.
  assert (Hextracted : extracted = (Ok (JArray []), snd extracted))
    by (vm_compute; reflexivity).
  split; [exact Hextracted|].
  assert (Hshape : forall members, JArray [] <> JObject members) by discriminate.
  exact (proj1 (proj1 (@manifest_must_be_an_object list_manifest no_container
                         (boot fresh_disk) url "1.60.0" (JArray [])
                         eq_refl eq_refl eq_refl Hshape)
                  (snd extracted) Hextracted)).
Defined.

Lemma launch_after_install_witness :
  let E := mac wrapped_archive in
  let done := cmd_install E no_container (boot fresh_disk) in
  done = (Returns tt, snd done)
  /\ exists wq,
       cmd_launch E (snd done)
       = (Ok tt, log wq [browser_launch E;
                         Print "  Chrome launched with uBlock Origin enabled.";
                         Print ""]).
Proof.
  intros E done.
  assert (Hdone : done = (Returns tt, snd done)) by (vm_compute; reflexivity).
  split; [exact Hdone|].
  destruct (@launch_after_install E no_container (boot fresh_disk) (snd done)
              (or_introl Hdone)) as (wq & _ & Hlaunch).
  - vm_compute. reflexivity.
  - now exists wq.
Defined.

Lemma uninstall_after_install_witness :
  let E := mac flat_archive in
  let done := cmd_update E no_container (boot installed_disk) in
  done = (Returns tt, snd done)
  /\ exists w'',
       cmd_uninstall E (snd done) = (Ok tt, w'')
       /\ lookup (fs w'') (INSTALL_DIR E) = None
       /\ lookup (fs w'') (launcher_in_applications E) = None.
Proof.
  intros E done.
  assert (Hdone : done = (Returns tt, snd done)) by (vm_compute; reflexivity).
  split; [exact Hdone|].
  destruct (@uninstall_after_install E no_container (boot installed_disk) (snd done)
              (or_intror Hdone)) as (w'' & Hun & Hgone & _ & _ & Hcopy).
  exists w''. split; [exact Hun | split; [exact Hgone | exact Hcopy]].
Defined.
